(** * The rules engine of mtga-coach: mana payment, priority, phases, legality

    A shallow embedding of the Python sources under [src/] together with the
    properties of the natural-language specification that concern them.

    Conventions of the embedding:
    - a Python [int] is a [Z]; [Optional[T]] is [option T]; a [Set[int]] is a
      [gset Z]; a [List[T]] is a [list T];
    - a Python class is a Rocq module holding a record [t] and the methods;
      a method that mutates [self] returns the new object next to its result;
    - a Python exception is a value of [PyExc]; code that may raise lives in
      the error monad [Exc], and every [try: ... except Exception:] of the
      source is written out where it stands;
    - text is restricted to ASCII ([str.upper], [str.lower], [str.isdigit]
      and [int()] are the ASCII ones); [int()] refuses a string of more than
      4300 digits with [ValueError], which [PyStr.int_exc] and the constructor
      [ManaCost.new_exc] spell out, while [PyStr.int], [ManaCost.new] and the
      payment functions give the values for numbers within that limit;
    - state-change callbacks
      ([GameState.state_change_callbacks]) are taken to be the default empty
      list, so that [_notify_state_change] does nothing;
    - [CardInfo] declares no [type_line] and the constructor drops the
      keyword, so the cards of the class carry none; the field of the
      embedding is [None] for them. *)

From Stdlib Require Import ZArith Lia List String Ascii Bool.
From stdpp Require Import gmap strings.
Import ListNotations.
Local Open Scope Z_scope.

(** ** Python exceptions *)

Inductive PyExc :=
| AttributeError (attr : string)
| NameError (name : string)
| ZeroDivisionError
| ValueError.

Definition Exc (A : Type) : Type := (PyExc + A)%type.

Definition ret {A : Type} (a : A) : Exc A := inr a.
Definition raise {A : Type} (e : PyExc) : Exc A := inl e.

Notation "'let*' x ':=' m 'in' k" :=
  (match m with inl e => inl e | inr x => k end)
  (at level 10, x name, m at level 100, k at level 200, only parsing).

(** [try: return body  except Exception: return dflt] *)
Definition try_except {A : Type} (body : Exc A) (dflt : A) : A :=
  match body with inl _ => dflt | inr a => a end.

(** ** The string operations the sources use *)

Module PyStr.

Definition in_range (lo hi : nat) (c : ascii) : bool :=
  let n := nat_of_ascii c in ((lo <=? n)%nat && (n <=? hi)%nat)%bool.

Definition is_digit (c : ascii) : bool := in_range 48 57 c.
Definition is_lower (c : ascii) : bool := in_range 97 122 c.
Definition is_upper (c : ascii) : bool := in_range 65 90 c.

Definition upper_char (c : ascii) : ascii :=
  if is_lower c then ascii_of_nat (nat_of_ascii c - 32) else c.
Definition lower_char (c : ascii) : ascii :=
  if is_upper c then ascii_of_nat (nat_of_ascii c + 32) else c.

Fixpoint map_chars (f : ascii -> ascii) (s : string) : string :=
  match s with
  | EmptyString => EmptyString
  | String c t => String (f c) (map_chars f t)
  end.

(** [s.upper()], [s.lower()] *)
Definition upper : string -> string := map_chars upper_char.
Definition lower : string -> string := map_chars lower_char.

(** [s.replace(c, '')] for a one-character [c] *)
Fixpoint remove_char (c : ascii) (s : string) : string :=
  match s with
  | EmptyString => EmptyString
  | String d t =>
      if Ascii.eqb d c then remove_char c t else String d (remove_char c t)
  end.

(** [c in s] for a one-character [c] *)
Fixpoint contains_char (c : ascii) (s : string) : bool :=
  match s with
  | EmptyString => false
  | String d t => Ascii.eqb d c || contains_char c t
  end.

Fixpoint starts_with (p s : string) : bool :=
  match p, s with
  | EmptyString, _ => true
  | String _ _, EmptyString => false
  | String a p', String b s' => Ascii.eqb a b && starts_with p' s'
  end.

(** [sub in s] *)
Fixpoint contains (sub s : string) : bool :=
  starts_with sub s ||
  match s with
  | EmptyString => false
  | String _ t => contains sub t
  end.

Fixpoint all_digits (s : string) : bool :=
  match s with
  | EmptyString => true
  | String c t => is_digit c && all_digits t
  end.

(** [s.isdigit()]: non-empty and made of digits *)
Definition isdigit (s : string) : bool :=
  match s with
  | EmptyString => false
  | String _ _ => all_digits s
  end.

Fixpoint int_acc (acc : Z) (s : string) : Z :=
  match s with
  | EmptyString => acc
  | String c t => int_acc (10 * acc + Z.of_nat (nat_of_ascii c - 48)) t
  end.

(** The value of [int(s)] on a string for which [isdigit] holds. *)
Definition int (s : string) : Z := int_acc 0 s.

(** [s.split(sep)] for a one-character separator *)
Fixpoint split (sep : ascii) (s : string) : list string :=
  match s with
  | EmptyString => [EmptyString]
  | String c t =>
      if Ascii.eqb c sep then EmptyString :: split sep t
      else match split sep t with
           | [] => [String c EmptyString]
           | h :: r => String c h :: r
           end
  end.

(** [len(s)] *)
Definition len (s : string) : Z := Z.of_nat (String.length s).

(** The most digits that [int] converts: CPython's default
    [sys.int_info.default_max_str_digits]. *)
Definition int_max_str_digits : Z := 4300.

(** [int(s)] on a string for which [isdigit] holds, as Python has it: a
    string of more digits than the limit, leading zeros counted, raises
    [ValueError]. *)
Definition int_exc (s : string) : Exc Z :=
  if int_max_str_digits <? len s then raise ValueError else ret (int s).

(** [s[1:-1]] *)
Fixpoint drop_last (s : string) : string :=
  match s with
  | EmptyString => EmptyString
  | String c EmptyString => EmptyString
  | String c t => String c (drop_last t)
  end.

Definition slice_1_m1 (s : string) : string :=
  match s with
  | EmptyString => EmptyString
  | String _ t => drop_last t
  end.

Definition open_brace : ascii := "{"%char.
Definition close_brace : ascii := "}"%char.

(** The longest prefix free of a closing brace, and what follows it. *)
Fixpoint span_not_close (s : string) : string * string :=
  match s with
  | EmptyString => (EmptyString, EmptyString)
  | String c t =>
      if Ascii.eqb c close_brace then (EmptyString, s)
      else let '(run, rest) := span_not_close t in (String c run, rest)
  end.

(** [re.findall(r'\{[^}]+\}', s)]: scanning from the left, a match starts
    at an opening brace, takes one or more characters other than the
    closing brace and ends at the closing brace that follows them; the
    scan resumes behind the match, or one character further when there is
    no match at the current position. *)
Fixpoint findall_fuel (fuel : nat) (s : string) : list string :=
  match fuel with
  | O => []
  | S fuel' =>
      match s with
      | EmptyString => []
      | String c t =>
          if Ascii.eqb c open_brace then
            match span_not_close t with
            | (String c1 run, String _ rest) =>
                String open_brace
                  (String c1 run +:+ String close_brace EmptyString)
                :: findall_fuel fuel' rest
            | _ => findall_fuel fuel' t
            end
          else findall_fuel fuel' t
      end
  end.

Definition findall_braced (s : string) : list string :=
  findall_fuel (String.length s) s.

End PyStr.

(** ** parser/events.py *)

(** [class Phase(str, Enum)], lines 33-46. *)
Module Phase.

Inductive t :=
| UNTAP | UPKEEP | DRAW | FIRST_MAIN | COMBAT_BEGIN | DECLARE_ATTACKERS
| DECLARE_BLOCKERS | COMBAT_DAMAGE | COMBAT_END | SECOND_MAIN | END_STEP
| CLEANUP.

#[global] Instance eq_dec : EqDecision t.
Proof. solve_decision. Defined.

(** The members of the enumeration by name: [Phase.<name>] evaluates to
    the member, and raises [AttributeError] for a name that the class
    does not define. *)
Definition members : list (string * t) :=
  [ ("UNTAP"%string, UNTAP); ("UPKEEP"%string, UPKEEP);
    ("DRAW"%string, DRAW); ("FIRST_MAIN"%string, FIRST_MAIN);
    ("COMBAT_BEGIN"%string, COMBAT_BEGIN);
    ("DECLARE_ATTACKERS"%string, DECLARE_ATTACKERS);
    ("DECLARE_BLOCKERS"%string, DECLARE_BLOCKERS);
    ("COMBAT_DAMAGE"%string, COMBAT_DAMAGE);
    ("COMBAT_END"%string, COMBAT_END);
    ("SECOND_MAIN"%string, SECOND_MAIN);
    ("END_STEP"%string, END_STEP); ("CLEANUP"%string, CLEANUP) ].

Fixpoint lookup_member (name : string) (l : list (string * t)) : Exc t :=
  match l with
  | [] => raise (AttributeError name)
  | (n, p) :: l' => if String.eqb n name then ret p else lookup_member name l'
  end.

Definition getattr (name : string) : Exc t := lookup_member name members.

End Phase.

Module CardType.

Inductive t :=
| CREATURE | INSTANT | SORCERY | ENCHANTMENT | ARTIFACT | PLANESWALKER | LAND.

#[global] Instance eq_dec : EqDecision t.
Proof. solve_decision. Defined.

End CardType.

Module ZoneType.

Inductive t := BATTLEFIELD | HAND | GRAVEYARD | LIBRARY | EXILE | STACK | COMMAND.

#[global] Instance eq_dec : EqDecision t.
Proof. solve_decision. Defined.

End ZoneType.

(** [class CardInfo(BaseModel)], lines 80-97.  The fields the rules read are
    kept.  [type_line] is not declared by the class: rules/card_restrictions.py
    line 308 and rules/legality_engine.py line 508 read [card.type_line] all
    the same, so the attribute is optional here.  It is [None] for every
    object of the class itself: the constructor drops a [type_line] keyword
    (tests/test_legality.py passes one), and reading the attribute raises
    [AttributeError].  [Some] stands for an object of a subclass that
    declares the field. *)
Module CardInfo.

Record t := mk {
  instance_id : Z;
  name : string;
  mana_cost : string;
  power : option Z;
  card_types : list CardType.t;
  abilities : list string;
  zone_type : option ZoneType.t;
  type_line : option string
}.

Definition get_type_line (c : t) : Exc string :=
  match type_line c with
  | Some s => ret s
  | None => raise (AttributeError "type_line")
  end.

(** [ty in card.card_types] *)
Definition has_type (ty : CardType.t) (c : t) : bool :=
  bool_decide (ty ∈ card_types c).

End CardInfo.

(** ** state/player_state.py *)

Module ManaPool.

Record t := mk {
  white : Z; blue : Z; black : Z; red : Z; green : Z; colorless : Z
}.

Definition empty : t := mk 0 0 0 0 0 0.

Definition total_mana (p : t) : Z :=
  white p + blue p + black p + red p + green p + colorless p.

Definition set_white (v : Z) (p : t) : t :=
  mk v (blue p) (black p) (red p) (green p) (colorless p).
Definition set_blue (v : Z) (p : t) : t :=
  mk (white p) v (black p) (red p) (green p) (colorless p).
Definition set_black (v : Z) (p : t) : t :=
  mk (white p) (blue p) v (red p) (green p) (colorless p).
Definition set_red (v : Z) (p : t) : t :=
  mk (white p) (blue p) (black p) v (green p) (colorless p).
Definition set_green (v : Z) (p : t) : t :=
  mk (white p) (blue p) (black p) (red p) v (colorless p).
Definition set_colorless (v : Z) (p : t) : t :=
  mk (white p) (blue p) (black p) (red p) (green p) v.

(** The cost that the pool's own, simplified check counts: the characters
    of the text once the braces are removed. *)
Definition cost_amount (cost : string) : Z :=
  PyStr.len (PyStr.remove_char "}" (PyStr.remove_char "{" cost)).

Definition can_pay_cost (cost : string) (p : t) : bool :=
  cost_amount cost <=? total_mana p.

Definition pay_cost (cost : string) (p : t) : bool * t :=
  if negb (can_pay_cost cost p) then (false, p)
  else if cost_amount cost <=? colorless p
  then (true, set_colorless (colorless p - cost_amount cost) p)
  else (false, p).

End ManaPool.

Module Hand.

Record t := mk { cards : list CardInfo.t; max_size : Z }.

Definition empty : t := mk [] 7.

Definition size (h : t) : Z := Z.of_nat (length (cards h)).

Definition add_card (card : CardInfo.t) (h : t) : bool * t :=
  if size h <? max_size h then (true, mk (cards h ++ [card]) (max_size h))
  else (false, h).

(** The first card with the given instance id. *)
Fixpoint find_card (instance_id : Z) (l : list CardInfo.t) : option CardInfo.t :=
  match l with
  | [] => None
  | c :: l' =>
      if CardInfo.instance_id c =? instance_id then Some c
      else find_card instance_id l'
  end.

(** [list.pop(i)] at the first card with the given instance id. *)
Fixpoint pop_card (instance_id : Z) (l : list CardInfo.t) : list CardInfo.t :=
  match l with
  | [] => []
  | c :: l' =>
      if CardInfo.instance_id c =? instance_id then l'
      else c :: pop_card instance_id l'
  end.

Definition get_card (instance_id : Z) (h : t) : option CardInfo.t :=
  find_card instance_id (cards h).

Definition remove_card (instance_id : Z) (h : t) : option CardInfo.t * t :=
  (find_card instance_id (cards h),
   mk (pop_card instance_id (cards h)) (max_size h)).

End Hand.

Module Battlefield.

Record t := mk {
  creatures : list CardInfo.t;
  lands : list CardInfo.t;
  artifacts : list CardInfo.t;
  enchantments : list CardInfo.t;
  planeswalkers : list CardInfo.t;
  other : list CardInfo.t
}.

Definition empty : t := mk [] [] [] [] [] [].

Definition add_card (card : CardInfo.t) (b : t) : t :=
  if CardInfo.has_type CardType.CREATURE card then
    mk (creatures b ++ [card]) (lands b) (artifacts b) (enchantments b)
       (planeswalkers b) (other b)
  else if CardInfo.has_type CardType.LAND card then
    mk (creatures b) (lands b ++ [card]) (artifacts b) (enchantments b)
       (planeswalkers b) (other b)
  else if CardInfo.has_type CardType.ARTIFACT card then
    mk (creatures b) (lands b) (artifacts b ++ [card]) (enchantments b)
       (planeswalkers b) (other b)
  else if CardInfo.has_type CardType.ENCHANTMENT card then
    mk (creatures b) (lands b) (artifacts b) (enchantments b ++ [card])
       (planeswalkers b) (other b)
  else if CardInfo.has_type CardType.PLANESWALKER card then
    mk (creatures b) (lands b) (artifacts b) (enchantments b)
       (planeswalkers b ++ [card]) (other b)
  else
    mk (creatures b) (lands b) (artifacts b) (enchantments b)
       (planeswalkers b) (other b ++ [card]).

Definition get_all_cards (b : t) : list CardInfo.t :=
  creatures b ++ lands b ++ artifacts b ++ enchantments b ++
  planeswalkers b ++ other b.

(** The categories are searched in the order of [get_all_cards], so the
    first hit of the nested loops is the first hit in that list. *)
Definition get_card (instance_id : Z) (b : t) : option CardInfo.t :=
  Hand.find_card instance_id (get_all_cards b).

Definition get_creatures (b : t) : list CardInfo.t := creatures b.

Definition holds (instance_id : Z) (category : list CardInfo.t) : bool :=
  match Hand.find_card instance_id category with
  | Some _ => true
  | None => false
  end.

(** [remove_card]: the categories in turn, and [category.pop(i)] at the
    first card of the instance id. *)
Definition remove_card (instance_id : Z) (b : t) : option CardInfo.t * t :=
  if holds instance_id (creatures b) then
    (Hand.find_card instance_id (creatures b),
     mk (Hand.pop_card instance_id (creatures b)) (lands b) (artifacts b)
        (enchantments b) (planeswalkers b) (other b))
  else if holds instance_id (lands b) then
    (Hand.find_card instance_id (lands b),
     mk (creatures b) (Hand.pop_card instance_id (lands b)) (artifacts b)
        (enchantments b) (planeswalkers b) (other b))
  else if holds instance_id (artifacts b) then
    (Hand.find_card instance_id (artifacts b),
     mk (creatures b) (lands b) (Hand.pop_card instance_id (artifacts b))
        (enchantments b) (planeswalkers b) (other b))
  else if holds instance_id (enchantments b) then
    (Hand.find_card instance_id (enchantments b),
     mk (creatures b) (lands b) (artifacts b)
        (Hand.pop_card instance_id (enchantments b)) (planeswalkers b) (other b))
  else if holds instance_id (planeswalkers b) then
    (Hand.find_card instance_id (planeswalkers b),
     mk (creatures b) (lands b) (artifacts b) (enchantments b)
        (Hand.pop_card instance_id (planeswalkers b)) (other b))
  else if holds instance_id (other b) then
    (Hand.find_card instance_id (other b),
     mk (creatures b) (lands b) (artifacts b) (enchantments b)
        (planeswalkers b) (Hand.pop_card instance_id (other b)))
  else (None, b).

End Battlefield.

Module PlayerState.

(** The fields of [class PlayerState] that the rules engine reads or
    writes; [player_type], [graveyard] and the poison, experience and
    commander counters play no part in it. *)
Record t := mk {
  player_id : Z;
  life_total : Z;
  max_hand_size : Z;
  hand : Hand.t;
  battlefield : Battlefield.t;
  mana_pool : ManaPool.t;
  has_played_land_this_turn : bool;
  has_attacked_this_turn : bool;
  has_used_ability_this_turn : gset string;
  energy_counters : Z
}.

(** [PlayerState(player_id=..., player_type=..., life_total=...)] *)
Definition new (player_id life_total : Z) : t :=
  mk player_id life_total 7 Hand.empty Battlefield.empty ManaPool.empty
     false false ∅ 0.

Definition set_life_total (v : Z) (p : t) : t :=
  mk (player_id p) v (max_hand_size p) (hand p) (battlefield p) (mana_pool p)
     (has_played_land_this_turn p) (has_attacked_this_turn p)
     (has_used_ability_this_turn p) (energy_counters p).

Definition set_hand (v : Hand.t) (p : t) : t :=
  mk (player_id p) (life_total p) (max_hand_size p) v (battlefield p)
     (mana_pool p) (has_played_land_this_turn p) (has_attacked_this_turn p)
     (has_used_ability_this_turn p) (energy_counters p).

Definition set_battlefield (v : Battlefield.t) (p : t) : t :=
  mk (player_id p) (life_total p) (max_hand_size p) (hand p) v (mana_pool p)
     (has_played_land_this_turn p) (has_attacked_this_turn p)
     (has_used_ability_this_turn p) (energy_counters p).

Definition set_mana_pool (v : ManaPool.t) (p : t) : t :=
  mk (player_id p) (life_total p) (max_hand_size p) (hand p) (battlefield p) v
     (has_played_land_this_turn p) (has_attacked_this_turn p)
     (has_used_ability_this_turn p) (energy_counters p).

Definition set_has_played_land_this_turn (v : bool) (p : t) : t :=
  mk (player_id p) (life_total p) (max_hand_size p) (hand p) (battlefield p)
     (mana_pool p) v (has_attacked_this_turn p)
     (has_used_ability_this_turn p) (energy_counters p).

Definition set_energy_counters (v : Z) (p : t) : t :=
  mk (player_id p) (life_total p) (max_hand_size p) (hand p) (battlefield p)
     (mana_pool p) (has_played_land_this_turn p) (has_attacked_this_turn p)
     (has_used_ability_this_turn p) v.

Definition can_play_land (p : t) : bool := negb (has_played_land_this_turn p).
Definition can_attack (p : t) : bool := negb (has_attacked_this_turn p).

Definition can_use_ability (ability_name : string) (p : t) : bool :=
  bool_decide (ability_name ∉ has_used_ability_this_turn p).

Definition reset_turn_flags (p : t) : t :=
  mk (player_id p) (life_total p) (max_hand_size p) (hand p) (battlefield p)
     (mana_pool p) false false ∅ (energy_counters p).

Definition is_alive (p : t) : bool := 0 <? life_total p.

(** [take_damage] returns the damage actually taken and the new state. *)
Definition take_damage (amount : Z) (p : t) : Z * t :=
  if amount <=? 0 then (0, p)
  else
    let actual_damage := Z.min amount (life_total p) in
    (actual_damage, set_life_total (Z.max 0 (life_total p - amount)) p).

Definition set_has_used_ability_this_turn (v : gset string) (p : t) : t :=
  mk (player_id p) (life_total p) (max_hand_size p) (hand p) (battlefield p)
     (mana_pool p) (has_played_land_this_turn p) (has_attacked_this_turn p)
     v (energy_counters p).

Definition use_ability (ability_name : string) (p : t) : bool * t :=
  (true,
   set_has_used_ability_this_turn
     ({[ability_name]} ∪ has_used_ability_this_turn p) p).

Definition gain_life (amount : Z) (p : t) : Z * t :=
  if amount <=? 0 then (0, p)
  else (amount, set_life_total (life_total p + amount) p).

Definition add_mana (color : string) (amount : Z) (p : t) : bool * t :=
  let pool := mana_pool p in
  if String.eqb (PyStr.lower color) "w" then
    (true, set_mana_pool (ManaPool.set_white (ManaPool.white pool + amount) pool) p)
  else if String.eqb (PyStr.lower color) "u" then
    (true, set_mana_pool (ManaPool.set_blue (ManaPool.blue pool + amount) pool) p)
  else if String.eqb (PyStr.lower color) "b" then
    (true, set_mana_pool (ManaPool.set_black (ManaPool.black pool + amount) pool) p)
  else if String.eqb (PyStr.lower color) "r" then
    (true, set_mana_pool (ManaPool.set_red (ManaPool.red pool + amount) pool) p)
  else if String.eqb (PyStr.lower color) "g" then
    (true, set_mana_pool (ManaPool.set_green (ManaPool.green pool + amount) pool) p)
  else if String.eqb (PyStr.lower color) "c" then
    (true, set_mana_pool
             (ManaPool.set_colorless (ManaPool.colorless pool + amount) pool) p)
  else (false, p).

(** The loops of [get_total_power] and [get_total_toughness] skip a
    creature whose value is [None]. *)
Definition get_total_power (p : t) : Z :=
  fold_left (fun total creature =>
               match CardInfo.power creature with
               | Some n => total + n
               | None => total
               end)
            (Battlefield.creatures (battlefield p)) 0.

Definition get_creature_count (p : t) : Z :=
  Z.of_nat (length (Battlefield.creatures (battlefield p))).

Definition get_land_count (p : t) : Z :=
  Z.of_nat (length (Battlefield.lands (battlefield p))).

End PlayerState.

(** ** rules/mana_system.py *)

Module ManaCost.

Record t := mk {
  cost_string : string;
  white : Z; blue : Z; black : Z; red : Z; green : Z; colorless : Z;
  generic : Z;
  hybrid : list string;
  phyrexian : list string;
  snow : Z; energy : Z; life : Z
}.

(** The assignments of [__init__] before [_parse_cost] runs. *)
Definition init (s : string) : t := mk s 0 0 0 0 0 0 0 [] [] 0 0 0.

(** The body of the loop of [_parse_cost] (lines 54-82) for one symbol,
    braces already removed.  The chain has no final [else]: a symbol that
    meets none of the tests leaves the cost as it is. *)
Definition add_symbol (c : t) (symbol : string) : t :=
  let '(mk s w u b r g cl gen hy ph sn en li) := c in
  if String.eqb symbol "W" then mk s (w + 1) u b r g cl gen hy ph sn en li
  else if String.eqb symbol "U" then mk s w (u + 1) b r g cl gen hy ph sn en li
  else if String.eqb symbol "B" then mk s w u (b + 1) r g cl gen hy ph sn en li
  else if String.eqb symbol "R" then mk s w u b (r + 1) g cl gen hy ph sn en li
  else if String.eqb symbol "G" then mk s w u b r (g + 1) cl gen hy ph sn en li
  else if String.eqb symbol "C" then mk s w u b r g (cl + 1) gen hy ph sn en li
  else if PyStr.isdigit symbol then
    mk s w u b r g cl (gen + PyStr.int symbol) hy ph sn en li
  else if PyStr.contains_char "/" symbol then
    mk s w u b r g cl gen (hy ++ [symbol]) ph sn en li
  else if PyStr.contains_char "P" symbol then
    mk s w u b r g cl gen hy (ph ++ [symbol]) sn en li
  else if PyStr.contains_char "S" symbol then
    mk s w u b r g cl gen hy ph (sn + 1) en li
  else if PyStr.contains_char "E" symbol then
    mk s w u b r g cl gen hy ph sn (en + 1) li
  else if PyStr.contains_char "L" symbol then
    mk s w u b r g cl gen hy ph sn en (li + 1)
  else c.

(** [symbols = re.findall(...)], then [symbol[1:-1]] for each of them. *)
Definition symbols_of (s : string) : list string :=
  map PyStr.slice_1_m1
      (PyStr.findall_braced (PyStr.upper (PyStr.remove_char " " s))).

Definition _parse_cost (c : t) : t :=
  match cost_string c with
  | EmptyString => c
  | String _ _ => fold_left add_symbol (symbols_of (cost_string c)) c
  end.

(** The cost that [ManaCost(cost_string)] builds when it returns. *)
Definition new (s : string) : t := _parse_cost (init s).

(** The body of the loop once more, with [int] as Python has it: the
    branch of an all-digit symbol raises when [int] refuses the symbol. *)
Definition add_symbol_exc (c : t) (symbol : string) : Exc t :=
  let '(mk s w u b r g cl gen hy ph sn en li) := c in
  if String.eqb symbol "W" then ret (mk s (w + 1) u b r g cl gen hy ph sn en li)
  else if String.eqb symbol "U" then ret (mk s w (u + 1) b r g cl gen hy ph sn en li)
  else if String.eqb symbol "B" then ret (mk s w u (b + 1) r g cl gen hy ph sn en li)
  else if String.eqb symbol "R" then ret (mk s w u b (r + 1) g cl gen hy ph sn en li)
  else if String.eqb symbol "G" then ret (mk s w u b r (g + 1) cl gen hy ph sn en li)
  else if String.eqb symbol "C" then ret (mk s w u b r g (cl + 1) gen hy ph sn en li)
  else if PyStr.isdigit symbol then
    let* n := PyStr.int_exc symbol in
    ret (mk s w u b r g cl (gen + n) hy ph sn en li)
  else if PyStr.contains_char "/" symbol then
    ret (mk s w u b r g cl gen (hy ++ [symbol]) ph sn en li)
  else if PyStr.contains_char "P" symbol then
    ret (mk s w u b r g cl gen hy (ph ++ [symbol]) sn en li)
  else if PyStr.contains_char "S" symbol then
    ret (mk s w u b r g cl gen hy ph (sn + 1) en li)
  else if PyStr.contains_char "E" symbol then
    ret (mk s w u b r g cl gen hy ph sn (en + 1) li)
  else if PyStr.contains_char "L" symbol then
    ret (mk s w u b r g cl gen hy ph sn en (li + 1))
  else ret c.

(** [for symbol in symbols: ...]: the loop stops at the first symbol that
    raises. *)
Fixpoint parse_symbols_exc (symbols : list string) (c : t) : Exc t :=
  match symbols with
  | [] => ret c
  | symbol :: rest =>
      let* c' := add_symbol_exc c symbol in parse_symbols_exc rest c'
  end.

Definition _parse_cost_exc (c : t) : Exc t :=
  match cost_string c with
  | EmptyString => ret c
  | String _ _ => parse_symbols_exc (symbols_of (cost_string c)) c
  end.

(** [ManaCost(cost_string)], the constructor with its [ValueError]. *)
Definition new_exc (s : string) : Exc t := _parse_cost_exc (init s).

Definition get_total_cost (c : t) : Z :=
  white c + blue c + black c + red c + green c + colorless c + generic c +
  Z.of_nat (length (hybrid c)) + Z.of_nat (length (phyrexian c)) + snow c.

Definition is_colorless (c : t) : bool :=
  (white c =? 0) && (blue c =? 0) && (black c =? 0) && (red c =? 0) &&
  (green c =? 0) && (Z.of_nat (length (hybrid c)) =? 0).

Definition is_mono_colored (c : t) : bool :=
  let colored_count := white c + blue c + black c + red c + green c in
  (colored_count =? 1) && (Z.of_nat (length (hybrid c)) =? 0).

Definition get_primary_color (c : t) : option string :=
  if 0 <? white c then Some "white"%string
  else if 0 <? blue c then Some "blue"%string
  else if 0 <? black c then Some "black"%string
  else if 0 <? red c then Some "red"%string
  else if 0 <? green c then Some "green"%string
  else None.

End ManaCost.

Module ManaSystem.

Import PlayerState.

Definition _can_pay_basic_mana (cost : ManaCost.t) (player : PlayerState.t) : bool :=
  let pool := mana_pool player in
  if ManaPool.white pool <? ManaCost.white cost then false
  else if ManaPool.blue pool <? ManaCost.blue cost then false
  else if ManaPool.black pool <? ManaCost.black cost then false
  else if ManaPool.red pool <? ManaCost.red cost then false
  else if ManaPool.green pool <? ManaCost.green cost then false
  else if ManaPool.colorless pool <? ManaCost.colorless cost then false
  else
    let available_generic :=
      ManaPool.total_mana pool -
      (ManaCost.white cost + ManaCost.blue cost + ManaCost.black cost +
       ManaCost.red cost + ManaCost.green cost + ManaCost.colorless cost) in
    if available_generic <? ManaCost.generic cost then false else true.

Definition _can_pay_mana_symbol (symbol : string) (pool : ManaPool.t) : bool :=
  if String.eqb symbol "W" then 0 <? ManaPool.white pool
  else if String.eqb symbol "U" then 0 <? ManaPool.blue pool
  else if String.eqb symbol "B" then 0 <? ManaPool.black pool
  else if String.eqb symbol "R" then 0 <? ManaPool.red pool
  else if String.eqb symbol "G" then 0 <? ManaPool.green pool
  else if String.eqb symbol "C" then 0 <? ManaPool.colorless pool
  else if PyStr.isdigit symbol then PyStr.int symbol <=? ManaPool.total_mana pool
  else false.

Definition _can_pay_hybrid_symbol (symbol : string) (pool : ManaPool.t) : bool :=
  if negb (PyStr.contains_char "/" symbol) then false
  else existsb (fun option => _can_pay_mana_symbol option pool)
               (PyStr.split "/" symbol).

Definition _can_pay_hybrid_mana (cost : ManaCost.t) (player : PlayerState.t) : bool :=
  forallb (fun hybrid => _can_pay_hybrid_symbol hybrid (mana_pool player))
          (ManaCost.hybrid cost).

Definition _can_pay_phyrexian_symbol (symbol : string) (player : PlayerState.t) : bool :=
  if PyStr.contains_char "P" symbol then
    if 2 <=? life_total player then true
    else
      let color := PyStr.remove_char "P" symbol in
      let pool := mana_pool player in
      if String.eqb color "W" then 0 <? ManaPool.white pool
      else if String.eqb color "U" then 0 <? ManaPool.blue pool
      else if String.eqb color "B" then 0 <? ManaPool.black pool
      else if String.eqb color "R" then 0 <? ManaPool.red pool
      else if String.eqb color "G" then 0 <? ManaPool.green pool
      else if String.eqb color "C" then 0 <? ManaPool.colorless pool
      else false
  else false.

Definition _can_pay_phyrexian_mana (cost : ManaCost.t) (player : PlayerState.t) : bool :=
  forallb (fun phyrexian => _can_pay_phyrexian_symbol phyrexian player)
          (ManaCost.phyrexian cost).

Definition _can_pay_snow_mana (cost : ManaCost.t) (player : PlayerState.t) : bool :=
  ManaCost.snow cost =? 0.

Definition _can_pay_energy (cost : ManaCost.t) (player : PlayerState.t) : bool :=
  ManaCost.energy cost <=? energy_counters player.

Definition _can_pay_life (cost : ManaCost.t) (player : PlayerState.t) : bool :=
  ManaCost.life cost <=? life_total player.

Definition _can_pay_mana_cost (cost : ManaCost.t) (player : PlayerState.t) : bool :=
  if negb (_can_pay_basic_mana cost player) then false
  else if negb (_can_pay_hybrid_mana cost player) then false
  else if negb (_can_pay_phyrexian_mana cost player) then false
  else if negb (_can_pay_snow_mana cost player) then false
  else if negb (_can_pay_energy cost player) then false
  else if negb (_can_pay_life cost player) then false
  else true.

(** [can_pay_cost]: the answer for ASCII input whose numbers stay within
    [PyStr.int_max_str_digits]; nothing in the body raises there, so the
    enclosing [try] does not show.  (Beyond the limit [int] raises and the
    handler answers [False].) *)
Definition can_pay_cost (cost_string : string) (player : PlayerState.t) : bool :=
  match cost_string with
  | EmptyString => true
  | String _ _ => _can_pay_mana_cost (ManaCost.new cost_string) player
  end.

(** One turn of the chain at lines 369-382 (and again 423-436): the first
    counter that is positive, in the order white, blue, black, red, green,
    colorless, loses one; [None] is the final [else: return False]. *)
Definition debit_first_available (pool : ManaPool.t) : option ManaPool.t :=
  if 0 <? ManaPool.white pool then
    Some (ManaPool.set_white (ManaPool.white pool - 1) pool)
  else if 0 <? ManaPool.blue pool then
    Some (ManaPool.set_blue (ManaPool.blue pool - 1) pool)
  else if 0 <? ManaPool.black pool then
    Some (ManaPool.set_black (ManaPool.black pool - 1) pool)
  else if 0 <? ManaPool.red pool then
    Some (ManaPool.set_red (ManaPool.red pool - 1) pool)
  else if 0 <? ManaPool.green pool then
    Some (ManaPool.set_green (ManaPool.green pool - 1) pool)
  else if 0 <? ManaPool.colorless pool then
    Some (ManaPool.set_colorless (ManaPool.colorless pool - 1) pool)
  else None.

(** [n] turns of the loop; the pool keeps what was debited before a
    failing turn. *)
Fixpoint pay_generic_loop (n : nat) (pool : ManaPool.t) : bool * ManaPool.t :=
  match n with
  | O => (true, pool)
  | S n' =>
      match debit_first_available pool with
      | Some pool' => pay_generic_loop n' pool'
      | None => (false, pool)
      end
  end.

Definition _pay_basic_mana (cost : ManaCost.t) (player : PlayerState.t)
  : bool * PlayerState.t :=
  let pool := mana_pool player in
  let pool :=
    ManaPool.mk (ManaPool.white pool - ManaCost.white cost)
                (ManaPool.blue pool - ManaCost.blue cost)
                (ManaPool.black pool - ManaCost.black cost)
                (ManaPool.red pool - ManaCost.red cost)
                (ManaPool.green pool - ManaCost.green cost)
                (ManaPool.colorless pool - ManaCost.colorless cost) in
  (* while generic_paid < cost.generic *)
  let '(ok, pool) := pay_generic_loop (Z.to_nat (ManaCost.generic cost)) pool in
  (ok, set_mana_pool pool player).

Definition _pay_mana_symbol (symbol : string) (pool : ManaPool.t)
  : bool * ManaPool.t :=
  if String.eqb symbol "W" then
    (true, ManaPool.set_white (ManaPool.white pool - 1) pool)
  else if String.eqb symbol "U" then
    (true, ManaPool.set_blue (ManaPool.blue pool - 1) pool)
  else if String.eqb symbol "B" then
    (true, ManaPool.set_black (ManaPool.black pool - 1) pool)
  else if String.eqb symbol "R" then
    (true, ManaPool.set_red (ManaPool.red pool - 1) pool)
  else if String.eqb symbol "G" then
    (true, ManaPool.set_green (ManaPool.green pool - 1) pool)
  else if String.eqb symbol "C" then
    (true, ManaPool.set_colorless (ManaPool.colorless pool - 1) pool)
  else if PyStr.isdigit symbol then
    (* for _ in range(amount) *)
    pay_generic_loop (Z.to_nat (PyStr.int symbol)) pool
  else (false, pool).

(** The loop of [_pay_hybrid_symbol] over the options. *)
Fixpoint pay_first_option (options : list string) (pool : ManaPool.t)
  : bool * ManaPool.t :=
  match options with
  | [] => (false, pool)
  | option :: rest =>
      if _can_pay_mana_symbol option pool then _pay_mana_symbol option pool
      else pay_first_option rest pool
  end.

Definition _pay_hybrid_symbol (symbol : string) (player : PlayerState.t)
  : bool * PlayerState.t :=
  let '(ok, pool) := pay_first_option (PyStr.split "/" symbol) (mana_pool player) in
  (ok, set_mana_pool pool player).

(** [for x in xs: if not pay(x, player): return False] then [return True] *)
Fixpoint pay_each (pay : string -> PlayerState.t -> bool * PlayerState.t)
    (xs : list string) (player : PlayerState.t) : bool * PlayerState.t :=
  match xs with
  | [] => (true, player)
  | x :: xs' =>
      let '(ok, player') := pay x player in
      if ok then pay_each pay xs' player' else (false, player')
  end.

Definition _pay_hybrid_mana (cost : ManaCost.t) (player : PlayerState.t)
  : bool * PlayerState.t :=
  pay_each _pay_hybrid_symbol (ManaCost.hybrid cost) player.

Definition _pay_phyrexian_symbol (symbol : string) (player : PlayerState.t)
  : bool * PlayerState.t :=
  if PyStr.contains_char "P" symbol then
    let color := PyStr.remove_char "P" symbol in
    if _can_pay_mana_symbol color (mana_pool player) then
      let '(ok, pool) := _pay_mana_symbol color (mana_pool player) in
      (ok, set_mana_pool pool player)
    else if 2 <=? life_total player then
      (true, snd (take_damage 2 player))
    else (false, player)
  else (false, player).

Definition _pay_phyrexian_mana (cost : ManaCost.t) (player : PlayerState.t)
  : bool * PlayerState.t :=
  pay_each _pay_phyrexian_symbol (ManaCost.phyrexian cost) player.

Definition _pay_snow_mana (cost : ManaCost.t) (player : PlayerState.t)
  : bool * PlayerState.t :=
  (ManaCost.snow cost =? 0, player).

Definition _pay_energy (cost : ManaCost.t) (player : PlayerState.t)
  : bool * PlayerState.t :=
  if ManaCost.energy cost <=? energy_counters player then
    (true, set_energy_counters (energy_counters player - ManaCost.energy cost) player)
  else (false, player).

Definition _pay_life (cost : ManaCost.t) (player : PlayerState.t)
  : bool * PlayerState.t :=
  if ManaCost.life cost <=? life_total player then
    (true, snd (take_damage (ManaCost.life cost) player))
  else (false, player).

(** [if not step(cost, player): return False], then the rest. *)
Definition and_then (r : bool * PlayerState.t)
    (k : PlayerState.t -> bool * PlayerState.t) : bool * PlayerState.t :=
  let '(ok, player) := r in if ok then k player else (false, player).

(** [_pay_mana_cost]; the spending history kept by [_record_mana_spent] is
    a log on the side and is left out. *)
Definition _pay_mana_cost (cost : ManaCost.t) (player : PlayerState.t)
  : bool * PlayerState.t :=
  and_then (_pay_basic_mana cost player) (fun player =>
  and_then (_pay_hybrid_mana cost player) (fun player =>
  and_then (_pay_phyrexian_mana cost player) (fun player =>
  and_then (_pay_snow_mana cost player) (fun player =>
  and_then (_pay_energy cost player) (fun player =>
  and_then (_pay_life cost player) (fun player =>
  (true, player))))))).

Definition pay_cost (cost_string : string) (player : PlayerState.t)
  : bool * PlayerState.t :=
  match cost_string with
  | EmptyString => (true, player)
  | String _ _ =>
      let cost := ManaCost.new cost_string in
      if negb (_can_pay_mana_cost cost player) then (false, player)
      else _pay_mana_cost cost player
  end.

Definition _land_can_produce_mana (land : CardInfo.t) (color : string) : bool :=
  let name := PyStr.lower (CardInfo.name land) in
  if String.eqb color "white" then
    PyStr.contains "plains" name || PyStr.contains "white" name
  else if String.eqb color "blue" then
    PyStr.contains "island" name || PyStr.contains "blue" name
  else if String.eqb color "black" then
    PyStr.contains "swamp" name || PyStr.contains "black" name
  else if String.eqb color "red" then
    PyStr.contains "mountain" name || PyStr.contains "red" name
  else if String.eqb color "green" then
    PyStr.contains "forest" name || PyStr.contains "green" name
  else if String.eqb color "colorless" then true
  else false.

Definition _artifact_can_produce_mana (artifact : CardInfo.t) (color : string)
  : bool :=
  PyStr.contains "mana" (PyStr.lower (CardInfo.name artifact)).

(** [can_generate_mana]; its [amount] argument is not read. *)
Definition can_generate_mana (player : PlayerState.t) (color : string) : bool :=
  existsb (fun land => _land_can_produce_mana land color)
          (Battlefield.lands (battlefield player)) ||
  existsb (fun artifact => _artifact_can_produce_mana artifact color)
          (Battlefield.artifacts (battlefield player)).

(** One turn of the loop of [generate_mana]; [None] is the final
    [else: return False]. *)
Definition add_one_mana (color : string) (pool : ManaPool.t) : option ManaPool.t :=
  if String.eqb color "white" then
    Some (ManaPool.set_white (ManaPool.white pool + 1) pool)
  else if String.eqb color "blue" then
    Some (ManaPool.set_blue (ManaPool.blue pool + 1) pool)
  else if String.eqb color "black" then
    Some (ManaPool.set_black (ManaPool.black pool + 1) pool)
  else if String.eqb color "red" then
    Some (ManaPool.set_red (ManaPool.red pool + 1) pool)
  else if String.eqb color "green" then
    Some (ManaPool.set_green (ManaPool.green pool + 1) pool)
  else if String.eqb color "colorless" then
    Some (ManaPool.set_colorless (ManaPool.colorless pool + 1) pool)
  else None.

Fixpoint generate_loop (n : nat) (color : string) (pool : ManaPool.t)
  : bool * ManaPool.t :=
  match n with
  | O => (true, pool)
  | S n' =>
      match add_one_mana color pool with
      | Some pool' => generate_loop n' color pool'
      | None => (false, pool)
      end
  end.

Definition generate_mana (player : PlayerState.t) (color : string) (amount : Z)
  : bool * PlayerState.t :=
  if negb (can_generate_mana player color) then (false, player)
  else
    (* for _ in range(amount) *)
    let '(ok, pool) := generate_loop (Z.to_nat amount) color (mana_pool player) in
    (ok, set_mana_pool pool player).

End ManaSystem.

(** ** state/game_state.py *)

Module GameStatus.

Inductive t := WAITING | STARTING | ACTIVE | ENDED | PAUSED.

#[global] Instance eq_dec : EqDecision t.
Proof. solve_decision. Defined.

End GameStatus.

(** The events of parser/events.py that [GameState.process_event] tells
    apart, each with the attributes its handler reads; [event_type] is the
    default of the event's class.  [OtherEvent] stands for the remaining
    event classes. *)
Module GameEvent.

Inductive t :=
| GameStartEvent (player_life opponent_life : Z)
| GameEndEvent
| DrawCardEvent (player : Z) (card : CardInfo.t)
| PlayCardEvent (player : Z) (card : CardInfo.t)
| LifeChangeEvent (player : Z) (new_life : Z)
| PhaseChangeEvent (new_phase : Phase.t) (new_step : option string)
| TurnChangeEvent (new_turn : Z) (active_player : Z)
| OtherEvent.

End GameEvent.

Module GameState.

(** The two slots that hold a player. *)
Inductive seat := SelfSeat | OpponentSeat.

(** The fields of [class GameState] that carry the match; the event and
    state-change histories and the callbacks are logs on the side. *)
Record t := mk {
  status : GameStatus.t;
  turn_number : Z;
  current_phase : option Phase.t;
  current_step : option string;
  active_player : option Z;
  priority_player : option Z;
  self_player : option PlayerState.t;
  opponent_player : option PlayerState.t;
  starting_life : Z
}.

(** [GameState()] *)
Definition default : t :=
  mk GameStatus.WAITING 0 None None None None None None 20.

Definition set_status (v : GameStatus.t) (g : t) : t :=
  mk v (turn_number g) (current_phase g) (current_step g) (active_player g)
     (priority_player g) (self_player g) (opponent_player g) (starting_life g).

Definition set_turn_number (v : Z) (g : t) : t :=
  mk (status g) v (current_phase g) (current_step g) (active_player g)
     (priority_player g) (self_player g) (opponent_player g) (starting_life g).

Definition set_priority_player (v : option Z) (g : t) : t :=
  mk (status g) (turn_number g) (current_phase g) (current_step g)
     (active_player g) v (self_player g) (opponent_player g) (starting_life g).

Definition set_players (s o : option PlayerState.t) (g : t) : t :=
  mk (status g) (turn_number g) (current_phase g) (current_step g)
     (active_player g) (priority_player g) s o (starting_life g).

Definition initialize_game (self_player_id opponent_player_id starting_life : Z)
    (g : t) : bool * t :=
  (true,
   mk GameStatus.ACTIVE 0 (current_phase g) (current_step g)
      (active_player g) (priority_player g)
      (Some (PlayerState.new self_player_id starting_life))
      (Some (PlayerState.new opponent_player_id starting_life))
      starting_life).

(** Which slot [get_player] answers from. *)
Definition find_seat (player_id : Z) (g : t) : option seat :=
  match self_player g with
  | Some p =>
      if PlayerState.player_id p =? player_id then Some SelfSeat
      else match opponent_player g with
           | Some q =>
               if PlayerState.player_id q =? player_id then Some OpponentSeat
               else None
           | None => None
           end
  | None =>
      match opponent_player g with
      | Some q =>
          if PlayerState.player_id q =? player_id then Some OpponentSeat
          else None
      | None => None
      end
  end.

Definition player_at (s : seat) (g : t) : option PlayerState.t :=
  match s with
  | SelfSeat => self_player g
  | OpponentSeat => opponent_player g
  end.

Definition get_player (player_id : Z) (g : t) : option PlayerState.t :=
  match find_seat player_id g with
  | Some s => player_at s g
  | None => None
  end.

(** Writing through the reference that [get_player] handed out. *)
Definition set_player_at (s : seat) (p : PlayerState.t) (g : t) : t :=
  match s with
  | SelfSeat => set_players (Some p) (opponent_player g) g
  | OpponentSeat => set_players (self_player g) (Some p) g
  end.

Definition set_active_player (player_id : Z) (g : t) : bool * t :=
  match get_player player_id g with
  | Some _ =>
      (true,
       mk (status g) (turn_number g) (current_phase g) (current_step g)
          (Some player_id) (priority_player g) (self_player g)
          (opponent_player g) (starting_life g))
  | None => (false, g)
  end.

Definition set_phase (phase : Phase.t) (step : option string) (g : t) : t :=
  mk (status g) (turn_number g) (Some phase) step (active_player g)
     (priority_player g) (self_player g) (opponent_player g) (starting_life g).

Definition reset_both_turn_flags (g : t) : t :=
  set_players (option_map PlayerState.reset_turn_flags (self_player g))
              (option_map PlayerState.reset_turn_flags (opponent_player g)) g.

Definition next_turn (g : t) : t :=
  reset_both_turn_flags (set_turn_number (turn_number g + 1) g).

Definition is_game_active (g : t) : bool :=
  bool_decide (status g = GameStatus.ACTIVE).

Definition _process_game_start (player_life opponent_life : Z) (g : t) : t :=
  set_status GameStatus.ACTIVE
    (set_players
       (option_map (PlayerState.set_life_total player_life) (self_player g))
       (option_map (PlayerState.set_life_total opponent_life) (opponent_player g))
       g).

Definition _process_draw_card (player : Z) (card : CardInfo.t) (g : t) : t :=
  match find_seat player g with
  | Some s =>
      match player_at s g with
      | Some p =>
          set_player_at s
            (PlayerState.set_hand (snd (Hand.add_card card (PlayerState.hand p))) p) g
      | None => g
      end
  | None => g
  end.

(** [_process_play_card], lines 229-250.  The module imports [GameEvent],
    [EventType], [Phase], [ZoneType] and [CardInfo] from parser.events but
    not [CardType]: once the card has left the hand and has been put on
    the battlefield (lines 235-238), evaluating [CardType.LAND] at line
    241 raises [NameError], with both changes already made. *)
Definition _process_play_card (player : Z) (card : CardInfo.t) (g : t)
  : t * Exc bool :=
  match find_seat player g with
  | Some s =>
      match player_at s g with
      | Some p =>
          let '(removed_card, hand') :=
            Hand.remove_card (CardInfo.instance_id card) (PlayerState.hand p) in
          match removed_card with
          | Some _ =>
              let p := PlayerState.set_hand hand' p in
              let p :=
                PlayerState.set_battlefield
                  (Battlefield.add_card card (PlayerState.battlefield p)) p in
              (set_player_at s p g, raise (NameError "CardType"))
          | None => (set_player_at s (PlayerState.set_hand hand' p) g, ret true)
          end
      | None => (g, ret true)
      end
  | None => (g, ret true)
  end.

Definition _process_life_change (player new_life : Z) (g : t) : t :=
  match find_seat player g with
  | Some s =>
      match player_at s g with
      | Some p => set_player_at s (PlayerState.set_life_total new_life p) g
      | None => g
      end
  | None => g
  end.

Definition _process_turn_change (new_turn active_player : Z) (g : t) : t :=
  snd (set_active_player active_player (set_turn_number new_turn g)).

(** [process_event]: the handler's result, or [False] when it raised. *)
Definition process_event (event : GameEvent.t) (g : t) : bool * t :=
  match event with
  | GameEvent.GameStartEvent pl ol => (true, _process_game_start pl ol g)
  | GameEvent.GameEndEvent => (true, set_status GameStatus.ENDED g)
  | GameEvent.DrawCardEvent player card => (true, _process_draw_card player card g)
  | GameEvent.PlayCardEvent player card =>
      let '(g', r) := _process_play_card player card g in
      (try_except r false, g')
  | GameEvent.LifeChangeEvent player new_life =>
      (true, _process_life_change player new_life g)
  | GameEvent.PhaseChangeEvent new_phase new_step =>
      (true, set_phase new_phase new_step g)
  | GameEvent.TurnChangeEvent new_turn active =>
      (true, _process_turn_change new_turn active g)
  | GameEvent.OtherEvent => (true, g)
  end.

(** A run of events, oldest first. *)
Definition process_events (events : list GameEvent.t) (g : t) : t :=
  fold_left (fun g event => snd (process_event event g)) events g.

Definition is_game_ended (g : t) : bool :=
  bool_decide (status g = GameStatus.ENDED).

Definition get_active_player (g : t) : option PlayerState.t :=
  match active_player g with
  | Some player_id => get_player player_id g
  | None => None
  end.

Definition get_winner (g : t) : option Z :=
  if negb (is_game_ended g) then None
  else
    let self_lost :=
      match self_player g with
      | Some p => PlayerState.life_total p <=? 0
      | None => false
      end in
    let opponent_lost :=
      match opponent_player g with
      | Some p => PlayerState.life_total p <=? 0
      | None => false
      end in
    if self_lost then option_map PlayerState.player_id (opponent_player g)
    else if opponent_lost then option_map PlayerState.player_id (self_player g)
    else None.

End GameState.

(** ** rules/timing_rules.py *)

Module TimingRules.

Import GameState.

(** [priority_sequence] and [priority_start_time] are never read. *)
Record t := mk {
  game_state : GameState.t;
  priority_passed : gset Z;
  current_priority_player : option Z
}.

(** [TimingRules(game_state)] *)
Definition new (g : GameState.t) : t := mk g ∅ None.

Definition _player_has_priority (player_id : Z) (tr : t) : bool :=
  if bool_decide (active_player (game_state tr) = Some player_id) then true
  else if bool_decide (priority_player (game_state tr) = Some player_id) then true
  else if bool_decide (player_id ∈ priority_passed tr) then false
  else true.

(** The list [players] built at lines 186-190 and 211-215. *)
Definition registered_players (g : GameState.t) : list Z :=
  match self_player g with Some p => [PlayerState.player_id p] | None => [] end ++
  match opponent_player g with Some p => [PlayerState.player_id p] | None => [] end.

Definition _all_players_passed_priority (tr : t) : bool :=
  forallb (fun player_id => bool_decide (player_id ∈ priority_passed tr))
          (registered_players (game_state tr)).

(** [_end_turn]; [Phase.UNTAP] exists and nothing else in it can raise. *)
Definition _end_turn (g : GameState.t) : GameState.t :=
  set_phase Phase.UNTAP None (next_turn (reset_both_turn_flags g)).

(** [current_phase == Phase.<name>] *)
Definition phase_is (cur : option Phase.t) (name : string) : Exc bool :=
  let* p := Phase.getattr name in ret (bool_decide (cur = Some p)).

(** [self.game_state.set_phase(Phase.<name>)] *)
Definition set_phase_to (name : string) (g : GameState.t) : Exc GameState.t :=
  let* p := Phase.getattr name in ret (set_phase p None g).

(** The [try] block of [_advance_phase], lines 237-264, test by test. *)
Definition advance_phase_body (g : GameState.t) : Exc GameState.t :=
  let cur := current_phase g in
  let* b := phase_is cur "UNTAP" in
  if b then set_phase_to "UPKEEP" g else
  let* b := phase_is cur "UPKEEP" in
  if b then set_phase_to "DRAW" g else
  let* b := phase_is cur "DRAW" in
  if b then set_phase_to "FIRST_MAIN" g else
  let* b := phase_is cur "FIRST_MAIN" in
  if b then set_phase_to "COMBAT_BEGIN" g else
  let* b := phase_is cur "COMBAT_BEGIN" in
  if b then set_phase_to "DECLARE_ATTACKERS" g else
  let* b := phase_is cur "DECLARE_ATTACKERS" in
  if b then set_phase_to "DECLARE_BLOCKERS" g else
  let* b := phase_is cur "DECLARE_BLOCKERS" in
  if b then set_phase_to "COMBAT_DAMAGE" g else
  let* b := phase_is cur "COMBAT_DAMAGE" in
  if b then set_phase_to "END_COMBAT" g else
  let* b := phase_is cur "END_COMBAT" in
  if b then set_phase_to "SECOND_MAIN" g else
  let* b := phase_is cur "SECOND_MAIN" in
  if b then set_phase_to "END_STEP" g else
  let* b := phase_is cur "END_STEP" in
  if b then set_phase_to "CLEANUP" g else
  let* b := phase_is cur "CLEANUP" in
  if b then ret (_end_turn g) else ret g.

(** [_advance_phase]: an exception is logged and the state stays. *)
Definition _advance_phase (g : GameState.t) : GameState.t :=
  try_except (advance_phase_body g) g.

Definition _resolve_priority (tr : t) : t :=
  mk (_advance_phase (game_state tr)) ∅ (current_priority_player tr).

(** [players.index(x)] *)
Fixpoint index_of (x : Z) (l : list Z) : option nat :=
  match l with
  | [] => None
  | y :: l' => if y =? x then Some O else option_map S (index_of x l')
  end.

Definition move_to_next_player_body (tr : t) : Exc t :=
  let g := game_state tr in
  let players := registered_players g in
  let current_player :=
    match priority_player g with
    | None => active_player g
    | Some p => Some p
    end in
  let current_index :=
    match current_player with
    | Some p => match index_of p players with Some i => i | None => O end
    | None => O
    end in
  match players with
  | [] => raise ZeroDivisionError
  | _ :: _ =>
      let next_index := ((current_index + 1) mod length players)%nat in
      match nth_error players next_index with
      | Some next_player =>
          ret (mk (set_priority_player (Some next_player) g)
                  (priority_passed tr) (Some next_player))
      | None => ret tr
      end
  end.

Definition _move_to_next_player (tr : t) : t :=
  try_except (move_to_next_player_body tr) tr.

Definition pass_priority (player_id : Z) (tr : t) : bool * t :=
  let tr :=
    mk (game_state tr) ({[player_id]} ∪ priority_passed tr)
       (current_priority_player tr) in
  if _all_players_passed_priority tr then (true, _resolve_priority tr)
  else (true, _move_to_next_player tr).

End TimingRules.

(** ** rules/card_restrictions.py *)

Module CardRestrictionEngine.

Import PlayerState.

Definition _is_legendary (card : CardInfo.t) : Exc bool :=
  let* type_line := CardInfo.get_type_line card in
  ret (PyStr.contains "legendary" (PyStr.lower type_line)).

(** The loop of [_can_play_legendary]; [and] evaluates [_is_legendary] only
    for a card of the same name. *)
Fixpoint can_play_legendary_loop (card : CardInfo.t) (l : list CardInfo.t)
  : Exc bool :=
  match l with
  | [] => ret true
  | battlefield_card :: l' =>
      if String.eqb (CardInfo.name battlefield_card) (CardInfo.name card) then
        let* legendary := _is_legendary battlefield_card in
        if legendary then ret false else can_play_legendary_loop card l'
      else can_play_legendary_loop card l'
  end.

Definition _can_play_legendary (card : CardInfo.t) (player : PlayerState.t)
  : Exc bool :=
  can_play_legendary_loop card (Battlefield.get_all_cards (battlefield player)).

Definition _can_play_planeswalker (card : CardInfo.t) (player : PlayerState.t)
  : bool :=
  negb (existsb
          (fun battlefield_card =>
             String.eqb (CardInfo.name battlefield_card) (CardInfo.name card) &&
             CardInfo.has_type CardType.PLANESWALKER battlefield_card)
          (Battlefield.get_all_cards (battlefield player))).

Definition _can_play_land (card : CardInfo.t) (player : PlayerState.t) : bool :=
  can_play_land player.

Definition in_hand (card : CardInfo.t) (player : PlayerState.t) : bool :=
  match Hand.get_card (CardInfo.instance_id card) (hand player) with
  | Some _ => true
  | None => false
  end.

Definition _check_basic_restrictions (card : CardInfo.t) (player : PlayerState.t)
  : bool :=
  if max_hand_size player <=? Hand.size (hand player) then false
  else if negb (in_hand card player) then false
  else true.

Definition _check_card_specific_restrictions (card : CardInfo.t)
    (player : PlayerState.t) : Exc bool :=
  let* legendary := _is_legendary card in
  let* allowed := if legendary then _can_play_legendary card player else ret true in
  if negb allowed then ret false
  else if CardInfo.has_type CardType.PLANESWALKER card &&
          negb (_can_play_planeswalker card player) then ret false
  else if CardInfo.has_type CardType.LAND card &&
          negb (_can_play_land card player) then ret false
  else ret true.

Definition _check_zone_restrictions (card : CardInfo.t) (player : PlayerState.t)
  : bool :=
  if negb (bool_decide (CardInfo.zone_type card = Some ZoneType.HAND)) then false
  else if negb (in_hand card player) then false
  else true.

Definition _player_has_priority (g : GameState.t) (player : PlayerState.t) : bool :=
  bool_decide (GameState.active_player g = Some (player_id player)).

Definition _check_timing_restrictions (g : GameState.t) (card : CardInfo.t)
    (player : PlayerState.t) : bool :=
  if negb (bool_decide (GameState.active_player g = Some (player_id player)))
  then false
  else if negb (_player_has_priority g player) then false
  else true.

Definition can_play_card_body (g : GameState.t) (card : CardInfo.t)
    (player : PlayerState.t) : Exc bool :=
  if negb (_check_basic_restrictions card player) then ret false
  else
    let* specific := _check_card_specific_restrictions card player in
    if negb specific then ret false
    else if negb (_check_zone_restrictions card player) then ret false
    else if negb (_check_timing_restrictions g card player) then ret false
    else ret true.

(** [can_play_card]: [False] when a check raised. *)
Definition can_play_card (g : GameState.t) (card : CardInfo.t)
    (player : PlayerState.t) : bool :=
  try_except (can_play_card_body g card player) false.

Definition _is_card_on_battlefield (card : CardInfo.t) (player : PlayerState.t)
  : bool :=
  match Battlefield.get_card (CardInfo.instance_id card) (battlefield player) with
  | Some _ => true
  | None => false
  end.

Definition _can_activate_ability_type (ability : string) (card : CardInfo.t)
    (player : PlayerState.t) : bool :=
  if negb (bool_decide (ability ∈ CardInfo.abilities card)) then false
  else if negb (can_use_ability ability player) then false
  else true.

(** [can_activate_ability]; none of its checks can raise. *)
Definition can_activate_ability (g : GameState.t) (card : CardInfo.t)
    (ability : string) (player : PlayerState.t) : bool :=
  if negb (_is_card_on_battlefield card player) then false
  else if negb (_can_activate_ability_type ability card player) then false
  else if negb (_player_has_priority g player) then false
  else true.

End CardRestrictionEngine.

(** ** rules/action_types.py *)

Module ActionType.

Inductive t :=
| PLAY_LAND | CAST_SPELL | ACTIVATE_ABILITY | DECLARE_ATTACKERS
| DECLARE_BLOCKERS | PASS_PRIORITY | CONCEDE | DRAW_CARD | ASSIGN_DAMAGE.

#[global] Instance eq_dec : EqDecision t.
Proof. solve_decision. Defined.

End ActionType.

Module ActionTiming.

Inductive t :=
| ANY_TIME | MAIN_PHASE | COMBAT_PHASE | END_STEP | UPKEEP | DRAW_STEP
| DECLARE_ATTACKERS | DECLARE_BLOCKERS | COMBAT_DAMAGE | END_COMBAT.

End ActionTiming.

(** The action classes that rules/legality_engine.py builds, with the
    attributes it reads.  [action_type] and [timing] are the values the
    class and its [__init__] fix.  The [targets] lists are left out: they
    are only passed to [_is_valid_target], which answers [True]. *)
Module Action.

Inductive t :=
| PlayLandAction (player_id : Z) (card : CardInfo.t) (land_type : option string)
| CastSpellAction (player_id : Z) (spell : CardInfo.t) (mana_cost : string)
| ActivateAbilityAction (player_id : Z) (source : CardInfo.t) (ability : string)
| DeclareAttackersAction (player_id : Z) (attackers : list CardInfo.t)
| DeclareBlockersAction (player_id : Z) (blocks : list (Z * list Z))
| PassPriorityAction (player_id : Z)
| ConcedeAction (player_id : Z)
| DrawCardAction (player_id : Z)
| AssignDamageAction (player_id : Z) (source : CardInfo.t).

Definition player_id (a : t) : Z :=
  match a with
  | PlayLandAction p _ _ | CastSpellAction p _ _ | ActivateAbilityAction p _ _
  | DeclareAttackersAction p _ | DeclareBlockersAction p _
  | PassPriorityAction p | ConcedeAction p | DrawCardAction p
  | AssignDamageAction p _ => p
  end.

Definition action_type (a : t) : ActionType.t :=
  match a with
  | PlayLandAction _ _ _ => ActionType.PLAY_LAND
  | CastSpellAction _ _ _ => ActionType.CAST_SPELL
  | ActivateAbilityAction _ _ _ => ActionType.ACTIVATE_ABILITY
  | DeclareAttackersAction _ _ => ActionType.DECLARE_ATTACKERS
  | DeclareBlockersAction _ _ => ActionType.DECLARE_BLOCKERS
  | PassPriorityAction _ => ActionType.PASS_PRIORITY
  | ConcedeAction _ => ActionType.CONCEDE
  | DrawCardAction _ => ActionType.DRAW_CARD
  | AssignDamageAction _ _ => ActionType.ASSIGN_DAMAGE
  end.

Definition timing (a : t) : ActionTiming.t :=
  match a with
  | PlayLandAction _ _ _ => ActionTiming.MAIN_PHASE
  | DeclareAttackersAction _ _ => ActionTiming.DECLARE_ATTACKERS
  | DeclareBlockersAction _ _ => ActionTiming.DECLARE_BLOCKERS
  | AssignDamageAction _ _ => ActionTiming.COMBAT_DAMAGE
  | _ => ActionTiming.ANY_TIME
  end.

Definition is_play_land (a : t) : bool :=
  bool_decide (action_type a = ActionType.PLAY_LAND).

End Action.

(** ** rules/timing_rules.py, the checks on an action *)

(** The methods of [class TimingRules] that take an action. *)
Module TimingChecks.

Import TimingRules.

Definition _check_basic_timing (tr : TimingRules.t) (action : Action.t)
    (player_id : Z) : bool :=
  let g := game_state tr in
  if negb (GameState.is_game_active g) then false
  else match GameState.get_player player_id g with
       | None => false
       | Some player =>
           if negb (PlayerState.is_alive player) then false
           else if bool_decide (Action.action_type action ∈
                                  [ActionType.PLAY_LAND; ActionType.DECLARE_ATTACKERS])
                   && negb (bool_decide (GameState.active_player g = Some player_id))
           then false
           else true
       end.

(** Of the two action types that need no priority, [CONCEDE] is the one
    with an action class here. *)
Definition _check_priority (tr : TimingRules.t) (action : Action.t)
    (player_id : Z) : bool :=
  if bool_decide (Action.action_type action = ActionType.CONCEDE) then true
  else if negb (_player_has_priority player_id tr) then false
  else true.

(** [_check_phase_timing]; as in the legality engine, the list of the
    [COMBAT_PHASE] branch names [Phase.END_COMBAT] (line 106). *)
Definition _check_phase_timing (tr : TimingRules.t) (action : Action.t)
    (player_id : Z) : Exc bool :=
  let current_phase := GameState.current_phase (game_state tr) in
  match Action.timing action with
  | ActionTiming.MAIN_PHASE =>
      ret (bool_decide
             (current_phase ∈ [Some Phase.FIRST_MAIN; Some Phase.SECOND_MAIN]))
  | ActionTiming.COMBAT_PHASE =>
      let* end_combat := Phase.getattr "END_COMBAT" in
      ret (bool_decide
             (current_phase ∈
                [Some Phase.COMBAT_BEGIN; Some Phase.DECLARE_ATTACKERS;
                 Some Phase.DECLARE_BLOCKERS; Some Phase.COMBAT_DAMAGE;
                 Some end_combat]))
  | ActionTiming.DECLARE_ATTACKERS =>
      ret (bool_decide (current_phase = Some Phase.DECLARE_ATTACKERS))
  | ActionTiming.DECLARE_BLOCKERS =>
      ret (bool_decide (current_phase = Some Phase.DECLARE_BLOCKERS))
  | ActionTiming.COMBAT_DAMAGE =>
      ret (bool_decide (current_phase = Some Phase.COMBAT_DAMAGE))
  | _ => ret true
  end.

(** The action types that the upkeep, draw and end steps let through. *)
Definition step_action_types : list ActionType.t :=
  [ActionType.CAST_SPELL; ActionType.ACTIVATE_ABILITY;
   ActionType.PASS_PRIORITY; ActionType.CONCEDE].

Definition _check_step_timing (tr : TimingRules.t) (action : Action.t)
    (player_id : Z) : bool :=
  let current_step := GameState.current_step (game_state tr) in
  if bool_decide (current_step = Some "Upkeep"%string) then
    bool_decide (Action.action_type action ∈ step_action_types)
  else if bool_decide (current_step = Some "Draw"%string) then
    bool_decide (Action.action_type action ∈ step_action_types)
  else if bool_decide (current_step = Some "End"%string) then
    bool_decide (Action.action_type action ∈ step_action_types)
  else true.

Definition can_perform_action_body (tr : TimingRules.t) (action : Action.t)
    (player_id : Z) : Exc bool :=
  if negb (_check_basic_timing tr action player_id) then ret false
  else if negb (_check_priority tr action player_id) then ret false
  else
    let* phase_ok := _check_phase_timing tr action player_id in
    if negb phase_ok then ret false
    else if negb (_check_step_timing tr action player_id) then ret false
    else ret true.

Definition can_perform_action (tr : TimingRules.t) (action : Action.t)
    (player_id : Z) : bool :=
  try_except (can_perform_action_body tr action player_id) false.

Definition _is_action_on_stack (action : Action.t) : bool :=
  bool_decide (Action.action_type action ∈
                 [ActionType.CAST_SPELL; ActionType.ACTIVATE_ABILITY]).

Definition _can_player_respond (tr : TimingRules.t) (player_id : Z) : bool :=
  if negb (_player_has_priority player_id tr) then false
  else if bool_decide (player_id ∈ priority_passed tr) then false
  else true.

(** [can_respond_to]; none of its checks can raise. *)
Definition can_respond_to (tr : TimingRules.t) (action : Action.t)
    (responding_player_id : Z) : bool :=
  if negb (_player_has_priority responding_player_id tr) then false
  else if negb (_is_action_on_stack action) then false
  else if negb (_can_player_respond tr responding_player_id) then false
  else true.

Definition reset_priority (tr : TimingRules.t) : TimingRules.t :=
  TimingRules.mk (game_state tr) ∅ None.

End TimingChecks.

(** ** rules/legality_engine.py *)

Module LegalityEngine.

Import PlayerState.

(** The engine's own cost test, lines 480-488. *)
Definition _can_pay_mana_cost (mana_cost : string) (player : PlayerState.t) : bool :=
  match mana_cost with
  | EmptyString => true
  | String _ _ =>
      let total_cost :=
        PyStr.len (PyStr.remove_char PyStr.close_brace
                     (PyStr.remove_char PyStr.open_brace mana_cost)) in
      total_cost <=? ManaPool.total_mana (mana_pool player)
  end.

Definition _validate_basic_requirements (g : GameState.t) (action : Action.t)
  : bool :=
  if negb (GameState.is_game_active g) then false
  else match GameState.get_player (Action.player_id action) g with
       | None => false
       | Some player => if negb (is_alive player) then false else true
       end.

(** [_validate_timing]; the list of the [COMBAT_PHASE] branch names
    [Phase.END_COMBAT] (line 291). *)
Definition _validate_timing (g : GameState.t) (action : Action.t) : Exc bool :=
  let current_phase := GameState.current_phase g in
  match Action.timing action with
  | ActionTiming.MAIN_PHASE =>
      ret (bool_decide
             (current_phase ∈ [Some Phase.FIRST_MAIN; Some Phase.SECOND_MAIN]))
  | ActionTiming.COMBAT_PHASE =>
      let* end_combat := Phase.getattr "END_COMBAT" in
      ret (bool_decide
             (current_phase ∈
                [Some Phase.COMBAT_BEGIN; Some Phase.DECLARE_ATTACKERS;
                 Some Phase.DECLARE_BLOCKERS; Some Phase.COMBAT_DAMAGE;
                 Some end_combat]))
  | ActionTiming.DECLARE_ATTACKERS =>
      ret (bool_decide (current_phase = Some Phase.DECLARE_ATTACKERS))
  | ActionTiming.DECLARE_BLOCKERS =>
      ret (bool_decide (current_phase = Some Phase.DECLARE_BLOCKERS))
  | ActionTiming.COMBAT_DAMAGE =>
      ret (bool_decide (current_phase = Some Phase.COMBAT_DAMAGE))
  | _ => ret true
  end.

Definition on_battlefield (instance_id : Z) (player : PlayerState.t) : bool :=
  match Battlefield.get_card instance_id (battlefield player) with
  | Some _ => true
  | None => false
  end.

Definition _validate_play_land (g : GameState.t) (player_id : Z)
    (card : CardInfo.t) : bool :=
  match GameState.get_player player_id g with
  | None => false
  | Some player =>
      if negb (can_play_land player) then false
      else if negb (CardRestrictionEngine.in_hand card player) then false
      else if negb (CardInfo.has_type CardType.LAND card) then false
      else true
  end.

Definition _validate_cast_spell (g : GameState.t) (player_id : Z)
    (spell : CardInfo.t) : bool :=
  match GameState.get_player player_id g with
  | None => false
  | Some player =>
      if negb (CardRestrictionEngine.in_hand spell player) then false
      else if negb (_can_pay_mana_cost (CardInfo.mana_cost spell) player) then false
      else true
  end.

Definition _validate_activate_ability (g : GameState.t) (player_id : Z)
    (source : CardInfo.t) (ability : string) : bool :=
  match GameState.get_player player_id g with
  | None => false
  | Some player =>
      if negb (on_battlefield (CardInfo.instance_id source) player) then false
      else if negb (can_use_ability ability player) then false
      else true
  end.

Definition _validate_declare_attackers (g : GameState.t) (player_id : Z)
    (attackers : list CardInfo.t) : bool :=
  match GameState.get_player player_id g with
  | None => false
  | Some player =>
      if negb (bool_decide (GameState.active_player g = Some player_id)) then false
      else if negb (can_attack player) then false
      else forallb (fun attacker =>
                      on_battlefield (CardInfo.instance_id attacker) player)
                   attackers
  end.

Definition _validate_declare_blockers (g : GameState.t) (player_id : Z)
    (blocks : list (Z * list Z)) : bool :=
  match GameState.get_player player_id g with
  | None => false
  | Some player =>
      if bool_decide (GameState.active_player g = Some player_id) then false
      else forallb (fun '(_, blocker_ids) =>
                      forallb (fun blocker_id => on_battlefield blocker_id player)
                              blocker_ids)
                   blocks
  end.

Definition _validate_action_type (g : GameState.t) (action : Action.t) : bool :=
  match action with
  | Action.PlayLandAction p card _ => _validate_play_land g p card
  | Action.CastSpellAction p spell _ => _validate_cast_spell g p spell
  | Action.ActivateAbilityAction p source ability =>
      _validate_activate_ability g p source ability
  | Action.DeclareAttackersAction p attackers =>
      _validate_declare_attackers g p attackers
  | Action.DeclareBlockersAction p blocks => _validate_declare_blockers g p blocks
  | _ => true
  end.

(** Only [CastSpellAction] has a [mana_cost] attribute. *)
Definition _validate_resources (g : GameState.t) (action : Action.t) : bool :=
  match GameState.get_player (Action.player_id action) g with
  | None => false
  | Some player =>
      match action with
      | Action.CastSpellAction _ _ (String c s) =>
          if negb (_can_pay_mana_cost (String c s) player) then false else true
      | _ => true
      end
  end.

(** [_is_valid_target] answers [True] for every target. *)
Definition _validate_targets (g : GameState.t) (action : Action.t) : bool := true.

Definition is_action_legal_body (g : GameState.t) (action : Action.t) : Exc bool :=
  if negb (_validate_basic_requirements g action) then ret false
  else
    let* timing_ok := _validate_timing g action in
    if negb timing_ok then ret false
    else if negb (_validate_action_type g action) then ret false
    else if negb (_validate_resources g action) then ret false
    else if negb (_validate_targets g action) then ret false
    else ret true.

Definition is_action_legal (g : GameState.t) (action : Action.t) : bool :=
  try_except (is_action_legal_body g action) false.

Definition _get_land_type (land : CardInfo.t) : Exc string :=
  let* type_line := CardInfo.get_type_line land in
  ret (if PyStr.contains "Basic" type_line then "basic"%string
       else "non-basic"%string).

(** The loop at lines 140-147 over the cards in hand. *)
Fixpoint play_land_actions (player_id : Z) (cards : list CardInfo.t)
  : Exc (list Action.t) :=
  match cards with
  | [] => ret []
  | land :: rest =>
      if CardInfo.has_type CardType.LAND land then
        let* land_type := _get_land_type land in
        let* actions := play_land_actions player_id rest in
        ret (Action.PlayLandAction player_id land (Some land_type) :: actions)
      else play_land_actions player_id rest
  end.

Definition _can_cast_spell (spell : CardInfo.t) (player : PlayerState.t) : bool :=
  if CardInfo.has_type CardType.LAND spell then false
  else if negb (_can_pay_mana_cost (CardInfo.mana_cost spell) player) then false
  else true.

Definition _can_activate_ability (card : CardInfo.t) (player : PlayerState.t)
  : bool :=
  if negb (can_use_ability "general" player) then false
  else match CardInfo.abilities card with
       | [] => false
       | _ :: _ => true
       end.

Definition _generate_main_phase_actions (player : PlayerState.t)
    (is_active_player : bool) : Exc (list Action.t) :=
  let* lands :=
    if is_active_player && can_play_land player
    then play_land_actions (player_id player) (Hand.cards (hand player))
    else ret [] in
  let spells :=
    map (fun spell =>
           Action.CastSpellAction (player_id player) spell (CardInfo.mana_cost spell))
        (List.filter (fun spell => _can_cast_spell spell player)
                (Hand.cards (hand player))) in
  let abilities :=
    flat_map (fun card =>
                map (Action.ActivateAbilityAction (player_id player) card)
                    (CardInfo.abilities card))
             (List.filter (fun card => _can_activate_ability card player)
                     (Battlefield.get_all_cards (battlefield player))) in
  ret (lands ++ spells ++ abilities).

(** [_generate_combat_phase_actions] and [_generate_attack_actions] have
    the same body. *)
Definition _generate_attack_actions (player : PlayerState.t)
    (is_active_player : bool) : list Action.t :=
  if is_active_player && can_attack player then
    match Battlefield.get_creatures (battlefield player) with
    | [] => []
    | creatures => [Action.DeclareAttackersAction (player_id player) creatures]
    end
  else [].

Definition _generate_block_actions (player : PlayerState.t)
    (is_active_player : bool) : list Action.t :=
  if negb is_active_player then
    match Battlefield.get_creatures (battlefield player) with
    | [] => []
    | _ :: _ => [Action.DeclareBlockersAction (player_id player) []]
    end
  else [].

Definition _generate_damage_actions (player : PlayerState.t)
    (is_active_player : bool) : list Action.t :=
  map (Action.AssignDamageAction (player_id player))
      (List.filter (fun creature =>
                 match CardInfo.power creature with
                 | Some n => 0 <? n
                 | None => false
                 end)
              (Battlefield.get_creatures (battlefield player))).

(** [_can_draw_card] answers [True] and [_can_scry] answers [False]. *)
Definition _generate_always_available_actions (player : PlayerState.t)
  : list Action.t :=
  [ Action.PassPriorityAction (player_id player);
    Action.ConcedeAction (player_id player);
    Action.DrawCardAction (player_id player) ].

Definition generate_legal_actions_body (g : GameState.t) (player_id : Z)
  : Exc (list Action.t) :=
  match GameState.get_player player_id g with
  | None => ret []
  | Some player =>
      let is_active_player :=
        bool_decide (GameState.active_player g = Some player_id) in
      let current_phase := GameState.current_phase g in
      let* phase_actions :=
        if bool_decide (current_phase = Some Phase.FIRST_MAIN) ||
           bool_decide (current_phase = Some Phase.SECOND_MAIN)
        then _generate_main_phase_actions player is_active_player
        else if bool_decide (current_phase = Some Phase.COMBAT_BEGIN)
        then ret (_generate_attack_actions player is_active_player)
        else if bool_decide (current_phase = Some Phase.DECLARE_ATTACKERS)
        then ret (_generate_attack_actions player is_active_player)
        else if bool_decide (current_phase = Some Phase.DECLARE_BLOCKERS)
        then ret (_generate_block_actions player is_active_player)
        else if bool_decide (current_phase = Some Phase.COMBAT_DAMAGE)
        then ret (_generate_damage_actions player is_active_player)
        else ret [] in
      let legal_actions :=
        phase_actions ++ _generate_always_available_actions player in
      ret (List.filter (is_action_legal g) legal_actions)
  end.

(** [_generate_legal_actions]: the empty list when the generation raised.
    [get_legal_actions] adds a cache keyed on wall-clock time in front of
    it; with [force_refresh] it is this function. *)
Definition _generate_legal_actions (g : GameState.t) (player_id : Z)
  : list Action.t :=
  try_except (generate_legal_actions_body g player_id) [].

End LegalityEngine.

(** ** Vocabulary of the specification *)

(** The six counters of a pool, in the precedence order of section 4.1. *)
Module Color.

Inductive t := White | Blue | Black | Red | Green | Colorless.

Definition precedence : list t := [White; Blue; Black; Red; Green; Colorless].

Definition counter (c : t) (pool : ManaPool.t) : Z :=
  match c with
  | White => ManaPool.white pool
  | Blue => ManaPool.blue pool
  | Black => ManaPool.black pool
  | Red => ManaPool.red pool
  | Green => ManaPool.green pool
  | Colorless => ManaPool.colorless pool
  end.

(** One unit less in the counter of [c]. *)
Definition debit (c : t) (pool : ManaPool.t) : ManaPool.t :=
  match c with
  | White => ManaPool.set_white (ManaPool.white pool - 1) pool
  | Blue => ManaPool.set_blue (ManaPool.blue pool - 1) pool
  | Black => ManaPool.set_black (ManaPool.black pool - 1) pool
  | Red => ManaPool.set_red (ManaPool.red pool - 1) pool
  | Green => ManaPool.set_green (ManaPool.green pool - 1) pool
  | Colorless => ManaPool.set_colorless (ManaPool.colorless pool - 1) pool
  end.

(** The first counter of the precedence order that is positive. *)
Definition first_available (pool : ManaPool.t) : option t :=
  List.find (fun c => 0 <? counter c pool) precedence.

(** Taking [n] units greedily: each counter in turn gives what is still
    owed, as far as it can. *)
Definition greedy_take (n : Z) (pool : ManaPool.t) : ManaPool.t :=
  let w := Z.min n (ManaPool.white pool) in
  let n := n - w in
  let u := Z.min n (ManaPool.blue pool) in
  let n := n - u in
  let b := Z.min n (ManaPool.black pool) in
  let n := n - b in
  let r := Z.min n (ManaPool.red pool) in
  let n := n - r in
  let g := Z.min n (ManaPool.green pool) in
  let n := n - g in
  let c := Z.min n (ManaPool.colorless pool) in
  ManaPool.mk (ManaPool.white pool - w) (ManaPool.blue pool - u)
              (ManaPool.black pool - b) (ManaPool.red pool - r)
              (ManaPool.green pool - g) (ManaPool.colorless pool - c).

(** The pool once the coloured pips of [cost] have been taken from it. *)
Definition after_colored (cost : ManaCost.t) (pool : ManaPool.t) : ManaPool.t :=
  ManaPool.mk (ManaPool.white pool - ManaCost.white cost)
              (ManaPool.blue pool - ManaCost.blue cost)
              (ManaPool.black pool - ManaCost.black cost)
              (ManaPool.red pool - ManaCost.red cost)
              (ManaPool.green pool - ManaCost.green cost)
              (ManaPool.colorless pool - ManaCost.colorless cost).

Definition nonneg (pool : ManaPool.t) : Prop :=
  0 <= ManaPool.white pool /\ 0 <= ManaPool.blue pool /\
  0 <= ManaPool.black pool /\ 0 <= ManaPool.red pool /\
  0 <= ManaPool.green pool /\ 0 <= ManaPool.colorless pool.

End Color.

(** What the grammar of the parser makes of one symbol. *)
Module Symbol.

(** The symbol meets none of the tests of [_parse_cost]. *)
Definition unmatched (symbol : string) : bool :=
  negb (String.eqb symbol "W") && negb (String.eqb symbol "U") &&
  negb (String.eqb symbol "B") && negb (String.eqb symbol "R") &&
  negb (String.eqb symbol "G") && negb (String.eqb symbol "C") &&
  negb (PyStr.isdigit symbol) && negb (PyStr.contains_char "/" symbol) &&
  negb (PyStr.contains_char "P" symbol) && negb (PyStr.contains_char "S" symbol) &&
  negb (PyStr.contains_char "E" symbol) && negb (PyStr.contains_char "L" symbol).

(** The share of one symbol in the total cost: a pip for a colour, a
    hybrid, a Phyrexian or a snow symbol, its value for a number, nothing
    for energy, life and unmatched symbols. *)
Definition weight (symbol : string) : Z :=
  if String.eqb symbol "W" || String.eqb symbol "U" || String.eqb symbol "B" ||
     String.eqb symbol "R" || String.eqb symbol "G" || String.eqb symbol "C"
  then 1
  else if PyStr.isdigit symbol then PyStr.int symbol
  else if PyStr.contains_char "/" symbol || PyStr.contains_char "P" symbol ||
          PyStr.contains_char "S" symbol
  then 1
  else 0.

Definition sum_weights (symbols : list string) : Z :=
  fold_right (fun symbol acc => weight symbol + acc) 0 symbols.

(** The symbol is a number that [int] refuses: all digits, and more of
    them than [PyStr.int_max_str_digits]. *)
Definition refused (symbol : string) : bool :=
  PyStr.isdigit symbol && (PyStr.int_max_str_digits <? PyStr.len symbol).

(** The number written with [n] digits 1, and the cost text of that one
    symbol. *)
Fixpoint ones (n : nat) : string :=
  match n with
  | O => EmptyString
  | S n' => String "1" (ones n')
  end.

Definition braced (symbol : string) : string :=
  String PyStr.open_brace (symbol +:+ String PyStr.close_brace EmptyString).

End Symbol.

(** The play-land actions of a list of actions. *)
Definition play_land_actions_of (actions : list Action.t) : list Action.t :=
  List.filter Action.is_play_land actions.

(** The play-land action that [_generate_main_phase_actions] builds for a
    land card that carries a type line. *)
Definition land_action (player_id : Z) (land : CardInfo.t) : Action.t :=
  Action.PlayLandAction player_id land
    (option_map (fun type_line =>
                   if PyStr.contains "Basic" type_line then "basic"%string
                   else "non-basic"%string)
                (CardInfo.type_line land)).

(** The land cards of a hand. *)
Definition lands_in_hand (player : PlayerState.t) : list CardInfo.t :=
  List.filter (CardInfo.has_type CardType.LAND)
              (Hand.cards (PlayerState.hand player)).

(** ** Scenarios *)

Module Scenario.

(** [GameState()] then [initialize_game(1, 2, 20)], as the fixtures of
    tests/test_legality.py do. *)
Definition game : GameState.t :=
  snd (GameState.initialize_game 1 2 20 GameState.default).

(** ... then [set_active_player(1)]. *)
Definition game_active_1 : GameState.t :=
  snd (GameState.set_active_player 1 game).

Definition player_with_pool (pool : ManaPool.t) : PlayerState.t :=
  PlayerState.set_mana_pool pool (PlayerState.new 1 20).


(** Player 1 with one card drawn into an empty hand. *)
Definition holding (card : CardInfo.t) : PlayerState.t :=
  PlayerState.set_hand (snd (Hand.add_card card Hand.empty))
                       (PlayerState.new 1 20).



(** The land of [test_can_play_land]: built without a [type_line]. *)
Definition plains : CardInfo.t :=
  CardInfo.mk 1 "Plains" "" None [CardType.LAND] [] (Some ZoneType.HAND) None.

(** First main phase, player 1 active, alive, with [plains] drawn and no
    land played this turn. *)
Definition first_main_with_plains : GameState.t :=
  GameState.set_phase Phase.FIRST_MAIN None
    (snd (GameState.process_event (GameEvent.DrawCardEvent 1 plains) game_active_1)).

(** Both players pass in succession. *)
Definition both_pass (tr : TimingRules.t) : TimingRules.t :=
  snd (TimingRules.pass_priority 2 (snd (TimingRules.pass_priority 1 tr))).

Definition at_phase (phase : Phase.t) : TimingRules.t :=
  TimingRules.new (GameState.set_phase phase None game_active_1).

End Scenario.

(** ** Vocabulary of the further properties *)

(** The counts of a parsed cost, apart from the text it was parsed from. *)
Module CostShape.

Definition nonneg (c : ManaCost.t) : Prop :=
  0 <= ManaCost.white c /\ 0 <= ManaCost.blue c /\ 0 <= ManaCost.black c /\
  0 <= ManaCost.red c /\ 0 <= ManaCost.green c /\ 0 <= ManaCost.colorless c /\
  0 <= ManaCost.generic c /\ 0 <= ManaCost.snow c /\ 0 <= ManaCost.energy c /\
  0 <= ManaCost.life c.

(** The cost with its text blanked. *)
Definition counts (c : ManaCost.t) : ManaCost.t :=
  ManaCost.mk EmptyString (ManaCost.white c) (ManaCost.blue c) (ManaCost.black c)
    (ManaCost.red c) (ManaCost.green c) (ManaCost.colorless c)
    (ManaCost.generic c) (ManaCost.hybrid c) (ManaCost.phyrexian c)
    (ManaCost.snow c) (ManaCost.energy c) (ManaCost.life c).

(** The player once a cost without hybrid and Phyrexian symbols is paid:
    the pool after the coloured pips and the greedy generic take, the
    energy and the life after their payments. *)
Definition settled (cost : ManaCost.t) (player : PlayerState.t) : PlayerState.t :=
  snd (PlayerState.take_damage (ManaCost.life cost)
         (PlayerState.set_energy_counters
            (PlayerState.energy_counters player - ManaCost.energy cost)
            (PlayerState.set_mana_pool
               (Color.greedy_take (ManaCost.generic cost)
                  (Color.after_colored cost (PlayerState.mana_pool player)))
               player))).

End CostShape.

(** The colour names that [generate_mana] knows. *)
Module ColorName.

Definition of_name (color : string) : option Color.t :=
  if String.eqb color "white" then Some Color.White
  else if String.eqb color "blue" then Some Color.Blue
  else if String.eqb color "black" then Some Color.Black
  else if String.eqb color "red" then Some Color.Red
  else if String.eqb color "green" then Some Color.Green
  else if String.eqb color "colorless" then Some Color.Colorless
  else None.

(** [n] units more in the counter of [c]. *)
Definition credit (c : Color.t) (n : Z) (pool : ManaPool.t) : ManaPool.t :=
  match c with
  | Color.White => ManaPool.set_white (ManaPool.white pool + n) pool
  | Color.Blue => ManaPool.set_blue (ManaPool.blue pool + n) pool
  | Color.Black => ManaPool.set_black (ManaPool.black pool + n) pool
  | Color.Red => ManaPool.set_red (ManaPool.red pool + n) pool
  | Color.Green => ManaPool.set_green (ManaPool.green pool + n) pool
  | Color.Colorless => ManaPool.set_colorless (ManaPool.colorless pool + n) pool
  end.

End ColorName.

(** What the event handlers keep. *)
Module Invariant.

(** Every seated player satisfies [P]. *)
Definition players_satisfy (P : PlayerState.t -> Prop) (g : GameState.t) : Prop :=
  forall s p, GameState.player_at s g = Some p -> P p.

(** A hand within the default limit of seven cards. *)
Definition hand_within_seven (p : PlayerState.t) : Prop :=
  Hand.size (PlayerState.hand p) <= Hand.max_size (PlayerState.hand p) /\
  Hand.max_size (PlayerState.hand p) = 7.

(** The turn-scoped flags of a player. *)
Definition turn_flags (p : PlayerState.t) : bool * bool * gset string :=
  (PlayerState.has_played_land_this_turn p,
   PlayerState.has_attacked_this_turn p,
   PlayerState.has_used_ability_this_turn p).

Definition seats_turn_flags (g : GameState.t)
  : option (bool * bool * gset string) * option (bool * bool * gset string) :=
  (option_map turn_flags (GameState.self_player g),
   option_map turn_flags (GameState.opponent_player g)).

(** The cards a player has in hand and on the battlefield. *)
Definition card_count (p : PlayerState.t) : nat :=
  (length (Hand.cards (PlayerState.hand p)) +
   length (Battlefield.get_all_cards (PlayerState.battlefield p)))%nat.

End Invariant.

(** The steps of the chain of [_advance_phase] that come before its first
    use of the name [Phase.END_COMBAT], each with the phase it sets. *)
Module Cycle.

Definition first_steps : list (Phase.t * Phase.t) :=
  [ (Phase.UNTAP, Phase.UPKEEP); (Phase.UPKEEP, Phase.DRAW);
    (Phase.DRAW, Phase.FIRST_MAIN); (Phase.FIRST_MAIN, Phase.COMBAT_BEGIN);
    (Phase.COMBAT_BEGIN, Phase.DECLARE_ATTACKERS);
    (Phase.DECLARE_ATTACKERS, Phase.DECLARE_BLOCKERS);
    (Phase.DECLARE_BLOCKERS, Phase.COMBAT_DAMAGE) ].

End Cycle.

Module Sample.

(** The game of [Scenario.game_active_1] in a given phase. *)
Definition game_at (phase : Phase.t) : GameState.t :=
  GameState.set_phase phase None Scenario.game_active_1.

End Sample.

(** * Properties *)

(** ** Damage and life (state/player_state.py) *)

Section TakeDamage.

Import PlayerState.

Lemma take_damage_positive (amount : Z) (p : PlayerState.t) :
  0 < amount ->
  take_damage amount p =
    (Z.min amount (life_total p),
     set_life_total (Z.max 0 (life_total p - amount)) p).
Proof.
  intros Hpos. unfold take_damage.
  destruct (Z.leb_spec amount 0) as [Hle | _]; [lia | reflexivity].
Qed.

Lemma take_damage_not_positive (amount : Z) (p : PlayerState.t) :
  amount <= 0 -> take_damage amount p = (0, p).
Proof.
  intros Hle. unfold take_damage.
  destruct (Z.leb_spec amount 0) as [_ | Hlt]; [reflexivity | lia].
Qed.

Lemma is_alive_false_iff (p : PlayerState.t) :
  is_alive p = false <-> life_total p <= 0.
Proof. unfold is_alive. rewrite Z.ltb_ge. reflexivity. Qed.

(** C10, the claim as amended: for every player and amount, unless the
    life total is already negative and the amount is not positive,
    [take_damage] leaves a life total that is not negative; for a positive
    amount the new life total is [max 0 (L - amount)] and the damage
    returned is [min amount L]; for an amount that is not positive the
    result is 0 and the player is unchanged; and afterwards the player is
    not alive exactly when the life total is 0. *)
Theorem take_damage_never_leaves_negative_life (amount : Z) (p : PlayerState.t) :
  0 <= life_total p \/ 0 < amount ->
  0 <= life_total (snd (take_damage amount p)) /\
  (0 < amount ->
     life_total (snd (take_damage amount p)) = Z.max 0 (life_total p - amount) /\
     fst (take_damage amount p) = Z.min amount (life_total p)) /\
  (amount <= 0 ->
     fst (take_damage amount p) = 0 /\ snd (take_damage amount p) = p) /\
  (is_alive (snd (take_damage amount p)) = false <->
     life_total (snd (take_damage amount p)) = 0).
Proof.
  intros Hcase.
  assert (Hnonneg : 0 <= life_total (snd (take_damage amount p))).
  { destruct (Z.lt_ge_cases 0 amount) as [Hpos | Hle].
    - rewrite (take_damage_positive _ _ Hpos). simpl. lia.
    - rewrite (take_damage_not_positive _ _ Hle). simpl. lia. }
  split; [exact Hnonneg |]. split; [| split].
  - intros Hpos. rewrite (take_damage_positive _ _ Hpos). split; reflexivity.
  - intros Hle. rewrite (take_damage_not_positive _ _ Hle). split; reflexivity.
  - rewrite is_alive_false_iff. lia.
Qed.

(** A player at -5 who takes 3: the clamping brings the life total to 0. *)
Lemma take_damage_never_leaves_negative_life_witness :
  life_total (snd (take_damage 3 (new 1 (-5)))) = 0 /\
  fst (take_damage 3 (new 1 (-5))) = -5 /\
  is_alive (snd (take_damage 3 (new 1 (-5)))) = false.
Proof.
  pose proof (take_damage_never_leaves_negative_life 3 (new 1 (-5))) as H.
  destruct H as (_ & Hpos & _ & Halive); [right; lia |].
  destruct Hpos as [Hl Hd]; [lia |].
  split; [exact Hl |]. split; [exact Hd |].
  apply Halive. exact Hl.
Defined.

(** C10 as stated fails: a player whose life total is already negative
    keeps it through [take_damage 0], which returns before the clamping. *)
Lemma take_damage_keeps_negative_life :
  life_total (snd (take_damage 0 (new 1 (-1)))) = -1 /\
  life_total (snd (take_damage 0 (new 1 (-1)))) < 0.
Proof. split; simpl; lia. Qed.

End TakeDamage.

(** ** Mana payment (rules/mana_system.py) *)

Section GenericPayment.

Import ManaSystem.

(** One turn of the chain debits the first positive counter of the
    precedence order, and fails when there is none. *)
Lemma debit_first_available_spec (pool : ManaPool.t) :
  debit_first_available pool =
    option_map (fun c => Color.debit c pool) (Color.first_available pool).
Proof.
  unfold debit_first_available, Color.first_available. simpl.
  destruct (0 <? ManaPool.white pool); [reflexivity |].
  destruct (0 <? ManaPool.blue pool); [reflexivity |].
  destruct (0 <? ManaPool.black pool); [reflexivity |].
  destruct (0 <? ManaPool.red pool); [reflexivity |].
  destruct (0 <? ManaPool.green pool); [reflexivity |].
  destruct (0 <? ManaPool.colorless pool); reflexivity.
Qed.

Lemma total_mana_debit (pool pool' : ManaPool.t) :
  debit_first_available pool = Some pool' ->
  ManaPool.total_mana pool' = ManaPool.total_mana pool - 1 /\
  (Color.nonneg pool -> Color.nonneg pool').
Proof.
  destruct pool as [w u b r g c].
  unfold debit_first_available, ManaPool.total_mana, Color.nonneg. simpl.
  destruct (Z.ltb_spec 0 w); [intros [= <-]; simpl; lia |].
  destruct (Z.ltb_spec 0 u); [intros [= <-]; simpl; lia |].
  destruct (Z.ltb_spec 0 b); [intros [= <-]; simpl; lia |].
  destruct (Z.ltb_spec 0 r); [intros [= <-]; simpl; lia |].
  destruct (Z.ltb_spec 0 g); [intros [= <-]; simpl; lia |].
  destruct (Z.ltb_spec 0 c); [intros [= <-]; simpl; lia |].
  discriminate.
Qed.

(** On a pool without negative counters that holds at least [n] units,
    [n] turns of the loop succeed and take the units greedily in the
    precedence order. *)
Lemma pay_generic_loop_greedy (n : nat) (pool : ManaPool.t) :
  Color.nonneg pool ->
  Z.of_nat n <= ManaPool.total_mana pool ->
  pay_generic_loop n pool = (true, Color.greedy_take (Z.of_nat n) pool).
Proof.
  revert pool. induction n as [| n IH]; intros pool Hnn Htot.
  - destruct pool as [w u b r g c].
    unfold Color.nonneg, Color.greedy_take in *. simpl in *.
    f_equal. f_equal; lia.
  - cbn [pay_generic_loop].
    destruct (debit_first_available pool) as [pool' |] eqn:Hd.
    + destruct (total_mana_debit _ _ Hd) as [Htot' Hnn'].
      rewrite IH; [| auto | lia].
      f_equal. clear IH Htot' Hnn'.
      destruct pool as [w u b r g c].
      unfold debit_first_available, Color.nonneg, ManaPool.total_mana in *.
      simpl in *.
      destruct (Z.ltb_spec 0 w);
        [injection Hd as <-; unfold Color.greedy_take; simpl; f_equal; lia |].
      destruct (Z.ltb_spec 0 u);
        [injection Hd as <-; unfold Color.greedy_take; simpl; f_equal; lia |].
      destruct (Z.ltb_spec 0 b);
        [injection Hd as <-; unfold Color.greedy_take; simpl; f_equal; lia |].
      destruct (Z.ltb_spec 0 r);
        [injection Hd as <-; unfold Color.greedy_take; simpl; f_equal; lia |].
      destruct (Z.ltb_spec 0 g);
        [injection Hd as <-; unfold Color.greedy_take; simpl; f_equal; lia |].
      destruct (Z.ltb_spec 0 c);
        [injection Hd as <-; unfold Color.greedy_take; simpl; f_equal; lia |].
      discriminate.
    + exfalso. destruct pool as [w u b r g c].
      unfold debit_first_available, Color.nonneg, ManaPool.total_mana in *.
      simpl in *.
      destruct (Z.ltb_spec 0 w); [discriminate |].
      destruct (Z.ltb_spec 0 u); [discriminate |].
      destruct (Z.ltb_spec 0 b); [discriminate |].
      destruct (Z.ltb_spec 0 r); [discriminate |].
      destruct (Z.ltb_spec 0 g); [discriminate |].
      destruct (Z.ltb_spec 0 c); [discriminate |].
      lia.
Qed.

Lemma pay_basic_mana_greedy (cost : ManaCost.t) (player : PlayerState.t) :
  _can_pay_basic_mana cost player = true ->
  0 <= ManaCost.generic cost ->
  _pay_basic_mana cost player =
    (true,
     PlayerState.set_mana_pool
       (Color.greedy_take (ManaCost.generic cost)
          (Color.after_colored cost (PlayerState.mana_pool player)))
       player).
Proof.
  intros Hcan Hgen. unfold _can_pay_basic_mana in Hcan.
  destruct (Z.ltb_spec (ManaPool.white (PlayerState.mana_pool player))
              (ManaCost.white cost)); [discriminate |].
  destruct (Z.ltb_spec (ManaPool.blue (PlayerState.mana_pool player))
              (ManaCost.blue cost)); [discriminate |].
  destruct (Z.ltb_spec (ManaPool.black (PlayerState.mana_pool player))
              (ManaCost.black cost)); [discriminate |].
  destruct (Z.ltb_spec (ManaPool.red (PlayerState.mana_pool player))
              (ManaCost.red cost)); [discriminate |].
  destruct (Z.ltb_spec (ManaPool.green (PlayerState.mana_pool player))
              (ManaCost.green cost)); [discriminate |].
  destruct (Z.ltb_spec (ManaPool.colorless (PlayerState.mana_pool player))
              (ManaCost.colorless cost)); [discriminate |].
  cbv zeta in Hcan.
  match type of Hcan with
  | (if ?a <? ?b then _ else _) = _ => destruct (Z.ltb_spec a b); [discriminate |]
  end.
  unfold _pay_basic_mana.
  fold (Color.after_colored cost (PlayerState.mana_pool player)).
  rewrite pay_generic_loop_greedy.
  - rewrite Z2Nat.id by exact Hgen. reflexivity.
  - unfold Color.nonneg, Color.after_colored. simpl. lia.
  - rewrite Z2Nat.id by exact Hgen.
    unfold Color.after_colored, ManaPool.total_mana in *. simpl. lia.
Qed.

(** C8: every turn of the generic loop of [_pay_basic_mana] debits the
    first positive counter in the order white, blue, black, red, green,
    colorless and fails only when no counter is positive; on a pool
    without negative counters that covers the generic amount the loop
    takes the amount greedily in that order; and paying "{2}{W}{W}" (total
    cost 4) from white = 2, colorless = 2 succeeds and leaves white = 0,
    colorless = 0. *)
Theorem generic_pips_paid_in_precedence_order :
  (forall pool,
      debit_first_available pool =
        option_map (fun c => Color.debit c pool) (Color.first_available pool)) /\
  (forall n pool,
      pay_generic_loop (S n) pool =
        match Color.first_available pool with
        | Some c => pay_generic_loop n (Color.debit c pool)
        | None => (false, pool)
        end) /\
  (forall n pool,
      Color.nonneg pool -> Z.of_nat n <= ManaPool.total_mana pool ->
      pay_generic_loop n pool = (true, Color.greedy_take (Z.of_nat n) pool)) /\
  (forall cost player,
      _can_pay_basic_mana cost player = true -> 0 <= ManaCost.generic cost ->
      _pay_basic_mana cost player =
        (true,
         PlayerState.set_mana_pool
           (Color.greedy_take (ManaCost.generic cost)
              (Color.after_colored cost (PlayerState.mana_pool player)))
           player)) /\
  (let player := Scenario.player_with_pool (ManaPool.mk 2 0 0 0 0 2) in
   ManaCost.get_total_cost (ManaCost.new "{2}{W}{W}") = 4 /\
   can_pay_cost "{2}{W}{W}" player = true /\
   pay_cost "{2}{W}{W}" player =
     (true, Scenario.player_with_pool (ManaPool.mk 0 0 0 0 0 0))).
Proof.
  split; [exact debit_first_available_spec |].
  split.
  { intros n pool. cbn [pay_generic_loop].
    rewrite debit_first_available_spec.
    destruct (Color.first_available pool); reflexivity. }
  split; [exact pay_generic_loop_greedy |].
  split; [exact pay_basic_mana_greedy |].
  cbv zeta. repeat split; vm_compute; reflexivity.
Qed.

End GenericPayment.

Section Payment.

Import ManaSystem.

Lemma can_pay_mana_cost_needs_no_snow (cost : ManaCost.t) (player : PlayerState.t) :
  ManaCost.snow cost <> 0 -> _can_pay_mana_cost cost player = false.
Proof.
  intros Hsnow. unfold _can_pay_mana_cost, _can_pay_snow_mana.
  destruct (Z.eqb_spec (ManaCost.snow cost) 0) as [Heq | _]; [contradiction |].
  destruct (_can_pay_basic_mana cost player); [| reflexivity].
  destruct (_can_pay_hybrid_mana cost player); [| reflexivity].
  destruct (_can_pay_phyrexian_mana cost player); reflexivity.
Qed.

Lemma pay_cost_refused_unchanged (cost_string : string) (player : PlayerState.t) :
  can_pay_cost cost_string player = false ->
  pay_cost cost_string player = (false, player).
Proof.
  unfold can_pay_cost, pay_cost.
  destruct cost_string as [| c s]; [discriminate |].
  intros ->. reflexivity.
Qed.

(** C7, the claim as amended: the snow check passes only for a cost
    without snow symbols.  Whatever the player's state, a cost that
    contains a snow symbol is reported unpayable by [can_pay_cost] and is
    refused by [pay_cost], which leaves the player unchanged. *)
Theorem snow_cost_is_never_payable (cost_string : string) (player : PlayerState.t) :
  0 < ManaCost.snow (ManaCost.new cost_string) ->
  _can_pay_snow_mana (ManaCost.new cost_string) player = false /\
  fst (_pay_snow_mana (ManaCost.new cost_string) player) = false /\
  can_pay_cost cost_string player = false /\
  pay_cost cost_string player = (false, player).
Proof.
  intros Hsnow.
  assert (Hne : ManaCost.snow (ManaCost.new cost_string) <> 0) by lia.
  assert (Hcheck : (ManaCost.snow (ManaCost.new cost_string) =? 0) = false)
    by (apply Z.eqb_neq; exact Hne).
  assert (Hcan : can_pay_cost cost_string player = false).
  { unfold can_pay_cost. destruct cost_string as [| c s].
    - exfalso. revert Hsnow. vm_compute. discriminate.
    - apply can_pay_mana_cost_needs_no_snow. exact Hne. }
  repeat split.
  - exact Hcheck.
  - exact Hcheck.
  - exact Hcan.
  - apply pay_cost_refused_unchanged. exact Hcan.
Qed.

Lemma snow_cost_is_never_payable_witness :
  can_pay_cost "{S}" (Scenario.player_with_pool (ManaPool.mk 5 5 5 5 5 5)) = false /\
  pay_cost "{S}" (Scenario.player_with_pool (ManaPool.mk 5 5 5 5 5 5)) =
    (false, Scenario.player_with_pool (ManaPool.mk 5 5 5 5 5 5)).
Proof.
  pose proof (snow_cost_is_never_payable "{S}"
                (Scenario.player_with_pool (ManaPool.mk 5 5 5 5 5 5))) as H.
  destruct H as (_ & _ & Hcan & Hpay); [vm_compute; reflexivity |].
  split; [exact Hcan | exact Hpay].
Defined.

(** C7 as stated fails: for the cost "{S}" every check but the snow check
    passes, and the cost is still reported unpayable and not paid. *)
Lemma snow_only_cost_reported_unpayable :
  let player := Scenario.player_with_pool (ManaPool.mk 5 5 5 5 5 5) in
  let cost := ManaCost.new "{S}" in
  ManaCost.snow cost = 1 /\
  _can_pay_basic_mana cost player = true /\
  _can_pay_hybrid_mana cost player = true /\
  _can_pay_phyrexian_mana cost player = true /\
  _can_pay_energy cost player = true /\
  _can_pay_life cost player = true /\
  can_pay_cost "{S}" player = false /\
  pay_cost "{S}" player = (false, player).
Proof. cbv zeta. repeat split; vm_compute; reflexivity. Qed.

(** C1, the failing input: pool white = 1 and cost "{W/U}{W/U}".  Each
    hybrid symbol is checked on its own against the untouched pool, so the
    cost is accepted; the first symbol then takes the only white mana, the
    second cannot be paid, and [pay_cost] answers [False] with the pool
    already emptied. *)
Theorem hybrid_payment_fails_after_partial_debit :
  let player := Scenario.player_with_pool (ManaPool.mk 1 0 0 0 0 0) in
  can_pay_cost "{W/U}{W/U}" player = true /\
  pay_cost "{W/U}{W/U}" player =
    (false, Scenario.player_with_pool (ManaPool.mk 0 0 0 0 0 0)) /\
  snd (pay_cost "{W/U}{W/U}" player) <> player.
Proof.
  cbv zeta. split; [vm_compute; reflexivity |].
  split; [vm_compute; reflexivity |].
  vm_compute. discriminate.
Qed.

End Payment.

(** ** Parsing of cost expressions (rules/mana_system.py) *)

Section Parsing.

Lemma span_not_close_length (s run rest : string) :
  PyStr.span_not_close s = (run, rest) ->
  (String.length rest <= String.length s)%nat.
Proof.
  revert run rest. induction s as [| c t IH]; intros run rest; simpl.
  - intros [= <- <-]. simpl. lia.
  - destruct (Ascii.eqb c PyStr.close_brace).
    + intros [= <- <-]. simpl. lia.
    + destruct (PyStr.span_not_close t) as [run' rest'] eqn:Hs.
      intros [= <- <-]. specialize (IH _ _ eq_refl). lia.
Qed.

(** The scan never needs more fuel than the length of the text. *)
Lemma findall_fuel_stable (n m : nat) (s : string) :
  (String.length s <= n)%nat -> (String.length s <= m)%nat ->
  PyStr.findall_fuel n s = PyStr.findall_fuel m s.
Proof.
  revert m s. induction n as [| n IH]; intros m s Hn Hm.
  - destruct s; [| simpl in Hn; lia]. destruct m; reflexivity.
  - destruct m as [| m].
    + destruct s; [reflexivity | simpl in Hm; lia].
    + destruct s as [| c t]; [reflexivity |]. simpl in Hn, Hm.
      cbn [PyStr.findall_fuel].
      destruct (Ascii.eqb c PyStr.open_brace); [| apply IH; lia].
      destruct (PyStr.span_not_close t) as [run rest] eqn:Hs.
      apply span_not_close_length in Hs.
      destruct run as [| c1 run]; [apply IH; lia |].
      destruct rest as [| c2 rest]; [apply IH; lia |].
      simpl in Hs. f_equal. apply IH; lia.
Qed.

Lemma add_symbol_total (c : ManaCost.t) (symbol : string) :
  ManaCost.get_total_cost (ManaCost.add_symbol c symbol) =
  ManaCost.get_total_cost c + Symbol.weight symbol.
Proof.
  destruct c as [s w u b r g cl gen hy ph sn en li].
  unfold ManaCost.add_symbol, Symbol.weight, ManaCost.get_total_cost.
  destruct (String.eqb symbol "W"); [simpl; lia |].
  destruct (String.eqb symbol "U"); [simpl; lia |].
  destruct (String.eqb symbol "B"); [simpl; lia |].
  destruct (String.eqb symbol "R"); [simpl; lia |].
  destruct (String.eqb symbol "G"); [simpl; lia |].
  destruct (String.eqb symbol "C"); [simpl; lia |].
  destruct (PyStr.isdigit symbol); [simpl; lia |].
  destruct (PyStr.contains_char "/" symbol);
    [simpl; rewrite length_app; simpl; lia |].
  destruct (PyStr.contains_char "P" symbol);
    [simpl; rewrite length_app; simpl; lia |].
  destruct (PyStr.contains_char "S" symbol); [simpl; lia |].
  destruct (PyStr.contains_char "E" symbol); [simpl; lia |].
  destruct (PyStr.contains_char "L" symbol); simpl; lia.
Qed.

Lemma fold_add_symbol_total (symbols : list string) (c : ManaCost.t) :
  ManaCost.get_total_cost (fold_left ManaCost.add_symbol symbols c) =
  ManaCost.get_total_cost c + Symbol.sum_weights symbols.
Proof.
  revert c. induction symbols as [| x l IH]; intros c; simpl.
  - lia.
  - rewrite IH, add_symbol_total. lia.
Qed.

Lemma new_total (cost_string : string) :
  ManaCost.get_total_cost (ManaCost.new cost_string) =
  Symbol.sum_weights (ManaCost.symbols_of cost_string).
Proof.
  unfold ManaCost.new, ManaCost._parse_cost. simpl.
  destruct cost_string as [| c s]; [reflexivity |].
  rewrite fold_add_symbol_total. reflexivity.
Qed.

Lemma add_symbol_unmatched (c : ManaCost.t) (symbol : string) :
  Symbol.unmatched symbol = true -> ManaCost.add_symbol c symbol = c.
Proof.
  destruct c as [s w u b r g cl gen hy ph sn en li].
  unfold Symbol.unmatched, ManaCost.add_symbol.
  destruct (String.eqb symbol "W"); [discriminate |].
  destruct (String.eqb symbol "U"); [discriminate |].
  destruct (String.eqb symbol "B"); [discriminate |].
  destruct (String.eqb symbol "R"); [discriminate |].
  destruct (String.eqb symbol "G"); [discriminate |].
  destruct (String.eqb symbol "C"); [discriminate |].
  destruct (PyStr.isdigit symbol); [discriminate |].
  destruct (PyStr.contains_char "/" symbol); [discriminate |].
  destruct (PyStr.contains_char "P" symbol); [discriminate |].
  destruct (PyStr.contains_char "S" symbol); [discriminate |].
  destruct (PyStr.contains_char "E" symbol); [discriminate |].
  destruct (PyStr.contains_char "L" symbol); [discriminate |].
  reflexivity.
Qed.

Lemma fold_add_symbol_skips_unmatched (l1 l2 : list string) (x : string)
    (c : ManaCost.t) :
  Symbol.unmatched x = true ->
  fold_left ManaCost.add_symbol (l1 ++ x :: l2) c =
  fold_left ManaCost.add_symbol (l1 ++ l2) c.
Proof.
  intros Hx. rewrite !fold_left_app. simpl.
  rewrite add_symbol_unmatched by exact Hx. reflexivity.
Qed.

(** The loop body with Python's [int] is the loop body on values, unless
    the symbol is a number that [int] refuses. *)
Lemma add_symbol_exc_spec (c : ManaCost.t) (symbol : string) :
  ManaCost.add_symbol_exc c symbol =
    if Symbol.refused symbol then raise ValueError
    else ret (ManaCost.add_symbol c symbol).
Proof.
  destruct c as [s w u b r g cl gen hy ph sn en li].
  unfold ManaCost.add_symbol_exc, ManaCost.add_symbol, Symbol.refused,
    PyStr.int_exc.
  destruct (String.eqb_spec symbol "W") as [-> | _]; [reflexivity |].
  destruct (String.eqb_spec symbol "U") as [-> | _]; [reflexivity |].
  destruct (String.eqb_spec symbol "B") as [-> | _]; [reflexivity |].
  destruct (String.eqb_spec symbol "R") as [-> | _]; [reflexivity |].
  destruct (String.eqb_spec symbol "G") as [-> | _]; [reflexivity |].
  destruct (String.eqb_spec symbol "C") as [-> | _]; [reflexivity |].
  destruct (PyStr.isdigit symbol); cbn [andb].
  - destruct (PyStr.int_max_str_digits <? PyStr.len symbol); reflexivity.
  - destruct (PyStr.contains_char "/" symbol); [reflexivity |].
    destruct (PyStr.contains_char "P" symbol); [reflexivity |].
    destruct (PyStr.contains_char "S" symbol); [reflexivity |].
    destruct (PyStr.contains_char "E" symbol); [reflexivity |].
    destruct (PyStr.contains_char "L" symbol); reflexivity.
Qed.

Lemma parse_symbols_exc_spec (symbols : list string) (c : ManaCost.t) :
  ManaCost.parse_symbols_exc symbols c =
    if existsb Symbol.refused symbols then raise ValueError
    else ret (fold_left ManaCost.add_symbol symbols c).
Proof.
  revert c. induction symbols as [| x l IH]; intros c; [reflexivity |].
  cbn [ManaCost.parse_symbols_exc existsb fold_left].
  rewrite add_symbol_exc_spec.
  destruct (Symbol.refused x); [reflexivity |]. cbn [orb]. apply IH.
Qed.

Lemma new_exc_spec (cost_string : string) :
  ManaCost.new_exc cost_string =
    if existsb Symbol.refused (ManaCost.symbols_of cost_string)
    then raise ValueError
    else ret (ManaCost.new cost_string).
Proof.
  unfold ManaCost.new_exc, ManaCost._parse_cost_exc, ManaCost.new,
    ManaCost._parse_cost.
  cbn [ManaCost.init ManaCost.cost_string].
  destruct cost_string as [| ch rest]; [reflexivity |].
  apply parse_symbols_exc_spec.
Qed.

Lemma unmatched_not_refused (symbol : string) :
  Symbol.unmatched symbol = true -> Symbol.refused symbol = false.
Proof.
  unfold Symbol.unmatched, Symbol.refused.
  destruct (PyStr.isdigit symbol); [| reflexivity].
  rewrite !andb_false_r. discriminate.
Qed.

(** C4, the claim as amended (ASCII text): the constructor is a function of
    the cost text that either raises [ValueError] or returns a cost.  It
    raises exactly when a bracketed symbol is a number of more than 4300
    digits, which [int] refuses, and this does happen (a number of 4301
    digits); otherwise it returns, the total cost of the parsed cost is
    the sum of its components, which is the sum over the bracketed symbols
    of what each contributes, and a bracketed symbol that meets none of
    the parser's tests (such as X or T) is skipped without any error: the
    result is the one obtained without that symbol.  The scan for
    bracketed symbols ends within the length of the text. *)
Theorem parse_raises_only_on_long_numbers_and_skips_unmatched_symbols :
  (forall cost_string,
      ManaCost.new_exc cost_string =
        if existsb Symbol.refused (ManaCost.symbols_of cost_string)
        then raise ValueError
        else ret (ManaCost.new cost_string)) /\
  ManaCost.new_exc (Symbol.braced (Symbol.ones 4301)) = raise ValueError /\
  (forall cost_string c,
      ManaCost.new_exc cost_string = ret c ->
      ManaCost.get_total_cost c =
        ManaCost.white c + ManaCost.blue c + ManaCost.black c +
        ManaCost.red c + ManaCost.green c + ManaCost.colorless c +
        ManaCost.generic c + Z.of_nat (length (ManaCost.hybrid c)) +
        Z.of_nat (length (ManaCost.phyrexian c)) + ManaCost.snow c /\
      ManaCost.get_total_cost c =
        Symbol.sum_weights (ManaCost.symbols_of cost_string)) /\
  (forall c symbol,
      Symbol.unmatched symbol = true ->
      ManaCost.add_symbol_exc c symbol = ret c) /\
  (forall l1 l2 x c,
      Symbol.unmatched x = true ->
      ManaCost.parse_symbols_exc (l1 ++ x :: l2) c =
      ManaCost.parse_symbols_exc (l1 ++ l2) c) /\
  Symbol.unmatched "X" = true /\ Symbol.unmatched "T" = true /\
  (forall s fuel,
      (String.length s <= fuel)%nat ->
      PyStr.findall_fuel fuel s = PyStr.findall_braced s).
Proof.
  split; [exact new_exc_spec |].
  split; [vm_compute; reflexivity |].
  split.
  { intros cost_string c. rewrite new_exc_spec.
    destruct (existsb Symbol.refused (ManaCost.symbols_of cost_string));
      [discriminate |].
    intros [= <-]. split; [reflexivity | apply new_total]. }
  split.
  { intros c symbol Hx. rewrite add_symbol_exc_spec.
    rewrite (unmatched_not_refused _ Hx), (add_symbol_unmatched _ _ Hx).
    reflexivity. }
  split.
  { intros l1 l2 x c Hx. rewrite !parse_symbols_exc_spec.
    rewrite !existsb_app. cbn [existsb].
    rewrite (unmatched_not_refused _ Hx). cbn [orb].
    rewrite (fold_add_symbol_skips_unmatched _ _ _ _ Hx). reflexivity. }
  split; [reflexivity |]. split; [reflexivity |].
  intros s fuel Hfuel. unfold PyStr.findall_braced.
  apply findall_fuel_stable; [exact Hfuel | lia].
Qed.

(** C4 as stated fails: "{X}" and "{T}" hold a bracketed symbol outside
    the grammar, and the constructor returns the zero cost for them
    without raising, the same counts as for a text without symbols;
    "{2}{X}{W}" parses to the counts of "{2}{W}". *)
Lemma unrecognized_symbol_parses_to_a_cost :
  ManaCost.symbols_of "{X}" = ["X"%string] /\
  ManaCost.new_exc "{X}" = ret (ManaCost.init "{X}") /\
  ManaCost.new_exc "{T}" = ret (ManaCost.init "{T}") /\
  ManaCost.new "{X}" = ManaCost.init "{X}" /\
  ManaCost.new "{T}" = ManaCost.init "{T}" /\
  ManaCost.get_total_cost (ManaCost.new "{X}") = 0 /\
  ManaSystem.can_pay_cost "{X}" (PlayerState.new 1 20) = true /\
  ManaCost.symbols_of "{2}{X}{W}" = ["2"%string; "X"%string; "W"%string] /\
  ManaCost.parse_symbols_exc (ManaCost.symbols_of "{2}{X}{W}") (ManaCost.init "") =
  ManaCost.parse_symbols_exc (ManaCost.symbols_of "{2}{W}") (ManaCost.init "") /\
  fold_left ManaCost.add_symbol (ManaCost.symbols_of "{2}{X}{W}") (ManaCost.init "") =
  fold_left ManaCost.add_symbol (ManaCost.symbols_of "{2}{W}") (ManaCost.init "").
Proof. repeat split; vm_compute; reflexivity. Qed.

End Parsing.

(** ** Priority and phases (rules/timing_rules.py) *)

Section Priority.

Import TimingRules.

(** The first test of [_player_has_priority] answers for the active
    player before the pass set is looked at. *)
Lemma active_player_always_has_priority (player_id : Z) (tr : TimingRules.t) :
  GameState.active_player (game_state tr) = Some player_id ->
  _player_has_priority player_id tr = true.
Proof.
  intros Hactive. unfold _player_has_priority.
  rewrite bool_decide_eq_true_2 by exact Hactive. reflexivity.
Qed.

(** C6, the failing input, which is the run of [test_priority_system] in
    tests/test_legality.py: players 1 and 2, player 1 active.  Once player
    1 has passed, it is in the pass set and [_player_has_priority 1] still
    answers [True], where the claim (and the test) expect [False]; and
    before any pass, player 2, who is neither the active player nor the
    priority player, is given priority as well. *)
Theorem passed_active_player_still_has_priority :
  let tr := snd (pass_priority 1 (TimingRules.new Scenario.game_active_1)) in
  GameState.active_player (game_state tr) = Some 1 /\
  bool_decide (1 ∈ priority_passed tr) = true /\
  _player_has_priority 1 tr = true /\
  GameState.priority_player (game_state (TimingRules.new Scenario.game_active_1)) = None /\
  _player_has_priority 2 (TimingRules.new Scenario.game_active_1) = true.
Proof. cbv zeta. repeat split; vm_compute; reflexivity. Qed.

End Priority.

Section PhaseCycle.

Import TimingRules.

(** The next phase of the cycle of section 4.2. *)
Lemma advance_phase_first_steps (g : GameState.t) :
  (GameState.current_phase g = Some Phase.UNTAP ->
     _advance_phase g = GameState.set_phase Phase.UPKEEP None g) /\
  (GameState.current_phase g = Some Phase.UPKEEP ->
     _advance_phase g = GameState.set_phase Phase.DRAW None g) /\
  (GameState.current_phase g = Some Phase.DRAW ->
     _advance_phase g = GameState.set_phase Phase.FIRST_MAIN None g) /\
  (GameState.current_phase g = Some Phase.FIRST_MAIN ->
     _advance_phase g = GameState.set_phase Phase.COMBAT_BEGIN None g) /\
  (GameState.current_phase g = Some Phase.COMBAT_BEGIN ->
     _advance_phase g = GameState.set_phase Phase.DECLARE_ATTACKERS None g) /\
  (GameState.current_phase g = Some Phase.DECLARE_ATTACKERS ->
     _advance_phase g = GameState.set_phase Phase.DECLARE_BLOCKERS None g) /\
  (GameState.current_phase g = Some Phase.DECLARE_BLOCKERS ->
     _advance_phase g = GameState.set_phase Phase.COMBAT_DAMAGE None g).
Proof.
  repeat split; intros H; unfold _advance_phase, advance_phase_body;
    rewrite H; reflexivity.
Qed.

(** From the combat damage step on, the chain of [_advance_phase] reaches
    the name [Phase.END_COMBAT], which the enumeration does not define
    (its member is [COMBAT_END]): the lookup raises, the handler logs the
    error, and the state stays as it was. *)
Lemma advance_phase_stuck (g : GameState.t) (phase : Phase.t) :
  GameState.current_phase g = Some phase ->
  phase ∈ [Phase.COMBAT_DAMAGE; Phase.COMBAT_END; Phase.SECOND_MAIN;
           Phase.END_STEP; Phase.CLEANUP] ->
  advance_phase_body g = raise (AttributeError "END_COMBAT") /\
  _advance_phase g = g.
Proof.
  intros Hcur Hin. unfold _advance_phase, advance_phase_body. rewrite Hcur.
  repeat (apply elem_of_cons in Hin as [-> | Hin]; [split; reflexivity |]).
  apply elem_of_nil in Hin. contradiction.
Qed.

(** C2, the failing inputs: players 1 and 2, player 1 active, empty pass
    set.  From DeclareBlockers the two passes still reach CombatDamage;
    from CombatDamage, EndCombat, SecondMain, EndStep and Cleanup they
    clear the pass set and leave the phase where it was, and from Cleanup
    the turn number is not incremented either. *)
Theorem both_pass_stuck_from_combat_damage :
  let phase_after p :=
    GameState.current_phase (game_state (Scenario.both_pass (Scenario.at_phase p))) in
  phase_after Phase.DECLARE_BLOCKERS = Some Phase.COMBAT_DAMAGE /\
  advance_phase_body (game_state (Scenario.at_phase Phase.COMBAT_DAMAGE)) =
    raise (AttributeError "END_COMBAT") /\
  phase_after Phase.COMBAT_DAMAGE = Some Phase.COMBAT_DAMAGE /\
  phase_after Phase.COMBAT_END = Some Phase.COMBAT_END /\
  phase_after Phase.SECOND_MAIN = Some Phase.SECOND_MAIN /\
  phase_after Phase.END_STEP = Some Phase.END_STEP /\
  phase_after Phase.CLEANUP = Some Phase.CLEANUP /\
  GameState.turn_number
    (game_state (Scenario.both_pass (Scenario.at_phase Phase.CLEANUP))) =
  GameState.turn_number (game_state (Scenario.at_phase Phase.CLEANUP)) /\
  priority_passed (Scenario.both_pass (Scenario.at_phase Phase.CLEANUP)) = ∅.
Proof. cbv zeta. repeat split; vm_compute; reflexivity. Qed.

End PhaseCycle.

Section SinglePass.

Import TimingRules.

Variable tr : TimingRules.t.
Variables ps po : PlayerState.t.
Variable p : Z.

Hypothesis Hself : GameState.self_player (game_state tr) = Some ps.
Hypothesis Hopp : GameState.opponent_player (game_state tr) = Some po.
Hypothesis Hdistinct : PlayerState.player_id ps <> PlayerState.player_id po.

Let a := PlayerState.player_id ps.
Let b := PlayerState.player_id po.

(** The pass set once [p] has been added, and the state with it. *)
Let passed := {[p]} ∪ priority_passed tr.
Let marked := TimingRules.mk (game_state tr) passed (current_priority_player tr).

(** Who holds priority for [_move_to_next_player]. *)
Let holder :=
  match GameState.priority_player (game_state tr) with
  | None => GameState.active_player (game_state tr)
  | Some q => Some q
  end.

Lemma registered_two : registered_players (game_state tr) = [a; b].
Proof. unfold registered_players. rewrite Hself, Hopp. reflexivity. Qed.

Lemma all_passed_iff :
  _all_players_passed_priority marked = true <-> a ∈ passed /\ b ∈ passed.
Proof.
  unfold _all_players_passed_priority. cbn [game_state priority_passed marked].
  rewrite registered_two. cbn [forallb].
  rewrite andb_true_r, andb_true_iff, !bool_decide_eq_true. reflexivity.
Qed.

Lemma move_to_next_player_two :
  _move_to_next_player marked =
    let next := if bool_decide (holder = Some b) then a else b in
    TimingRules.mk (GameState.set_priority_player (Some next) (game_state tr))
                   passed (Some next).
Proof.
  unfold _move_to_next_player, move_to_next_player_body.
  cbn [game_state priority_passed marked].
  rewrite registered_two. fold holder. cbv zeta.
  destruct holder as [q |]; cbn [index_of].
  - destruct (Z.eqb_spec a q) as [Ha | Ha].
    + rewrite bool_decide_eq_false_2; [reflexivity |].
      intros [= Hq]. apply Hdistinct. fold a b. congruence.
    + destruct (Z.eqb_spec b q) as [Hb | Hb].
      * rewrite bool_decide_eq_true_2 by congruence. reflexivity.
      * rewrite bool_decide_eq_false_2 by congruence. reflexivity.
  - rewrite bool_decide_eq_false_2 by discriminate. reflexivity.
Qed.

(** While a registered player is missing from the pass set, a pass only
    records the passer and hands priority on. *)
Lemma pass_priority_not_all :
  ~ (a ∈ passed /\ b ∈ passed) ->
  pass_priority p tr =
    (true,
     let next := if bool_decide (holder = Some b) then a else b in
     TimingRules.mk (GameState.set_priority_player (Some next) (game_state tr))
                    passed (Some next)).
Proof.
  intros Hnot. unfold pass_priority. fold passed. fold marked.
  destruct (_all_players_passed_priority marked) eqn:Hall.
  - apply all_passed_iff in Hall. contradiction.
  - rewrite move_to_next_player_two. reflexivity.
Qed.

Lemma pass_priority_all :
  a ∈ passed -> b ∈ passed ->
  pass_priority p tr =
    (true, TimingRules.mk (_advance_phase (game_state tr)) ∅
                          (current_priority_player tr)).
Proof.
  intros Ha Hb. unfold pass_priority. fold passed. fold marked.
  rewrite (proj2 all_passed_iff (conj Ha Hb)). reflexivity.
Qed.

(** C3, the claim as amended: with two registered players of different
    ids, a pass by one player on an empty pass set leaves the phase and the
    turn as they are, leaves the passer recorded in the pass set, and moves
    priority to the player after the current holder in player order (to
    the opponent from the first player, to the first player from the
    opponent), the holder being [priority_player], or the active player
    when none is set: to the other player, then, when the passer is the
    holder.  The same holds whenever a registered player is still missing
    from the pass set; and the phase or the turn changes, or the pass set
    is cleared, only when both registered players are in the pass set. *)
Theorem single_pass_never_advances :
  let tr' := snd (pass_priority p tr) in
  let next := if bool_decide (holder = Some b) then a else b in
  fst (pass_priority p tr) = true /\
  (priority_passed tr = ∅ ->
     GameState.current_phase (game_state tr') =
       GameState.current_phase (game_state tr) /\
     GameState.turn_number (game_state tr') =
       GameState.turn_number (game_state tr) /\
     priority_passed tr' = {[p]} /\
     GameState.priority_player (game_state tr') = Some next /\
     current_priority_player tr' = Some next) /\
  (~ (a ∈ passed /\ b ∈ passed) ->
     GameState.current_phase (game_state tr') =
       GameState.current_phase (game_state tr) /\
     GameState.turn_number (game_state tr') =
       GameState.turn_number (game_state tr) /\
     priority_passed tr' = passed /\
     GameState.priority_player (game_state tr') = Some next) /\
  (GameState.current_phase (game_state tr') <>
     GameState.current_phase (game_state tr) \/
   GameState.turn_number (game_state tr') <>
     GameState.turn_number (game_state tr) \/
   priority_passed tr' = ∅ ->
   a ∈ passed /\ b ∈ passed) /\
  (holder = Some a -> next = b) /\ (holder = Some b -> next = a).
Proof.
  cbv zeta.
  assert (Hgeneral :
    ~ (a ∈ passed /\ b ∈ passed) ->
    GameState.current_phase (game_state (snd (pass_priority p tr))) =
      GameState.current_phase (game_state tr) /\
    GameState.turn_number (game_state (snd (pass_priority p tr))) =
      GameState.turn_number (game_state tr) /\
    priority_passed (snd (pass_priority p tr)) = passed /\
    GameState.priority_player (game_state (snd (pass_priority p tr))) =
      Some (if bool_decide (holder = Some b) then a else b) /\
    current_priority_player (snd (pass_priority p tr)) =
      Some (if bool_decide (holder = Some b) then a else b)).
  { intros Hnot. rewrite (pass_priority_not_all Hnot). cbv zeta.
    repeat split; reflexivity. }
  split.
  { unfold pass_priority.
    destruct (_all_players_passed_priority _); reflexivity. }
  split.
  { intros Hempty.
    assert (Hnot : ~ (a ∈ passed /\ b ∈ passed)).
    { unfold passed. rewrite Hempty, union_empty_r_L. intros [Ha Hb].
      apply elem_of_singleton in Ha, Hb. apply Hdistinct. fold a b. congruence. }
    destruct (Hgeneral Hnot) as (H1 & H2 & H3 & H4 & H5).
    repeat split; try assumption.
    rewrite H3. unfold passed. rewrite Hempty. apply union_empty_r_L. }
  split.
  { intros Hnot. destruct (Hgeneral Hnot) as (H1 & H2 & H3 & H4 & _).
    repeat split; assumption. }
  split.
  { intros Hchange.
    destruct (decide (a ∈ passed /\ b ∈ passed)) as [Hall | Hnot];
      [exact Hall |].
    destruct (Hgeneral Hnot) as (H1 & H2 & H3 & _).
    exfalso. destruct Hchange as [Hc | [Hc | Hc]].
    - apply Hc. exact H1.
    - apply Hc. exact H2.
    - rewrite H3 in Hc.
      assert (Hp : p ∈ passed)
        by (apply elem_of_union_l, elem_of_singleton; reflexivity).
      rewrite Hc in Hp. apply elem_of_empty in Hp. exact Hp. }
  split.
  - intros Hh. rewrite bool_decide_eq_false_2; [reflexivity |].
    rewrite Hh. intros [= Hab]. apply Hdistinct. exact Hab.
  - intros Hh. rewrite bool_decide_eq_true_2 by exact Hh. reflexivity.
Qed.

End SinglePass.

Lemma single_pass_never_advances_witness :
  let tr := TimingRules.new (GameState.set_phase Phase.FIRST_MAIN None Scenario.game_active_1) in
  let tr' := snd (TimingRules.pass_priority 1 tr) in
  GameState.current_phase (TimingRules.game_state tr') = Some Phase.FIRST_MAIN /\
  TimingRules.priority_passed tr' = {[1]} /\
  GameState.priority_player (TimingRules.game_state tr') = Some 2.
Proof.
  cbv zeta.
  pose proof (single_pass_never_advances
    (TimingRules.new (GameState.set_phase Phase.FIRST_MAIN None Scenario.game_active_1))
    (PlayerState.new 1 20) (PlayerState.new 2 20) 1 eq_refl eq_refl) as H.
  cbv zeta in H.
  destruct H as (_ & Hlone & _); [simpl; lia |].
  destruct Hlone as (Hphase & _ & Hset & Hprio & _); [reflexivity |].
  split; [exact Hphase |]. split; [exact Hset | exact Hprio].
Defined.

(** C3 as stated fails in its last part: a lone pass does not always send
    priority to the other player.  Once players 1 and 2 have passed in the
    untap step, [priority_player] is still 2; the lone pass of the active
    player 1 that follows keeps the phase, records player 1, and hands
    priority to player 1, the passer.  Likewise, in a fresh untap step
    with player 1 active, a lone pass of player 2 hands priority to
    player 2. *)
Lemma lone_pass_hands_priority_to_the_passer :
  let tr := Scenario.both_pass (Scenario.at_phase Phase.UNTAP) in
  let tr' := snd (TimingRules.pass_priority 1 tr) in
  let tr2 := snd (TimingRules.pass_priority 2 (Scenario.at_phase Phase.UNTAP)) in
  GameState.current_phase (TimingRules.game_state tr) = Some Phase.UPKEEP /\
  TimingRules.priority_passed tr = ∅ /\
  GameState.active_player (TimingRules.game_state tr) = Some 1 /\
  GameState.priority_player (TimingRules.game_state tr) = Some 2 /\
  GameState.current_phase (TimingRules.game_state tr') = Some Phase.UPKEEP /\
  TimingRules.priority_passed tr' = {[1]} /\
  GameState.priority_player (TimingRules.game_state tr') = Some 1 /\
  TimingRules.current_priority_player tr' = Some 1 /\
  TimingRules.priority_passed tr2 = {[2]} /\
  GameState.priority_player (TimingRules.game_state tr2) = Some 2.
Proof. cbv zeta. repeat split; vm_compute; reflexivity. Qed.

(** ** The legend rule (rules/card_restrictions.py, state/game_state.py) *)

Section LegendRuleCheck.

Import CardRestrictionEngine.


End LegendRuleCheck.

(** ** Land plays (rules/legality_engine.py) *)

Section LandPlays.

Import LegalityEngine.

(** Validation refuses a land play once the flag is set. *)
Lemma play_land_refused_after_land_played (g : GameState.t) (player_id : Z)
    (player : PlayerState.t) (card : CardInfo.t) (land_type : option string) :
  GameState.get_player player_id g = Some player ->
  PlayerState.has_played_land_this_turn player = true ->
  _validate_play_land g player_id card = false /\
  is_action_legal g (Action.PlayLandAction player_id card land_type) = false.
Proof.
  intros Hplayer Hflag.
  assert (Hval : _validate_play_land g player_id card = false).
  { unfold _validate_play_land. rewrite Hplayer.
    unfold PlayerState.can_play_land. rewrite Hflag. reflexivity. }
  split; [exact Hval |].
  unfold is_action_legal, is_action_legal_body.
  destruct (_validate_basic_requirements g _); [| reflexivity].
  cbn [negb].
  destruct (_validate_timing g _) as [e | [|]]; [reflexivity | | reflexivity].
  cbn [negb _validate_action_type try_except]. rewrite Hval. reflexivity.
Qed.

(** [get_player] answers with a player of the id that was asked for. *)
Lemma get_player_id (g : GameState.t) (player_id : Z) (player : PlayerState.t) :
  GameState.get_player player_id g = Some player ->
  PlayerState.player_id player = player_id.
Proof.
  unfold GameState.get_player, GameState.find_seat.
  destruct (GameState.self_player g) as [p |] eqn:Hs;
    destruct (GameState.opponent_player g) as [q |] eqn:Ho;
    repeat match goal with
    | |- context [?x =? ?y] => destruct (Z.eqb_spec x y)
    end; cbn [GameState.player_at]; rewrite ?Hs, ?Ho; congruence.
Qed.

(** A card of the hand is found under its own instance id. *)
Lemma find_card_member (card : CardInfo.t) (cards : list CardInfo.t) :
  In card cards -> Hand.find_card (CardInfo.instance_id card) cards <> None.
Proof.
  induction cards as [| c l IH]; [intros [] |].
  intros [-> | Hin]; cbn [Hand.find_card].
  - rewrite Z.eqb_refl. discriminate.
  - destruct (CardInfo.instance_id c =? CardInfo.instance_id card);
      [discriminate | apply IH; exact Hin].
Qed.

Lemma play_land_actions_of_filter (f : Action.t -> bool) (l : list Action.t) :
  play_land_actions_of (List.filter f l) = List.filter f (play_land_actions_of l).
Proof.
  unfold play_land_actions_of. induction l as [| a l IH]; [reflexivity |].
  cbn [List.filter].
  destruct (f a) eqn:Hf, (Action.is_play_land a) eqn:Hp; cbn [List.filter];
    rewrite ?Hf, ?Hp, IH; reflexivity.
Qed.

Lemma play_land_actions_of_none (l : list Action.t) :
  Forall (fun a => Action.is_play_land a = false) l ->
  play_land_actions_of l = [].
Proof.
  unfold play_land_actions_of. induction 1 as [| a l Ha _ IH]; [reflexivity |].
  cbn [List.filter]. rewrite Ha. exact IH.
Qed.

Lemma play_land_actions_of_all (l : list Action.t) :
  Forall (fun a => Action.is_play_land a = true) l ->
  play_land_actions_of l = l.
Proof.
  unfold play_land_actions_of. induction 1 as [| a l Ha _ IH]; [reflexivity |].
  cbn [List.filter]. rewrite Ha, IH. reflexivity.
Qed.

Lemma always_available_not_land (player : PlayerState.t) :
  Forall (fun a => Action.is_play_land a = false)
         (_generate_always_available_actions player).
Proof. repeat constructor. Qed.

(** What the main phase offers besides land plays. *)
Lemma main_phase_rest_not_land (player : PlayerState.t)
    (is_active_player : bool) (actions : list Action.t) :
  _generate_main_phase_actions player is_active_player = ret actions ->
  exists lands,
    (if is_active_player && PlayerState.can_play_land player
     then play_land_actions (PlayerState.player_id player)
            (Hand.cards (PlayerState.hand player))
     else ret []) = ret lands /\
    play_land_actions_of actions = play_land_actions_of lands.
Proof.
  unfold _generate_main_phase_actions.
  destruct (if is_active_player && PlayerState.can_play_land player
            then _ else _) as [e | ls]; [discriminate |].
  intros [= <-]. exists ls. split; [reflexivity |].
  unfold play_land_actions_of. rewrite !List.filter_app.
  fold (play_land_actions_of ls).
  match goal with
  | |- _ ++ ?x ++ ?y = _ =>
      assert (Hx : x = []); [| assert (Hy : y = []); [| rewrite Hx, Hy, app_nil_r; reflexivity]]
  end.
  - apply play_land_actions_of_none. apply List.Forall_forall.
    intros a Ha. apply in_map_iff in Ha as (c & <- & _). reflexivity.
  - apply play_land_actions_of_none. apply List.Forall_forall.
    intros a Ha. apply in_flat_map in Ha as (c & _ & Ha).
    apply in_map_iff in Ha as (ab & <- & _). reflexivity.
Qed.

(** Once a land has been played this turn, no play-land action is generated,
    in any phase. *)
Lemma generated_without_land_played (g : GameState.t) (player_id : Z)
    (player : PlayerState.t) :
  GameState.get_player player_id g = Some player ->
  PlayerState.has_played_land_this_turn player = true ->
  play_land_actions_of (_generate_legal_actions g player_id) = [].
Proof.
  intros Hplayer Hflag.
  unfold _generate_legal_actions, generate_legal_actions_body. rewrite Hplayer.
  cbv zeta.
  match goal with
  | |- context [match ?m with inl e => inl e | inr x => _ end] =>
      destruct m as [e | phase_actions] eqn:Hphase
  end; [reflexivity |].
  cbn [try_except ret]. rewrite play_land_actions_of_filter.
  unfold play_land_actions_of at 1. rewrite List.filter_app.
  fold (play_land_actions_of phase_actions).
  fold (play_land_actions_of (_generate_always_available_actions player)).
  rewrite (play_land_actions_of_none _ (always_available_not_land player)).
  rewrite app_nil_r.
  assert (Hnone : play_land_actions_of phase_actions = []);
    [| rewrite Hnone; reflexivity].
  revert Hphase.
  destruct (_ || _).
  { intros Hmain. apply main_phase_rest_not_land in Hmain as (lands & Hl & ->).
    unfold PlayerState.can_play_land in Hl. rewrite Hflag, andb_false_r in Hl.
    injection Hl as <-. reflexivity. }
  unfold _generate_attack_actions, _generate_block_actions,
    _generate_damage_actions.
  repeat match goal with
  | |- context [if bool_decide ?P then _ else _] => destruct (bool_decide P)
  end; intros [= <-]; apply play_land_actions_of_none;
    try (destruct (_ && _)); try (destruct (negb _));
    try (destruct (Battlefield.get_creatures _));
    repeat constructor.
  apply List.Forall_forall. intros a Ha.
  apply in_map_iff in Ha as (c & <- & _). reflexivity.
Qed.

(** When the land cards carry a type line, the loop builds one action per
    land card, in the order of the hand. *)
Lemma play_land_actions_with_type_lines (player_id : Z) (cards : list CardInfo.t) :
  (forall land, In land (List.filter (CardInfo.has_type CardType.LAND) cards) ->
                CardInfo.type_line land <> None) ->
  play_land_actions player_id cards =
    ret (map (land_action player_id)
             (List.filter (CardInfo.has_type CardType.LAND) cards)).
Proof.
  induction cards as [| c l IH]; intros Htl; [reflexivity |].
  cbn [play_land_actions List.filter] in *.
  destruct (CardInfo.has_type CardType.LAND c) eqn:Hland.
  - assert (Hc : CardInfo.type_line c <> None) by (apply Htl; left; reflexivity).
    rewrite IH by (intros land Hin; apply Htl; right; exact Hin).
    cbn [map]. unfold _get_land_type, CardInfo.get_type_line.
    destruct (CardInfo.type_line c) as [type_line |] eqn:Ht; [| contradiction].
    unfold land_action. rewrite Ht. reflexivity.
  - apply IH. exact Htl.
Qed.

Lemma filter_all {A : Type} (f : A -> bool) (l : list A) :
  (forall x, In x l -> f x = true) -> List.filter f l = l.
Proof.
  induction l as [| a l IH]; intros H; [reflexivity |].
  cbn [List.filter]. rewrite (H a) by (left; reflexivity).
  f_equal. apply IH. intros x Hx. apply H. right. exact Hx.
Qed.

(** In the first main phase of an active game, the land play of a land in
    the hand of a living player who has not played a land passes every
    stage of [is_action_legal]. *)
Lemma land_action_legal (g : GameState.t) (player_id : Z)
    (player : PlayerState.t) (land : CardInfo.t) :
  GameState.is_game_active g = true ->
  GameState.current_phase g = Some Phase.FIRST_MAIN ->
  GameState.get_player player_id g = Some player ->
  PlayerState.is_alive player = true ->
  PlayerState.has_played_land_this_turn player = false ->
  In land (lands_in_hand player) ->
  is_action_legal g (land_action player_id land) = true.
Proof.
  intros Hactive Hphase Hplayer Halive Hflag Hin.
  apply filter_In in Hin as [Hin Hland].
  unfold is_action_legal, is_action_legal_body, land_action,
    _validate_basic_requirements, _validate_timing, _validate_resources.
  cbn [Action.player_id Action.timing _validate_action_type].
  rewrite Hactive, Hplayer, Halive, Hphase. cbn [negb ret].
  rewrite bool_decide_eq_true_2 by (left).
  cbn [negb].
  unfold _validate_play_land. rewrite Hplayer.
  unfold PlayerState.can_play_land. rewrite Hflag. cbn [negb].
  unfold CardRestrictionEngine.in_hand, Hand.get_card.
  destruct (Hand.find_card _ _) eqn:Hfind;
    [| exfalso; exact (find_card_member _ _ Hin Hfind)].
  cbn [negb]. rewrite Hland. reflexivity.
Qed.

(** Where every land card in hand carries a type line, the generated set has
    exactly one play-land action per land card in hand. *)
Lemma generated_with_type_lines (g : GameState.t) (player_id : Z)
    (player : PlayerState.t) :
  GameState.is_game_active g = true ->
  GameState.current_phase g = Some Phase.FIRST_MAIN ->
  GameState.active_player g = Some player_id ->
  GameState.get_player player_id g = Some player ->
  PlayerState.is_alive player = true ->
  PlayerState.has_played_land_this_turn player = false ->
  (forall land, In land (lands_in_hand player) -> CardInfo.type_line land <> None) ->
  play_land_actions_of (_generate_legal_actions g player_id) =
    map (land_action player_id) (lands_in_hand player).
Proof.
  intros Hactive Hphase Hturn Hplayer Halive Hflag Htl.
  pose proof (get_player_id _ _ _ Hplayer) as Hid.
  unfold _generate_legal_actions, generate_legal_actions_body.
  rewrite Hplayer, Hphase, Hturn. cbv zeta.
  rewrite (bool_decide_eq_true_2 (Some Phase.FIRST_MAIN = Some Phase.FIRST_MAIN))
    by reflexivity.
  rewrite (bool_decide_eq_true_2 (Some player_id = Some player_id)) by reflexivity.
  cbn [orb].
  destruct (_generate_main_phase_actions player true) as [e | actions] eqn:Hmain.
  { exfalso. revert Hmain. unfold _generate_main_phase_actions.
    unfold PlayerState.can_play_land. rewrite Hflag. cbn [andb negb].
    rewrite play_land_actions_with_type_lines by exact Htl. discriminate. }
  apply main_phase_rest_not_land in Hmain as (lands & Hl & Hactions).
  unfold PlayerState.can_play_land in Hl. rewrite Hflag in Hl.
  cbn [andb negb] in Hl.
  rewrite play_land_actions_with_type_lines in Hl by exact Htl.
  injection Hl as <-. rewrite Hid in Hactions.
  cbn [try_except ret]. rewrite play_land_actions_of_filter.
  unfold play_land_actions_of at 1. rewrite List.filter_app.
  fold (play_land_actions_of actions).
  fold (play_land_actions_of (_generate_always_available_actions player)).
  rewrite (play_land_actions_of_none _ (always_available_not_land player)).
  rewrite app_nil_r, Hactions.
  rewrite play_land_actions_of_all.
  - apply filter_all. intros a Ha. apply in_map_iff in Ha as (land & <- & Hland).
    apply (land_action_legal g player_id player); assumption.
  - apply List.Forall_forall. intros a Ha.
    apply in_map_iff in Ha as (land & <- & _). reflexivity.
Qed.

(** C9, the failing input: first main phase, player 1 active and alive, no
    land played this turn, and in hand the land card of
    [test_can_play_land], which carries no [type_line].  Building the
    play-land action reads [land.type_line] in [_get_land_type]; that
    raises, [_generate_legal_actions] catches it and returns the empty
    list, where the claim expects one play-land action. *)
Theorem land_in_hand_empties_the_legal_actions :
  let g := Scenario.first_main_with_plains in
  GameState.is_game_active g = true /\
  GameState.current_phase g = Some Phase.FIRST_MAIN /\
  GameState.active_player g = Some 1 /\
  option_map PlayerState.is_alive (GameState.get_player 1 g) = Some true /\
  option_map PlayerState.has_played_land_this_turn (GameState.get_player 1 g) =
    Some false /\
  option_map lands_in_hand (GameState.get_player 1 g) = Some [Scenario.plains] /\
  _get_land_type Scenario.plains = raise (AttributeError "type_line") /\
  _generate_legal_actions g 1 = [] /\
  play_land_actions_of (_generate_legal_actions g 1) = [].
Proof. cbv zeta. repeat split; vm_compute; reflexivity. Qed.

End LandPlays.

(** * Further properties of the sources *)

(** ** Zones of a player (state/player_state.py) *)

Section Zones.

Lemma find_card_none_pop (instance_id : Z) (l : list CardInfo.t) :
  Hand.find_card instance_id l = None -> Hand.pop_card instance_id l = l.
Proof.
  induction l as [| c l IH]; [reflexivity |]. cbn [Hand.find_card Hand.pop_card].
  destruct (CardInfo.instance_id c =? instance_id); [discriminate |].
  intros H. rewrite IH by exact H. reflexivity.
Qed.

Lemma find_card_some_split (instance_id : Z) (l : list CardInfo.t) (c : CardInfo.t) :
  Hand.find_card instance_id l = Some c ->
  CardInfo.instance_id c = instance_id /\
  exists l1 l2,
    l = l1 ++ c :: l2 /\
    Hand.pop_card instance_id l = l1 ++ l2 /\
    Hand.find_card instance_id l1 = None.
Proof.
  induction l as [| x l IH]; [discriminate |].
  cbn [Hand.find_card Hand.pop_card].
  destruct (Z.eqb_spec (CardInfo.instance_id x) instance_id) as [Heq | Hne].
  - intros [= <-]. split; [exact Heq |]. exists [], l. repeat split; reflexivity.
  - intros H. destruct (IH H) as (Hid & l1 & l2 & Hl & Hpop & Hnone).
    split; [exact Hid |]. exists (x :: l1), l2. rewrite Hl at 1. rewrite Hpop.
    repeat split; try reflexivity.
    cbn [Hand.find_card]. destruct (Z.eqb_spec (CardInfo.instance_id x) instance_id);
      [contradiction | exact Hnone].
Qed.

Lemma find_card_app (instance_id : Z) (l1 l2 : list CardInfo.t) :
  Hand.find_card instance_id (l1 ++ l2) =
    match Hand.find_card instance_id l1 with
    | Some c => Some c
    | None => Hand.find_card instance_id l2
    end.
Proof.
  induction l1 as [| c l1 IH]; [reflexivity |]. cbn [app Hand.find_card].
  destruct (CardInfo.instance_id c =? instance_id); [reflexivity | exact IH].
Qed.

Lemma pop_card_app (instance_id : Z) (l1 l2 : list CardInfo.t) :
  Hand.pop_card instance_id (l1 ++ l2) =
    if Battlefield.holds instance_id l1
    then Hand.pop_card instance_id l1 ++ l2
    else l1 ++ Hand.pop_card instance_id l2.
Proof.
  unfold Battlefield.holds.
  induction l1 as [| c l1 IH]; [reflexivity |].
  cbn [app Hand.find_card Hand.pop_card].
  destruct (CardInfo.instance_id c =? instance_id); [reflexivity |].
  rewrite IH. destruct (Hand.find_card instance_id l1); reflexivity.
Qed.

Lemma hand_add_card_room (card : CardInfo.t) (h : Hand.t) :
  Hand.size h < Hand.max_size h ->
  Hand.add_card card h =
    (true, Hand.mk (Hand.cards h ++ [card]) (Hand.max_size h)).
Proof.
  intros Hlt. unfold Hand.add_card.
  destruct (Z.ltb_spec (Hand.size h) (Hand.max_size h)); [reflexivity | lia].
Qed.

(** X1. A hand never grows past its limit: [add_card] refuses on a full hand
    and leaves it as it is, otherwise it appends the card as the last one;
    a hand within its limit stays within its limit. *)
Theorem hand_add_card_respects_limit (card : CardInfo.t) (h : Hand.t) :
  (Hand.max_size h <= Hand.size h -> Hand.add_card card h = (false, h)) /\
  (Hand.size h < Hand.max_size h ->
     Hand.add_card card h = (true, Hand.mk (Hand.cards h ++ [card]) (Hand.max_size h)) /\
     Hand.size (snd (Hand.add_card card h)) = Hand.size h + 1) /\
  (Hand.size h <= Hand.max_size h ->
     Hand.size (snd (Hand.add_card card h)) <=
       Hand.max_size (snd (Hand.add_card card h))).
Proof.
  unfold Hand.add_card.
  destruct (Z.ltb_spec (Hand.size h) (Hand.max_size h)) as [Hlt | Hge].
  - assert (Hsize : Hand.size (Hand.mk (Hand.cards h ++ [card]) (Hand.max_size h)) =
                    Hand.size h + 1).
    { unfold Hand.size. cbn [Hand.cards]. rewrite length_app. simpl. lia. }
    repeat split; intros; try lia; try reflexivity; cbn [snd]; try exact Hsize.
    rewrite Hsize. cbn [Hand.max_size]. lia.
  - repeat split; intros; try lia; try reflexivity. cbn [snd]. lia.
Qed.

(** X2. [Hand.remove_card] answers what [get_card] answers.  When no card
    has the instance id the hand is unchanged; otherwise the card returned
    has that id, it is the first such card of the hand, exactly that one
    occurrence is taken out, and the other cards keep their order. *)
Theorem hand_remove_card_takes_first_match (instance_id : Z) (h : Hand.t) :
  fst (Hand.remove_card instance_id h) = Hand.get_card instance_id h /\
  Hand.max_size (snd (Hand.remove_card instance_id h)) = Hand.max_size h /\
  (Hand.get_card instance_id h = None ->
     Hand.cards (snd (Hand.remove_card instance_id h)) = Hand.cards h) /\
  (forall c, Hand.get_card instance_id h = Some c ->
     CardInfo.instance_id c = instance_id /\
     Hand.size (snd (Hand.remove_card instance_id h)) = Hand.size h - 1 /\
     exists l1 l2,
       Hand.cards h = l1 ++ c :: l2 /\
       Hand.cards (snd (Hand.remove_card instance_id h)) = l1 ++ l2 /\
       Hand.find_card instance_id l1 = None).
Proof.
  unfold Hand.remove_card, Hand.get_card. cbn [fst snd Hand.cards Hand.max_size].
  split; [reflexivity |]. split; [reflexivity |]. split.
  - apply find_card_none_pop.
  - intros c Hc. destruct (find_card_some_split _ _ _ Hc) as (Hid & l1 & l2 & Hl & Hpop & Hn).
    split; [exact Hid |]. split.
    + unfold Hand.size. cbn [Hand.cards]. rewrite Hpop, Hl, !length_app. simpl. lia.
    + exists l1, l2. repeat split; assumption.
Qed.

(** X3. Adding a card whose instance id is not yet in the hand, to a hand
    with room, and removing that id again gives back the card and the hand
    as it was. *)
Theorem hand_add_then_remove (card : CardInfo.t) (h : Hand.t) :
  Hand.get_card (CardInfo.instance_id card) h = None ->
  Hand.size h < Hand.max_size h ->
  Hand.remove_card (CardInfo.instance_id card) (snd (Hand.add_card card h)) =
    (Some card, h).
Proof.
  intros Hfresh Hroom. unfold Hand.get_card in Hfresh.
  rewrite (hand_add_card_room card h Hroom). cbn [snd].
  unfold Hand.remove_card. cbn [Hand.cards Hand.max_size].
  rewrite find_card_app, pop_card_app. unfold Battlefield.holds.
  rewrite Hfresh. cbn [Hand.find_card Hand.pop_card]. rewrite Z.eqb_refl.
  rewrite app_nil_r. destruct h. reflexivity.
Qed.

Lemma hand_add_then_remove_witness :
  Hand.remove_card 1 (snd (Hand.add_card Scenario.plains Hand.empty)) =
    (Some Scenario.plains, Hand.empty).
Proof.
  apply (hand_add_then_remove Scenario.plains Hand.empty).
  - reflexivity.
  - reflexivity.
Defined.

Lemma perm_behind_prefix {A : Type} (l x y : list A) (c : A) :
  Permutation x (c :: y) -> Permutation (l ++ x) (c :: l ++ y).
Proof. intros H. rewrite H. symmetry. apply Permutation_middle. Qed.

(** X4. [Battlefield.add_card] files the card under exactly one kind, the
    first of creature, land, artifact, enchantment, planeswalker that is
    among its types, and under the kind other when it has none of them: the
    cards of the battlefield afterwards are the card and the cards before. *)
Theorem battlefield_add_card_files_once (card : CardInfo.t) (b : Battlefield.t) :
  Permutation (Battlefield.get_all_cards (Battlefield.add_card card b))
              (card :: Battlefield.get_all_cards b) /\
  (CardInfo.has_type CardType.CREATURE card = true ->
     Battlefield.creatures (Battlefield.add_card card b) =
       Battlefield.creatures b ++ [card] /\
     Battlefield.lands (Battlefield.add_card card b) = Battlefield.lands b) /\
  (CardInfo.has_type CardType.CREATURE card = false ->
   CardInfo.has_type CardType.LAND card = true ->
     Battlefield.lands (Battlefield.add_card card b) =
       Battlefield.lands b ++ [card]) /\
  (CardInfo.card_types card = [] ->
     Battlefield.other (Battlefield.add_card card b) =
       Battlefield.other b ++ [card]).
Proof.
  split.
  { unfold Battlefield.add_card, Battlefield.get_all_cards.
    repeat match goal with
    | |- context [if CardInfo.has_type ?ty card then _ else _] =>
        destruct (CardInfo.has_type ty card)
    end; cbn [Battlefield.creatures Battlefield.lands Battlefield.artifacts
              Battlefield.enchantments Battlefield.planeswalkers Battlefield.other];
      rewrite <- ?app_assoc; cbn [app];
      repeat first [ reflexivity
                   | symmetry; apply Permutation_cons_append
                   | apply perm_behind_prefix ]. }
  split.
  { intros Hc. unfold Battlefield.add_card. rewrite Hc. split; reflexivity. }
  split.
  { intros Hc Hl. unfold Battlefield.add_card. rewrite Hc, Hl. reflexivity. }
  intros Hnone. unfold Battlefield.add_card, CardInfo.has_type. rewrite Hnone.
  rewrite !bool_decide_eq_false_2 by (apply not_elem_of_nil). reflexivity.
Qed.

(** X5. [Battlefield.remove_card] answers what [get_card] answers, and the
    cards of the battlefield afterwards are the cards before without the
    first card of that instance id (in the order creatures, lands,
    artifacts, enchantments, planeswalkers, other); without such a card
    the battlefield is unchanged. *)
Theorem battlefield_remove_card_takes_first_match (instance_id : Z)
    (b : Battlefield.t) :
  fst (Battlefield.remove_card instance_id b) = Battlefield.get_card instance_id b /\
  Battlefield.get_all_cards (snd (Battlefield.remove_card instance_id b)) =
    Hand.pop_card instance_id (Battlefield.get_all_cards b) /\
  (Battlefield.get_card instance_id b = None ->
     snd (Battlefield.remove_card instance_id b) = b).
Proof.
  destruct b as [cr la ar en pl ot].
  unfold Battlefield.remove_card, Battlefield.get_card, Battlefield.get_all_cards.
  cbn [Battlefield.creatures Battlefield.lands Battlefield.artifacts
       Battlefield.enchantments Battlefield.planeswalkers Battlefield.other].
  rewrite !find_card_app, !pop_card_app.
  unfold Battlefield.holds.
  destruct (Hand.find_card instance_id cr) eqn:H1;
    [cbn [fst snd]; repeat split; first [reflexivity | discriminate] |].
  destruct (Hand.find_card instance_id la) eqn:H2;
    [cbn [fst snd]; repeat split; first [reflexivity | discriminate] |].
  destruct (Hand.find_card instance_id ar) eqn:H3;
    [cbn [fst snd]; repeat split; first [reflexivity | discriminate] |].
  destruct (Hand.find_card instance_id en) eqn:H4;
    [cbn [fst snd]; repeat split; first [reflexivity | discriminate] |].
  destruct (Hand.find_card instance_id pl) eqn:H5;
    [cbn [fst snd]; repeat split; first [reflexivity | discriminate] |].
  destruct (Hand.find_card instance_id ot) eqn:H6;
    [cbn [fst snd]; repeat split; first [reflexivity | discriminate] |].
  cbn [fst snd]. rewrite (find_card_none_pop _ _ H6). repeat split; reflexivity.
Qed.

(** X6. Putting a card whose instance id is not on the battlefield onto it
    and removing that id again gives back the card and the battlefield as
    it was. *)
Theorem battlefield_add_then_remove (card : CardInfo.t) (b : Battlefield.t) :
  Battlefield.get_card (CardInfo.instance_id card) b = None ->
  Battlefield.remove_card (CardInfo.instance_id card) (Battlefield.add_card card b) =
    (Some card, b).
Proof.
  destruct b as [cr la ar en pl ot].
  unfold Battlefield.get_card, Battlefield.get_all_cards.
  cbn [Battlefield.creatures Battlefield.lands Battlefield.artifacts
       Battlefield.enchantments Battlefield.planeswalkers Battlefield.other].
  rewrite !find_card_app.
  destruct (Hand.find_card _ cr) eqn:H1; [discriminate |].
  destruct (Hand.find_card _ la) eqn:H2; [discriminate |].
  destruct (Hand.find_card _ ar) eqn:H3; [discriminate |].
  destruct (Hand.find_card _ en) eqn:H4; [discriminate |].
  destruct (Hand.find_card _ pl) eqn:H5; [discriminate |].
  intros H6.
  unfold Battlefield.add_card.
  repeat match goal with
  | |- context [if CardInfo.has_type ?ty card then _ else _] =>
      destruct (CardInfo.has_type ty card)
  end;
    unfold Battlefield.remove_card, Battlefield.holds;
    cbn [Battlefield.creatures Battlefield.lands Battlefield.artifacts
         Battlefield.enchantments Battlefield.planeswalkers Battlefield.other];
    rewrite ?find_card_app, ?pop_card_app; unfold Battlefield.holds;
    rewrite ?H1, ?H2, ?H3, ?H4, ?H5, ?H6;
    cbn [Hand.find_card Hand.pop_card]; rewrite ?Z.eqb_refl, ?app_nil_r;
    reflexivity.
Qed.

Lemma battlefield_add_then_remove_witness :
  Battlefield.remove_card 1 (Battlefield.add_card Scenario.plains Battlefield.empty) =
    (Some Scenario.plains, Battlefield.empty).
Proof.
  apply (battlefield_add_then_remove Scenario.plains Battlefield.empty).
  reflexivity.
Defined.

End Zones.

(** ** Flags, life and mana of a player (state/player_state.py) *)

Section PlayerFlags.

Import PlayerState.

(** X7. An ability marked as used cannot be used again, other abilities are
    not affected, and [reset_turn_flags] makes every ability usable again
    and allows a land play and an attack; it leaves life, hand, battlefield
    and mana pool as they are. *)
Theorem ability_use_lasts_until_reset (a b : string) (p : PlayerState.t) :
  can_use_ability a (snd (use_ability a p)) = false /\
  (b <> a -> can_use_ability b (snd (use_ability a p)) = can_use_ability b p) /\
  can_use_ability b (reset_turn_flags (snd (use_ability a p))) = true /\
  can_play_land (reset_turn_flags p) = true /\
  can_attack (reset_turn_flags p) = true /\
  life_total (reset_turn_flags p) = life_total p /\
  hand (reset_turn_flags p) = hand p /\
  battlefield (reset_turn_flags p) = battlefield p /\
  mana_pool (reset_turn_flags p) = mana_pool p.
Proof.
  unfold can_use_ability, use_ability, reset_turn_flags, can_play_land, can_attack.
  cbn [snd has_used_ability_this_turn set_has_used_ability_this_turn
       has_played_land_this_turn has_attacked_this_turn life_total hand
       battlefield mana_pool negb].
  split.
  { apply bool_decide_eq_false_2. intros Hnot. apply Hnot.
    apply elem_of_union_l, elem_of_singleton. reflexivity. }
  split.
  { intros Hne. apply bool_decide_ext. rewrite elem_of_union, elem_of_singleton.
    split; intros Hnot H; apply Hnot; [right; exact H |].
    destruct H as [H | H]; [contradiction | exact H]. }
  split.
  { apply bool_decide_eq_true_2. apply not_elem_of_empty. }
  repeat split; reflexivity.
Qed.

(** X8. For a player whose life total is not negative, gaining back the
    damage that [take_damage] reported restores the player exactly,
    whatever the amount of damage was. *)
Theorem gaining_the_damage_taken_restores (amount : Z) (p : PlayerState.t) :
  0 <= life_total p ->
  snd (gain_life (fst (take_damage amount p)) (snd (take_damage amount p))) = p.
Proof.
  intros Hlife. destruct p as [id l mh h bf mp fl fa ab en].
  unfold take_damage, gain_life. cbn [life_total] in *.
  destruct (Z.leb_spec amount 0) as [Hle | Hgt]; cbn [fst snd].
  - rewrite Z.leb_refl. reflexivity.
  - destruct (Z.leb_spec (Z.min amount l) 0) as [Hz | Hp];
      unfold set_life_total; cbn; f_equal; lia.
Qed.

Lemma gaining_the_damage_taken_restores_witness :
  snd (gain_life (fst (take_damage 25 (new 1 20))) (snd (take_damage 25 (new 1 20)))) =
    new 1 20.
Proof.
  apply (gaining_the_damage_taken_restores 25 (new 1 20)). simpl. lia.
Defined.

Lemma lower_char_idempotent (c : ascii) :
  PyStr.lower_char (PyStr.lower_char c) = PyStr.lower_char c.
Proof. destruct c as [[] [] [] [] [] [] [] []]; reflexivity. Qed.

Lemma lower_idempotent (s : string) : PyStr.lower (PyStr.lower s) = PyStr.lower s.
Proof.
  unfold PyStr.lower. induction s as [| c s IH]; [reflexivity |].
  cbn [PyStr.map_chars]. rewrite lower_char_idempotent, IH. reflexivity.
Qed.

(** X9. [add_mana] accepts exactly the one-letter colours w, u, b, r, g, c in
    either case.  An accepted call raises the total of the pool by the
    amount (which is not checked for its sign) and leaves everything but
    the pool as it is; a refused call changes nothing. *)
Theorem add_mana_accepts_the_six_letters (color : string) (amount : Z)
    (p : PlayerState.t) :
  (fst (add_mana color amount p) = true <->
     PyStr.lower color ∈ ["w"; "u"; "b"; "r"; "g"; "c"]%string) /\
  add_mana (PyStr.lower color) amount p = add_mana color amount p /\
  (fst (add_mana color amount p) = true ->
     ManaPool.total_mana (mana_pool (snd (add_mana color amount p))) =
       ManaPool.total_mana (mana_pool p) + amount /\
     set_mana_pool (mana_pool p) (snd (add_mana color amount p)) = p) /\
  (fst (add_mana color amount p) = false -> snd (add_mana color amount p) = p).
Proof.
  split.
  { unfold add_mana. rewrite !elem_of_cons, elem_of_nil.
    repeat match goal with
    | |- context [String.eqb ?x ?y] => destruct (String.eqb_spec x y)
    end; cbn [fst]; split; try tauto; try discriminate. }
  split.
  { unfold add_mana. rewrite lower_idempotent. reflexivity. }
  destruct p as [id l mh h bf [w u b r g c] fl fa ab en].
  unfold add_mana, ManaPool.total_mana.
  repeat match goal with
  | |- context [String.eqb ?x ?y] => destruct (String.eqb x y)
  end.
  all: cbn; split; intros; try discriminate; try reflexivity;
    split; try reflexivity; lia.
Qed.

(** X10. The pool's own [pay_cost] is all or nothing and spends colorless
    mana only: it succeeds exactly when the cost amount (the characters of
    the text outside the braces) is covered by the total and by the
    colorless counter, then takes the amount from the colorless counter
    alone; otherwise the pool is unchanged. *)
Theorem pool_pay_cost_spends_colorless_only (cost : string) (pool : ManaPool.t) :
  0 <= ManaPool.cost_amount cost /\
  (fst (ManaPool.pay_cost cost pool) = true <->
     ManaPool.cost_amount cost <= ManaPool.total_mana pool /\
     ManaPool.cost_amount cost <= ManaPool.colorless pool) /\
  (fst (ManaPool.pay_cost cost pool) = true ->
     snd (ManaPool.pay_cost cost pool) =
       ManaPool.set_colorless
         (ManaPool.colorless pool - ManaPool.cost_amount cost) pool /\
     ManaPool.total_mana (snd (ManaPool.pay_cost cost pool)) =
       ManaPool.total_mana pool - ManaPool.cost_amount cost) /\
  (fst (ManaPool.pay_cost cost pool) = false ->
     snd (ManaPool.pay_cost cost pool) = pool).
Proof.
  split; [unfold ManaPool.cost_amount, PyStr.len; lia |].
  unfold ManaPool.pay_cost, ManaPool.can_pay_cost.
  destruct (Z.leb_spec (ManaPool.cost_amount cost) (ManaPool.total_mana pool));
    destruct (Z.leb_spec (ManaPool.cost_amount cost) (ManaPool.colorless pool));
    cbn [negb fst snd]; repeat split; intros; try lia; try discriminate;
    try reflexivity; try tauto.
  destruct pool. unfold ManaPool.total_mana. cbn. lia.
Qed.

End PlayerFlags.

(** ** Parsed costs (rules/mana_system.py) *)

Section ParsedCosts.

Lemma int_acc_nonneg (s : string) (acc : Z) : 0 <= acc -> 0 <= PyStr.int_acc acc s.
Proof.
  revert acc. induction s as [| c s IH]; intros acc Hacc; cbn [PyStr.int_acc].
  - exact Hacc.
  - apply IH. lia.
Qed.

Lemma add_symbol_nonneg (c : ManaCost.t) (symbol : string) :
  CostShape.nonneg c -> CostShape.nonneg (ManaCost.add_symbol c symbol).
Proof.
  destruct c as [s w u b r g cl gen hy ph sn en li].
  unfold CostShape.nonneg, ManaCost.add_symbol. cbn.
  pose proof (int_acc_nonneg symbol 0 (Z.le_refl 0)) as Hint.
  fold (PyStr.int symbol) in Hint.
  intros H.
  repeat match goal with
  | |- context [if ?b then _ else _] => destruct b
  end; cbn; lia.
Qed.

Lemma new_is_fold (s : string) :
  ManaCost.new s = fold_left ManaCost.add_symbol (ManaCost.symbols_of s) (ManaCost.init s).
Proof.
  unfold ManaCost.new, ManaCost._parse_cost. cbn [ManaCost.cost_string ManaCost.init].
  destruct s; reflexivity.
Qed.

Lemma fold_add_symbol_nonneg (l : list string) (c : ManaCost.t) :
  CostShape.nonneg c -> CostShape.nonneg (fold_left ManaCost.add_symbol l c).
Proof.
  revert c. induction l as [| x l IH]; intros c Hc; [exact Hc |].
  cbn [fold_left]. apply IH, add_symbol_nonneg, Hc.
Qed.

Lemma new_nonneg (s : string) : CostShape.nonneg (ManaCost.new s).
Proof.
  rewrite new_is_fold. apply fold_add_symbol_nonneg.
  unfold CostShape.nonneg. cbn. lia.
Qed.

(** X11. No count of a parsed cost is negative, whatever the text, and so
    neither is its total. *)
Theorem parsed_counts_are_never_negative (cost_string : string) :
  CostShape.nonneg (ManaCost.new cost_string) /\
  0 <= ManaCost.get_total_cost (ManaCost.new cost_string).
Proof.
  pose proof (new_nonneg cost_string) as H. split; [exact H |].
  unfold CostShape.nonneg in H. unfold ManaCost.get_total_cost. lia.
Qed.

Lemma upper_char_idempotent (c : ascii) :
  PyStr.upper_char (PyStr.upper_char c) = PyStr.upper_char c.
Proof. destruct c as [[] [] [] [] [] [] [] []]; reflexivity. Qed.

Lemma upper_lower_char (c : ascii) :
  PyStr.upper_char (PyStr.lower_char c) = PyStr.upper_char c.
Proof. destruct c as [[] [] [] [] [] [] [] []]; reflexivity. Qed.

Lemma upper_char_space (c : ascii) :
  Ascii.eqb (PyStr.upper_char c) " " = Ascii.eqb c " ".
Proof. destruct c as [[] [] [] [] [] [] [] []]; reflexivity. Qed.

Lemma lower_char_space (c : ascii) :
  Ascii.eqb (PyStr.lower_char c) " " = Ascii.eqb c " ".
Proof. destruct c as [[] [] [] [] [] [] [] []]; reflexivity. Qed.

Lemma normalize_upper (s : string) :
  PyStr.upper (PyStr.remove_char " " (PyStr.upper s)) =
  PyStr.upper (PyStr.remove_char " " s).
Proof.
  unfold PyStr.upper. induction s as [| c s IH]; [reflexivity |].
  cbn [PyStr.map_chars PyStr.remove_char]. rewrite upper_char_space.
  destruct (Ascii.eqb c " "); [exact IH |].
  cbn [PyStr.map_chars]. rewrite upper_char_idempotent, IH. reflexivity.
Qed.

Lemma normalize_lower (s : string) :
  PyStr.upper (PyStr.remove_char " " (PyStr.lower s)) =
  PyStr.upper (PyStr.remove_char " " s).
Proof.
  unfold PyStr.upper, PyStr.lower. induction s as [| c s IH]; [reflexivity |].
  cbn [PyStr.map_chars PyStr.remove_char]. rewrite lower_char_space.
  destruct (Ascii.eqb c " "); [exact IH |].
  cbn [PyStr.map_chars]. rewrite upper_lower_char, IH. reflexivity.
Qed.

Lemma normalize_spaces (s : string) :
  PyStr.remove_char " " (PyStr.remove_char " " s) = PyStr.remove_char " " s.
Proof.
  induction s as [| c s IH]; [reflexivity |]. cbn [PyStr.remove_char].
  destruct (Ascii.eqb c " ") eqn:Hc; [exact IH |].
  cbn [PyStr.remove_char]. rewrite Hc, IH. reflexivity.
Qed.

Lemma counts_add_symbol (c1 c2 : ManaCost.t) (symbol : string) :
  CostShape.counts c1 = CostShape.counts c2 ->
  CostShape.counts (ManaCost.add_symbol c1 symbol) =
  CostShape.counts (ManaCost.add_symbol c2 symbol).
Proof.
  destruct c1, c2. unfold CostShape.counts, ManaCost.add_symbol. cbn.
  intros [= -> -> -> -> -> -> -> -> -> -> -> ->].
  repeat match goal with
  | |- context [if ?b then _ else _] => destruct b
  end; reflexivity.
Qed.

Lemma counts_fold (l : list string) (c1 c2 : ManaCost.t) :
  CostShape.counts c1 = CostShape.counts c2 ->
  CostShape.counts (fold_left ManaCost.add_symbol l c1) =
  CostShape.counts (fold_left ManaCost.add_symbol l c2).
Proof.
  revert c1 c2. induction l as [| x l IH]; intros c1 c2 H; [exact H |].
  cbn [fold_left]. apply IH, counts_add_symbol, H.
Qed.

Lemma counts_of_same_symbols (s1 s2 : string) :
  ManaCost.symbols_of s1 = ManaCost.symbols_of s2 ->
  CostShape.counts (ManaCost.new s1) = CostShape.counts (ManaCost.new s2).
Proof.
  intros H. rewrite !new_is_fold, H. apply counts_fold. reflexivity.
Qed.

(** X12. Parsing does not depend on letter case or on spaces: a cost text,
    the same text in upper case, in lower case, or without its spaces all
    parse to the same counts. *)
Theorem parsing_ignores_case_and_spaces (cost_string : string) :
  CostShape.counts (ManaCost.new (PyStr.upper cost_string)) =
    CostShape.counts (ManaCost.new cost_string) /\
  CostShape.counts (ManaCost.new (PyStr.lower cost_string)) =
    CostShape.counts (ManaCost.new cost_string) /\
  CostShape.counts (ManaCost.new (PyStr.remove_char " " cost_string)) =
    CostShape.counts (ManaCost.new cost_string).
Proof.
  repeat split; apply counts_of_same_symbols; unfold ManaCost.symbols_of.
  - rewrite normalize_upper. reflexivity.
  - rewrite normalize_lower. reflexivity.
  - rewrite normalize_spaces. reflexivity.
Qed.

(** X13. For a parsed cost, [is_colorless] and [is_mono_colored] agree with
    [get_primary_color]: a colourless cost has no primary colour, a cost
    without primary colour and without hybrid symbols is colourless, and a
    mono-coloured cost has a primary colour and is not colourless. *)
Theorem primary_color_agrees_with_colorless (cost_string : string) :
  let c := ManaCost.new cost_string in
  (ManaCost.is_colorless c = true -> ManaCost.get_primary_color c = None) /\
  (ManaCost.get_primary_color c = None -> ManaCost.hybrid c = [] ->
     ManaCost.is_colorless c = true) /\
  (ManaCost.is_mono_colored c = true ->
     ManaCost.get_primary_color c <> None /\ ManaCost.is_colorless c = false).
Proof.
  cbv zeta. pose proof (new_nonneg cost_string) as Hnn.
  destruct (ManaCost.new cost_string) as [s w u b r g cl gen hy ph sn en li].
  unfold CostShape.nonneg in Hnn. cbn in Hnn.
  unfold ManaCost.is_colorless, ManaCost.is_mono_colored, ManaCost.get_primary_color.
  cbn [ManaCost.white ManaCost.blue ManaCost.black ManaCost.red ManaCost.green
       ManaCost.hybrid].
  destruct (Z.ltb_spec 0 w), (Z.ltb_spec 0 u), (Z.ltb_spec 0 b),
    (Z.ltb_spec 0 r), (Z.ltb_spec 0 g);
    destruct (Z.eqb_spec w 0), (Z.eqb_spec u 0), (Z.eqb_spec b 0),
      (Z.eqb_spec r 0), (Z.eqb_spec g 0); try lia;
    destruct (Z.eqb_spec (w + u + b + r + g) 1); try lia;
    destruct hy; cbn; repeat split; intros; try discriminate; try reflexivity;
    try congruence.
Qed.

End ParsedCosts.

Section PlainPayment.

Import ManaSystem.

Lemma greedy_take_total (n : Z) (pool : ManaPool.t) :
  Color.nonneg pool -> 0 <= n <= ManaPool.total_mana pool ->
  ManaPool.total_mana (Color.greedy_take n pool) = ManaPool.total_mana pool - n /\
  Color.nonneg (Color.greedy_take n pool).
Proof.
  destruct pool as [w u b r g c].
  unfold Color.nonneg, Color.greedy_take, ManaPool.total_mana. cbn. lia.
Qed.

Lemma take_damage_affordable (amount : Z) (p : PlayerState.t) :
  0 <= amount <= PlayerState.life_total p ->
  PlayerState.life_total (snd (PlayerState.take_damage amount p)) =
    PlayerState.life_total p - amount.
Proof.
  intros H. unfold PlayerState.take_damage.
  destruct (Z.leb_spec amount 0); cbn; lia.
Qed.

Lemma can_pay_basic_mana_facts (cost : ManaCost.t) (player : PlayerState.t) :
  _can_pay_basic_mana cost player = true ->
  let pool := PlayerState.mana_pool player in
  ManaCost.white cost <= ManaPool.white pool /\
  ManaCost.blue cost <= ManaPool.blue pool /\
  ManaCost.black cost <= ManaPool.black pool /\
  ManaCost.red cost <= ManaPool.red pool /\
  ManaCost.green cost <= ManaPool.green pool /\
  ManaCost.colorless cost <= ManaPool.colorless pool /\
  ManaCost.generic cost <=
    ManaPool.total_mana pool -
    (ManaCost.white cost + ManaCost.blue cost + ManaCost.black cost +
     ManaCost.red cost + ManaCost.green cost + ManaCost.colorless cost).
Proof.
  unfold _can_pay_basic_mana. cbv zeta.
  destruct (Z.ltb_spec (ManaPool.white (PlayerState.mana_pool player))
              (ManaCost.white cost)); [discriminate |].
  destruct (Z.ltb_spec (ManaPool.blue (PlayerState.mana_pool player))
              (ManaCost.blue cost)); [discriminate |].
  destruct (Z.ltb_spec (ManaPool.black (PlayerState.mana_pool player))
              (ManaCost.black cost)); [discriminate |].
  destruct (Z.ltb_spec (ManaPool.red (PlayerState.mana_pool player))
              (ManaCost.red cost)); [discriminate |].
  destruct (Z.ltb_spec (ManaPool.green (PlayerState.mana_pool player))
              (ManaCost.green cost)); [discriminate |].
  destruct (Z.ltb_spec (ManaPool.colorless (PlayerState.mana_pool player))
              (ManaCost.colorless cost)); [discriminate |].
  match goal with
  | |- (if ?a <? ?b then _ else _) = _ -> _ =>
      destruct (Z.ltb_spec a b); [discriminate |]
  end.
  intros _. repeat split; lia.
Qed.

Lemma pay_mana_cost_plain (cost : ManaCost.t) (player : PlayerState.t) :
  ManaCost.hybrid cost = [] -> ManaCost.phyrexian cost = [] ->
  0 <= ManaCost.generic cost ->
  _can_pay_mana_cost cost player = true ->
  _pay_mana_cost cost player = (true, CostShape.settled cost player).
Proof.
  intros Hhy Hph Hgen Hcan. unfold _can_pay_mana_cost in Hcan.
  destruct (_can_pay_basic_mana cost player) eqn:Hbasic; [| discriminate].
  destruct (_can_pay_hybrid_mana cost player); [| discriminate].
  destruct (_can_pay_phyrexian_mana cost player); [| discriminate].
  destruct (_can_pay_snow_mana cost player) eqn:Hsnow; [| discriminate].
  destruct (_can_pay_energy cost player) eqn:Hen; [| discriminate].
  destruct (_can_pay_life cost player) eqn:Hli; [| discriminate].
  unfold _pay_mana_cost.
  rewrite (pay_basic_mana_greedy cost player Hbasic Hgen).
  unfold and_then at 1.
  unfold _pay_hybrid_mana, _pay_phyrexian_mana. rewrite Hhy, Hph.
  cbn [pay_each and_then].
  unfold _pay_snow_mana. unfold _can_pay_snow_mana in Hsnow. rewrite Hsnow.
  cbn [and_then].
  unfold _pay_energy. unfold _can_pay_energy in Hen.
  cbn [PlayerState.energy_counters PlayerState.set_mana_pool]. rewrite Hen.
  cbn [and_then].
  unfold _pay_life. unfold _can_pay_life in Hli.
  cbn [PlayerState.life_total PlayerState.set_energy_counters
       PlayerState.set_mana_pool]. rewrite Hli.
  cbn [and_then]. reflexivity.
Qed.

(** X14. Payment of a cost without hybrid and Phyrexian symbols is all or
    nothing.  When [can_pay_cost] refuses, [pay_cost] answers [False] and
    the player is unchanged; when it accepts, [pay_cost] answers [True],
    the pool ends as the greedy take of the generic amount from the pool
    less the coloured pips, no counter is negative, and pool total, energy
    and life have gone down by exactly the total cost, the energy cost and
    the life cost. *)
Theorem plain_cost_payment_is_all_or_nothing (cost_string : string)
    (player : PlayerState.t) :
  ManaCost.hybrid (ManaCost.new cost_string) = [] ->
  ManaCost.phyrexian (ManaCost.new cost_string) = [] ->
  cost_string <> EmptyString ->
  let cost := ManaCost.new cost_string in
  let player' := snd (pay_cost cost_string player) in
  (can_pay_cost cost_string player = false ->
     pay_cost cost_string player = (false, player)) /\
  (can_pay_cost cost_string player = true ->
     pay_cost cost_string player = (true, CostShape.settled cost player) /\
     Color.nonneg (PlayerState.mana_pool player') /\
     ManaPool.total_mana (PlayerState.mana_pool player') =
       ManaPool.total_mana (PlayerState.mana_pool player) -
       ManaCost.get_total_cost cost /\
     PlayerState.energy_counters player' =
       PlayerState.energy_counters player - ManaCost.energy cost /\
     PlayerState.life_total player' =
       PlayerState.life_total player - ManaCost.life cost).
Proof.
  intros Hhy Hph Hne. cbv zeta.
  pose proof (new_nonneg cost_string) as Hnn.
  destruct cost_string as [| ch rest]; [contradiction |].
  unfold can_pay_cost, pay_cost.
  set (cost := ManaCost.new (String ch rest)) in *. clearbody cost.
  split.
  { intros ->. reflexivity. }
  intros Hcan. rewrite Hcan. cbn [negb].
  assert (Hgen : 0 <= ManaCost.generic cost) by (unfold CostShape.nonneg in Hnn; lia).
  rewrite (pay_mana_cost_plain cost player Hhy Hph Hgen Hcan).
  split; [reflexivity |]. cbn [snd].
  unfold _can_pay_mana_cost in Hcan.
  destruct (_can_pay_basic_mana cost player) eqn:Hbasic; [| discriminate].
  destruct (_can_pay_hybrid_mana cost player); [| discriminate].
  destruct (_can_pay_phyrexian_mana cost player); [| discriminate].
  destruct (_can_pay_snow_mana cost player) eqn:Hsnow; [| discriminate].
  destruct (_can_pay_energy cost player) eqn:Hen; [| discriminate].
  destruct (_can_pay_life cost player) eqn:Hli; [| discriminate].
  unfold _can_pay_snow_mana in Hsnow. apply Z.eqb_eq in Hsnow.
  unfold _can_pay_life in Hli. apply Z.leb_le in Hli.
  apply can_pay_basic_mana_facts in Hbasic. cbv zeta in Hbasic.
  destruct Hbasic as (Hw & Hu & Hb & Hr & Hg & Hc & Hrest).
  unfold CostShape.nonneg in Hnn.
  destruct (greedy_take_total (ManaCost.generic cost)
              (Color.after_colored cost (PlayerState.mana_pool player)))
    as [Htot Hpool].
  { unfold Color.nonneg, Color.after_colored. cbn. lia. }
  { unfold Color.after_colored, ManaPool.total_mana in *. cbn. lia. }
  unfold CostShape.settled.
  set (paid := PlayerState.set_energy_counters _ _).
  assert (Hlife : 0 <= ManaCost.life cost <= PlayerState.life_total paid)
    by (subst paid; cbn; lia).
  pose proof (take_damage_affordable _ _ Hlife) as Hl.
  unfold PlayerState.take_damage in *.
  destruct (ManaCost.life cost <=? 0); cbn [snd] in *;
    subst paid; cbn in *; (split; [exact Hpool |]); (split; [| split]);
    try lia; try reflexivity;
    rewrite Htot; unfold Color.after_colored, ManaPool.total_mana,
      ManaCost.get_total_cost; cbn; rewrite Hhy, Hph; cbn; lia.
Qed.

Lemma plain_cost_payment_is_all_or_nothing_witness :
  pay_cost "{1}{W}" (Scenario.player_with_pool (ManaPool.mk 1 0 0 0 2 0)) =
    (true, Scenario.player_with_pool (ManaPool.mk 0 0 0 0 1 0)).
Proof.
  pose proof (plain_cost_payment_is_all_or_nothing "{1}{W}"
                (Scenario.player_with_pool (ManaPool.mk 1 0 0 0 2 0))
                eq_refl eq_refl) as H.
  cbv zeta in H. destruct H as [_ H]; [discriminate |].
  destruct H as [H _]; [reflexivity |].
  rewrite H. reflexivity.
Defined.

End PlainPayment.

Section Generation.

Import ManaSystem.

Lemma add_one_mana_spec (color : string) (pool : ManaPool.t) :
  add_one_mana color pool =
    option_map (fun c => ColorName.credit c 1 pool) (ColorName.of_name color).
Proof.
  unfold add_one_mana, ColorName.of_name.
  repeat match goal with
  | |- context [String.eqb ?x ?y] => destruct (String.eqb x y)
  end; reflexivity.
Qed.

Lemma credit_credit (c : Color.t) (n m : Z) (pool : ManaPool.t) :
  ColorName.credit c n (ColorName.credit c m pool) = ColorName.credit c (m + n) pool.
Proof.
  destruct c, pool;
    unfold ColorName.credit, ManaPool.set_white, ManaPool.set_blue,
      ManaPool.set_black, ManaPool.set_red, ManaPool.set_green,
      ManaPool.set_colorless; cbn; f_equal; lia.
Qed.

Lemma credit_zero (c : Color.t) (pool : ManaPool.t) : ColorName.credit c 0 pool = pool.
Proof.
  destruct c, pool;
    unfold ColorName.credit, ManaPool.set_white, ManaPool.set_blue,
      ManaPool.set_black, ManaPool.set_red, ManaPool.set_green,
      ManaPool.set_colorless; cbn; f_equal; lia.
Qed.

Lemma generate_loop_known (n : nat) (color : string) (c : Color.t)
    (pool : ManaPool.t) :
  ColorName.of_name color = Some c ->
  generate_loop n color pool = (true, ColorName.credit c (Z.of_nat n) pool).
Proof.
  intros Hc. revert pool. induction n as [| n IH]; intros pool.
  - cbn [generate_loop]. rewrite credit_zero. reflexivity.
  - cbn [generate_loop]. rewrite add_one_mana_spec, Hc. cbn [option_map].
    rewrite IH, credit_credit. f_equal. f_equal. lia.
Qed.

Lemma generate_loop_unknown (n : nat) (color : string) (pool : ManaPool.t) :
  ColorName.of_name color = None ->
  generate_loop n color pool = (match n with O => true | S _ => false end, pool).
Proof.
  intros Hc. destruct n; cbn [generate_loop]; [reflexivity |].
  rewrite add_one_mana_spec, Hc. reflexivity.
Qed.

(** X15. [generate_mana] adds to one counter or changes nothing.  Without a
    source ([can_generate_mana] false) it answers [False].  With a source
    and one of the six colour names it answers [True] and the counter of
    that colour has grown by the amount (by nothing for a negative
    amount).  With a source and any other name it never changes the pool,
    and answers [True] only for an amount that is not positive. *)
Theorem generate_mana_adds_to_one_counter (player : PlayerState.t)
    (color : string) (amount : Z) :
  (can_generate_mana player color = false ->
     generate_mana player color amount = (false, player)) /\
  (forall c, can_generate_mana player color = true ->
     ColorName.of_name color = Some c ->
     generate_mana player color amount =
       (true, PlayerState.set_mana_pool
                (ColorName.credit c (Z.max 0 amount) (PlayerState.mana_pool player))
                player)) /\
  (can_generate_mana player color = true -> ColorName.of_name color = None ->
     generate_mana player color amount = (amount <=? 0, player)) /\
  (fst (generate_mana player color amount) = false ->
     snd (generate_mana player color amount) = player).
Proof.
  assert (Hunknown : can_generate_mana player color = true ->
                     ColorName.of_name color = None ->
                     generate_mana player color amount = (amount <=? 0, player)).
  { intros Hcan Hc. unfold generate_mana. rewrite Hcan. cbn [negb].
    rewrite (generate_loop_unknown _ _ _ Hc). destruct player.
    cbn. f_equal.
    destruct (Z.leb_spec amount 0) as [Hle | Hgt].
    - rewrite Z2Nat.nonpos by exact Hle. reflexivity.
    - destruct (Z.to_nat amount) eqn:Hn; [lia | reflexivity]. }
  assert (Hknown : forall c, can_generate_mana player color = true ->
     ColorName.of_name color = Some c ->
     generate_mana player color amount =
       (true, PlayerState.set_mana_pool
                (ColorName.credit c (Z.max 0 amount) (PlayerState.mana_pool player))
                player)).
  { intros c Hcan Hc. unfold generate_mana. rewrite Hcan. cbn [negb].
    rewrite (generate_loop_known _ _ c _ Hc). do 3 f_equal. lia. }
  split.
  { intros Hcan. unfold generate_mana. rewrite Hcan. reflexivity. }
  split; [exact Hknown |]. split; [exact Hunknown |].
  destruct (can_generate_mana player color) eqn:Hcan.
  - destruct (ColorName.of_name color) as [c |] eqn:Hc.
    + rewrite (Hknown c eq_refl eq_refl). discriminate.
    + rewrite (Hunknown eq_refl eq_refl). reflexivity.
  - unfold generate_mana. rewrite Hcan. reflexivity.
Qed.

End Generation.

(** ** Event processing (state/game_state.py) *)

Section Events.

Import GameState.

Lemma set_player_at_same (s : seat) (p : PlayerState.t) (g : GameState.t) :
  player_at s g = Some p -> set_player_at s p g = g.
Proof.
  destruct g, s; cbn; intros ->; reflexivity.
Qed.

Lemma players_satisfy_set (P : PlayerState.t -> Prop) (s : seat)
    (p : PlayerState.t) (g : GameState.t) :
  Invariant.players_satisfy P g -> P p ->
  Invariant.players_satisfy P (set_player_at s p g).
Proof.
  intros Hg Hp s' q. destruct s, s'; cbn; intros H;
    try (injection H as <-; exact Hp);
    first [apply (Hg SelfSeat); exact H | apply (Hg OpponentSeat); exact H].
Qed.

Lemma players_satisfy_map (P : PlayerState.t -> Prop)
    (f1 f2 : PlayerState.t -> PlayerState.t) (g : GameState.t) :
  (forall p, P p -> P (f1 p)) -> (forall p, P p -> P (f2 p)) ->
  Invariant.players_satisfy P g ->
  Invariant.players_satisfy P
    (set_players (option_map f1 (self_player g)) (option_map f2 (opponent_player g)) g).
Proof.
  intros H1 H2 Hg s q. destruct s; cbn.
  - destruct (self_player g) as [p |] eqn:Hp; [| discriminate].
    intros [= <-]. apply H1, (Hg SelfSeat). exact Hp.
  - destruct (opponent_player g) as [p |] eqn:Hp; [| discriminate].
    intros [= <-]. apply H2, (Hg OpponentSeat). exact Hp.
Qed.

Lemma pop_card_length (instance_id : Z) (l : list CardInfo.t) :
  (length (Hand.pop_card instance_id l) <= length l)%nat.
Proof.
  induction l as [| c l IH]; [reflexivity |]. cbn [Hand.pop_card].
  destruct (CardInfo.instance_id c =? instance_id); cbn; lia.
Qed.

Lemma process_event_hands (event : GameEvent.t) (g : GameState.t) :
  Invariant.players_satisfy Invariant.hand_within_seven g ->
  Invariant.players_satisfy Invariant.hand_within_seven (snd (process_event event g)).
Proof.
  intros Hg. destruct event as [pl ol | | player card | player card
                               | player new_life | ph st | nt ap |];
    cbn [process_event snd].
  - unfold _process_game_start.
    intros s q. destruct s; cbn.
    + destruct (self_player g) as [p |] eqn:Hp; [| discriminate].
      intros [= <-]. exact (Hg SelfSeat p Hp).
    + destruct (opponent_player g) as [p |] eqn:Hp; [| discriminate].
      intros [= <-]. exact (Hg OpponentSeat p Hp).
  - intros s q. destruct s; cbn; [apply (Hg SelfSeat) | apply (Hg OpponentSeat)].
  - unfold _process_draw_card.
    destruct (find_seat player g) as [s |]; [| exact Hg].
    destruct (player_at s g) as [p |] eqn:Hp; [| exact Hg].
    apply players_satisfy_set; [exact Hg |].
    destruct (Hg s p Hp) as [Hsize Hmax].
    unfold Invariant.hand_within_seven, Hand.add_card. cbn [PlayerState.hand PlayerState.set_hand].
    destruct (Z.ltb_spec (Hand.size (PlayerState.hand p))
                (Hand.max_size (PlayerState.hand p))); cbn [snd].
    + unfold Hand.size in *. cbn [Hand.cards Hand.max_size].
      rewrite length_app. cbn [length]. split; [lia | exact Hmax].
    + split; assumption.
  - destruct (_process_play_card player card g) as [g' r] eqn:Hplay. cbn [snd].
    revert Hplay. unfold _process_play_card.
    destruct (find_seat player g) as [s |]; [| intros [= <- _]; exact Hg].
    destruct (player_at s g) as [p |] eqn:Hp; [| intros [= <- _]; exact Hg].
    destruct (Hg s p Hp) as [Hsize Hmax].
    pose proof (pop_card_length (CardInfo.instance_id card)
                  (Hand.cards (PlayerState.hand p))) as Hlen.
    unfold Hand.remove_card.
    destruct (Hand.find_card _ _); intros [= <- _];
      (apply players_satisfy_set; [exact Hg |]);
      unfold Invariant.hand_within_seven, Hand.size in *;
      cbn [PlayerState.hand PlayerState.set_hand PlayerState.set_battlefield
           Hand.cards Hand.max_size]; split; try exact Hmax; lia.
  - unfold _process_life_change.
    destruct (find_seat player g) as [s |]; [| exact Hg].
    destruct (player_at s g) as [p |] eqn:Hp; [| exact Hg].
    apply players_satisfy_set; [exact Hg |]. exact (Hg s p Hp).
  - intros s q. destruct s; cbn; [apply (Hg SelfSeat) | apply (Hg OpponentSeat)].
  - unfold _process_turn_change, set_active_player.
    destruct (get_player ap (set_turn_number nt g)); cbn [snd];
      intros s q; destruct s; cbn; first [apply (Hg SelfSeat) | apply (Hg OpponentSeat)].
  - exact Hg.
Qed.

(** What a run of events keeps of each seat: any reading of a player that
    life, hand and battlefield do not enter. *)
Lemma process_event_keeps {A : Type} (f : PlayerState.t -> A)
    (event : GameEvent.t) (g : GameState.t) :
  (forall v p, f (PlayerState.set_life_total v p) = f p) ->
  (forall v p, f (PlayerState.set_hand v p) = f p) ->
  (forall v p, f (PlayerState.set_battlefield v p) = f p) ->
  option_map f (self_player (snd (process_event event g))) =
    option_map f (self_player g) /\
  option_map f (opponent_player (snd (process_event event g))) =
    option_map f (opponent_player g).
Proof.
  intros Hlife Hhand Hbf.
  assert (Hset : forall s p p', player_at s g = Some p -> f p' = f p ->
            option_map f (self_player (set_player_at s p' g)) =
              option_map f (self_player g) /\
            option_map f (opponent_player (set_player_at s p' g)) =
              option_map f (opponent_player g)).
  { intros s p p' Hp Hf. destruct s; cbn in *; rewrite Hp; cbn;
      rewrite Hf; split; reflexivity. }
  destruct event as [pl ol | | player card | player card
                     | player new_life | ph st | nt ap |];
    cbn [process_event snd].
  - unfold _process_game_start. cbn.
    destruct (self_player g), (opponent_player g); cbn; rewrite ?Hlife;
      split; reflexivity.
  - split; reflexivity.
  - unfold _process_draw_card.
    destruct (find_seat player g) as [s |]; [| split; reflexivity].
    destruct (player_at s g) as [p |] eqn:Hp; [| split; reflexivity].
    apply (Hset s p); [exact Hp | apply Hhand].
  - destruct (_process_play_card player card g) as [g' r] eqn:Hplay. cbn [snd].
    revert Hplay. unfold _process_play_card.
    destruct (find_seat player g) as [s |]; [| intros [= <- _]; split; reflexivity].
    destruct (player_at s g) as [p |] eqn:Hp;
      [| intros [= <- _]; split; reflexivity].
    unfold Hand.remove_card.
    destruct (Hand.find_card _ _); intros [= <- _]; apply (Hset s p _ Hp).
    + rewrite Hbf, Hhand. reflexivity.
    + apply Hhand.
  - unfold _process_life_change.
    destruct (find_seat player g) as [s |]; [| split; reflexivity].
    destruct (player_at s g) as [p |] eqn:Hp; [| split; reflexivity].
    apply (Hset s p); [exact Hp | apply Hlife].
  - split; reflexivity.
  - unfold _process_turn_change, set_active_player.
    destruct (get_player ap (set_turn_number nt g)); split; reflexivity.
  - split; reflexivity.
Qed.

Lemma process_events_keep {A : Type} (f : PlayerState.t -> A)
    (events : list GameEvent.t) (g : GameState.t) :
  (forall v p, f (PlayerState.set_life_total v p) = f p) ->
  (forall v p, f (PlayerState.set_hand v p) = f p) ->
  (forall v p, f (PlayerState.set_battlefield v p) = f p) ->
  option_map f (self_player (process_events events g)) =
    option_map f (self_player g) /\
  option_map f (opponent_player (process_events events g)) =
    option_map f (opponent_player g).
Proof.
  intros Hlife Hhand Hbf. unfold process_events. revert g.
  induction events as [| e events IH]; intros g; [split; reflexivity |].
  cbn [fold_left].
  destruct (IH (snd (process_event e g))) as [H1 H2].
  destruct (process_event_keeps f e g Hlife Hhand Hbf) as [H3 H4].
  split; congruence.
Qed.

(** Writing a player of the same id into a seat does not change which seat
    answers for an id. *)
Lemma find_seat_set_player_at (player : Z) (g : GameState.t) (s : seat)
    (p p' : PlayerState.t) :
  player_at s g = Some p ->
  PlayerState.player_id p' = PlayerState.player_id p ->
  find_seat player (set_player_at s p' g) = find_seat player g.
Proof.
  intros Hp Hid. unfold find_seat.
  destruct s; cbn in *; rewrite Hp, Hid; reflexivity.
Qed.

Lemma player_at_set_player_at (s : seat) (p : PlayerState.t) (g : GameState.t) :
  player_at s (set_player_at s p g) = Some p.
Proof. destruct s; reflexivity. Qed.

Lemma battlefield_add_card_count (card : CardInfo.t) (b : Battlefield.t) :
  length (Battlefield.get_all_cards (Battlefield.add_card card b)) =
    S (length (Battlefield.get_all_cards b)).
Proof.
  unfold Battlefield.add_card, Battlefield.get_all_cards.
  repeat match goal with
  | |- context [if CardInfo.has_type ?ty card then _ else _] =>
      destruct (CardInfo.has_type ty card)
  end; cbn; rewrite !length_app; cbn; lia.
Qed.

Lemma process_events_hands (events : list GameEvent.t) (g : GameState.t) :
  Invariant.players_satisfy Invariant.hand_within_seven g ->
  Invariant.players_satisfy Invariant.hand_within_seven (process_events events g).
Proof.
  unfold process_events. revert g.
  induction events as [| e events IH]; intros g Hg; [exact Hg |].
  cbn [fold_left]. apply IH, process_event_hands, Hg.
Qed.

(** X16. Events never overfill a hand and never unseat a player: from an
    initialized game, after any sequence of events, both players are still
    there under their ids and each hand holds at most seven cards (a draw
    into a full hand is dropped). *)
Theorem events_keep_hands_within_seven (self_id opponent_id starting_life : Z)
    (g0 : GameState.t) (events : list GameEvent.t) :
  let g := process_events events
             (snd (initialize_game self_id opponent_id starting_life g0)) in
  match self_player g with
  | Some p => PlayerState.player_id p = self_id /\ Hand.size (PlayerState.hand p) <= 7
  | None => False
  end /\
  match opponent_player g with
  | Some p => PlayerState.player_id p = opponent_id /\ Hand.size (PlayerState.hand p) <= 7
  | None => False
  end.
Proof.
  cbv zeta.
  set (g1 := snd (initialize_game self_id opponent_id starting_life g0)).
  assert (Hinit : Invariant.players_satisfy Invariant.hand_within_seven g1).
  { intros s p. destruct s; cbn; intros [= <-];
      unfold Invariant.hand_within_seven, Hand.size; cbn; lia. }
  pose proof (process_events_hands events g1 Hinit) as Hinv.
  destruct (process_events_keep PlayerState.player_id events g1)
    as [Hself Hopp]; try reflexivity.
  split.
  - destruct (self_player (process_events events g1)) as [p |] eqn:Hp;
      [| discriminate].
    injection Hself as Hid. split; [exact Hid |].
    destruct (Hinv SelfSeat p Hp). lia.
  - destruct (opponent_player (process_events events g1)) as [p |] eqn:Hp;
      [| discriminate].
    injection Hopp as Hid. split; [exact Hid |].
    destruct (Hinv OpponentSeat p Hp). lia.
Qed.

(** X17. No event touches the turn-scoped flags, the mana pool or the
    energy of a player: after any sequence of events they are what they
    were.  In particular [has_played_land_this_turn] is never set by a
    PLAY_CARD event of a land; and a PLAY_CARD event whose card is in the
    hand of a seated player is answered with [False], the move done. *)
Theorem events_leave_flags_and_mana_alone (events : list GameEvent.t)
    (g : GameState.t) :
  Invariant.seats_turn_flags (process_events events g) =
    Invariant.seats_turn_flags g /\
  option_map PlayerState.mana_pool (self_player (process_events events g)) =
    option_map PlayerState.mana_pool (self_player g) /\
  option_map PlayerState.mana_pool (opponent_player (process_events events g)) =
    option_map PlayerState.mana_pool (opponent_player g) /\
  option_map PlayerState.energy_counters (self_player (process_events events g)) =
    option_map PlayerState.energy_counters (self_player g) /\
  option_map PlayerState.energy_counters (opponent_player (process_events events g)) =
    option_map PlayerState.energy_counters (opponent_player g) /\
  (forall player card p,
      get_player player g = Some p ->
      Hand.get_card (CardInfo.instance_id card) (PlayerState.hand p) <> None ->
      fst (process_event (GameEvent.PlayCardEvent player card) g) = false).
Proof.
  destruct (process_events_keep Invariant.turn_flags events g) as [F1 F2];
    try reflexivity.
  destruct (process_events_keep PlayerState.mana_pool events g) as [M1 M2];
    try reflexivity.
  destruct (process_events_keep PlayerState.energy_counters events g) as [E1 E2];
    try reflexivity.
  split; [unfold Invariant.seats_turn_flags; rewrite F1, F2; reflexivity |].
  repeat (split; [assumption |]).
  intros player card p Hp Hin. cbn [process_event].
  unfold _process_play_card. unfold get_player in Hp.
  destruct (find_seat player g) as [s |]; [| discriminate].
  rewrite Hp. unfold Hand.remove_card, Hand.get_card in *.
  destruct (Hand.find_card _ _); [reflexivity | contradiction].
Qed.

(** X18. A PLAY_CARD event moves one card: when the card's instance id is in
    the hand of the named player, the first card of that id leaves the hand
    and the event's card joins the battlefield, so hand and battlefield
    together hold as many cards as before.  When the id is not in the hand,
    or the player is not seated, the event is answered with [True] and
    nothing changes. *)
Theorem play_card_event_moves_one_card (player : Z) (card : CardInfo.t)
    (g : GameState.t) :
  (get_player player g = None ->
     process_event (GameEvent.PlayCardEvent player card) g = (true, g)) /\
  (forall p,
     get_player player g = Some p ->
     Hand.get_card (CardInfo.instance_id card) (PlayerState.hand p) = None ->
     process_event (GameEvent.PlayCardEvent player card) g = (true, g)) /\
  (forall p,
     get_player player g = Some p ->
     Hand.get_card (CardInfo.instance_id card) (PlayerState.hand p) <> None ->
     exists p',
       get_player player (snd (process_event (GameEvent.PlayCardEvent player card) g)) =
         Some p' /\
       Hand.cards (PlayerState.hand p') =
         Hand.pop_card (CardInfo.instance_id card) (Hand.cards (PlayerState.hand p)) /\
       PlayerState.battlefield p' =
         Battlefield.add_card card (PlayerState.battlefield p) /\
       Invariant.card_count p' = Invariant.card_count p).
Proof.
  split.
  { intros Hnone. cbn [process_event]. unfold _process_play_card.
    unfold get_player in Hnone.
    destruct (find_seat player g) as [s |]; [| reflexivity].
    rewrite Hnone. reflexivity. }
  split.
  { intros p Hp Hnot. cbn [process_event]. unfold _process_play_card.
    unfold get_player in Hp.
    destruct (find_seat player g) as [s |]; [| discriminate].
    rewrite Hp. unfold Hand.remove_card, Hand.get_card in *. rewrite Hnot.
    rewrite (find_card_none_pop _ _ Hnot). cbn [try_except ret].
    f_equal. apply set_player_at_same. rewrite Hp. f_equal.
    destruct p as [? ? ? [? ?] ? ? ? ? ? ?]. reflexivity. }
  intros p Hp Hin. cbn [process_event]. unfold _process_play_card.
  unfold get_player in *.
  destruct (find_seat player g) as [s |] eqn:Hseat; [| discriminate].
  rewrite Hp. unfold Hand.remove_card, Hand.get_card in *.
  destruct (Hand.find_card _ _) as [c |] eqn:Hfind; [| contradiction].
  cbn [snd].
  eexists. split.
  { rewrite (find_seat_set_player_at player g s p _ Hp) by reflexivity.
    rewrite Hseat. apply player_at_set_player_at. }
  cbn [PlayerState.hand PlayerState.set_battlefield PlayerState.set_hand
       PlayerState.battlefield Hand.cards].
  split; [reflexivity |]. split; [reflexivity |].
  unfold Invariant.card_count.
  cbn [PlayerState.hand PlayerState.set_battlefield PlayerState.set_hand
       PlayerState.battlefield Hand.cards].
  destruct (find_card_some_split _ _ _ Hfind) as (_ & l1 & l2 & Hl & Hpop & _).
  rewrite Hpop, Hl, !length_app.
  rewrite (battlefield_add_card_count card (PlayerState.battlefield p)).
  cbn [length]. lia.
Qed.

End Events.

Section MatchState.

Import GameState.

(** X19. A winner is named exactly when the game has ended, both seats are
    taken, and a player is at 0 life or less: the opponent's id when the
    self player is, also when both are; the self player's id when only
    the opponent is.  An ended game with no one at 0 or less has no
    winner. *)
Theorem winner_is_the_seat_across_a_loss (g : GameState.t) (w : Z) :
  get_winner g = Some w <->
  status g = GameStatus.ENDED /\
  exists ps po,
    self_player g = Some ps /\ opponent_player g = Some po /\
    ((PlayerState.life_total ps <= 0 /\ w = PlayerState.player_id po) \/
     (0 < PlayerState.life_total ps /\ PlayerState.life_total po <= 0 /\
      w = PlayerState.player_id ps)).
Proof.
  unfold get_winner, is_game_ended.
  destruct (decide (status g = GameStatus.ENDED)) as [Hs | Hs].
  2: { rewrite bool_decide_eq_false_2 by exact Hs. cbn.
       split; [discriminate | intros [H _]; contradiction]. }
  rewrite bool_decide_eq_true_2 by exact Hs. cbn [negb].
  destruct (self_player g) as [ps |], (opponent_player g) as [po |]; cbn.
  - destruct (Z.leb_spec (PlayerState.life_total ps) 0) as [Hl | Hl].
    + split.
      * intros [= <-]. split; [exact Hs |]. exists ps, po. auto.
      * intros (_ & ps' & po' & [= <-] & [= <-] & [[_ ->] | [Hc _]]);
          [reflexivity | lia].
    + destruct (Z.leb_spec (PlayerState.life_total po) 0) as [Hl' | Hl'].
      * split.
        -- intros [= <-]. split; [exact Hs |]. exists ps, po.
           split; [reflexivity |]. split; [reflexivity |]. right. auto.
        -- intros (_ & ps' & po' & [= <-] & [= <-] & [[Hc _] | (_ & _ & ->)]);
             [lia | reflexivity].
      * split; [discriminate |].
        intros (_ & ps' & po' & [= <-] & [= <-] & [[Hc _] | (_ & Hc & _)]); lia.
  - destruct (PlayerState.life_total ps <=? 0);
      (split; [discriminate | intros (_ & ? & ? & _ & Hc & _); discriminate]).
  - destruct (PlayerState.life_total po <=? 0);
      (split; [discriminate | intros (_ & ? & ? & Hc & _); discriminate]).
  - split; [discriminate | intros (_ & ? & ? & Hc & _); discriminate].
Qed.

Lemma get_player_same_seats (player_id : Z) (g g' : GameState.t) :
  self_player g' = self_player g -> opponent_player g' = opponent_player g ->
  get_player player_id g' = get_player player_id g.
Proof.
  intros Hs Ho. unfold get_player, find_seat, player_at. rewrite Hs, Ho.
  reflexivity.
Qed.

(** X20. Naming the active player: [set_active_player] accepts exactly the
    ids of seated players; once accepted, [get_active_player] hands out
    that player, whose id is the one given, and nothing else of the game
    has changed.  An unknown id is refused and the game stays as it
    was. *)
Theorem active_player_round_trip (player_id : Z) (g : GameState.t) :
  match get_player player_id g with
  | Some p =>
      let g' := snd (set_active_player player_id g) in
      fst (set_active_player player_id g) = true /\
      get_active_player g' = Some p /\
      PlayerState.player_id p = player_id /\
      (status g', turn_number g', current_phase g', current_step g',
       priority_player g', self_player g', opponent_player g') =
      (status g, turn_number g, current_phase g, current_step g,
       priority_player g, self_player g, opponent_player g)
  | None => set_active_player player_id g = (false, g)
  end.
Proof.
  destruct (get_player player_id g) as [p |] eqn:Hp.
  - unfold set_active_player. rewrite Hp. cbn [fst snd].
    split; [reflexivity |]. split.
    + unfold get_active_player. cbn [active_player].
      rewrite <- Hp. apply get_player_same_seats; reflexivity.
    + split; [exact (get_player_id _ _ _ Hp) | reflexivity].
  - unfold set_active_player. rewrite Hp. reflexivity.
Qed.

End MatchState.

Section BoardTotals.

Import PlayerState.

Lemma total_power_snoc (l : list CardInfo.t) (c : CardInfo.t) (z : Z) :
  fold_left (fun total creature =>
               match CardInfo.power creature with
               | Some n => total + n
               | None => total
               end) (l ++ [c]) z =
  fold_left (fun total creature =>
               match CardInfo.power creature with
               | Some n => total + n
               | None => total
               end) l z +
  match CardInfo.power c with Some n => n | None => 0 end.
Proof.
  rewrite fold_left_app. cbn [fold_left].
  destruct (CardInfo.power c); lia.
Qed.

(** X21. The board totals follow the card that enters: putting a card on
    the battlefield raises the total power by the card's power when it is
    a creature with a power, the creature count by one when it is a
    creature, and the land count by one when it is a land and not a
    creature (a card is filed under its first category only). *)
Theorem board_totals_follow_the_entering_card (card : CardInfo.t) (p : PlayerState.t) :
  let p' := set_battlefield (Battlefield.add_card card (battlefield p)) p in
  get_total_power p' =
    get_total_power p +
    (if CardInfo.has_type CardType.CREATURE card
     then match CardInfo.power card with Some n => n | None => 0 end
     else 0) /\
  get_creature_count p' =
    get_creature_count p +
    (if CardInfo.has_type CardType.CREATURE card then 1 else 0) /\
  get_land_count p' =
    get_land_count p +
    (if negb (CardInfo.has_type CardType.CREATURE card) &&
        CardInfo.has_type CardType.LAND card then 1 else 0).
Proof.
  cbv zeta. unfold get_total_power, get_creature_count, get_land_count.
  cbn [battlefield set_battlefield]. unfold Battlefield.add_card.
  destruct (CardInfo.has_type CardType.CREATURE card);
    [| destruct (CardInfo.has_type CardType.LAND card);
       [| destruct (CardInfo.has_type CardType.ARTIFACT card);
          [| destruct (CardInfo.has_type CardType.ENCHANTMENT card);
             [| destruct (CardInfo.has_type CardType.PLANESWALKER card)]]]];
    cbn [Battlefield.creatures Battlefield.lands negb andb];
    rewrite ?total_power_snoc, ?length_app; cbn [length]; lia.
Qed.

End BoardTotals.

Section TwoPasses.

Import TimingRules.

Lemma advance_phase_first_step (g : GameState.t) (ph ph' : Phase.t) :
  GameState.current_phase g = Some ph ->
  (ph, ph') ∈ Cycle.first_steps ->
  _advance_phase g = GameState.set_phase ph' None g.
Proof.
  intros Hcur Hin. unfold Cycle.first_steps in Hin.
  destruct (advance_phase_first_steps g) as (H1 & H2 & H3 & H4 & H5 & H6 & H7).
  repeat (apply elem_of_cons in Hin as [[= -> ->] | Hin]; [auto |]).
  apply elem_of_nil in Hin. contradiction.
Qed.

(** X22. Two passes, one by each of the two registered players in either
    order, from an empty pass set in one of the first seven steps (untap
    to declare blockers): the phase moves to the next step of the cycle,
    the step name is cleared, the pass set is empty again, and the turn
    number, the active player and both players' states are as before. *)
Theorem two_passes_advance_one_early_step (tr : TimingRules.t)
    (ps po : PlayerState.t) (x y : Z) (ph ph' : Phase.t) :
  GameState.self_player (game_state tr) = Some ps ->
  GameState.opponent_player (game_state tr) = Some po ->
  PlayerState.player_id ps <> PlayerState.player_id po ->
  priority_passed tr = ∅ ->
  (x = PlayerState.player_id ps /\ y = PlayerState.player_id po) \/
  (x = PlayerState.player_id po /\ y = PlayerState.player_id ps) ->
  GameState.current_phase (game_state tr) = Some ph ->
  (ph, ph') ∈ Cycle.first_steps ->
  let tr2 := snd (pass_priority y (snd (pass_priority x tr))) in
  GameState.current_phase (game_state tr2) = Some ph' /\
  GameState.current_step (game_state tr2) = None /\
  priority_passed tr2 = ∅ /\
  GameState.turn_number (game_state tr2) = GameState.turn_number (game_state tr) /\
  GameState.active_player (game_state tr2) = GameState.active_player (game_state tr) /\
  GameState.self_player (game_state tr2) = Some ps /\
  GameState.opponent_player (game_state tr2) = Some po.
Proof.
  intros Hself Hopp Hdistinct Hempty Hxy Hcur Hin. cbv zeta.
  assert (Hfirst : ~ (PlayerState.player_id ps ∈ {[x]} ∪ priority_passed tr /\
                      PlayerState.player_id po ∈ {[x]} ∪ priority_passed tr)).
  { rewrite Hempty, union_empty_r_L. intros [Ha Hb].
    apply elem_of_singleton in Ha, Hb. congruence. }
  rewrite (pass_priority_not_all tr ps po x Hself Hopp Hdistinct Hfirst).
  cbv zeta. cbn [snd]. rewrite Hempty, union_empty_r_L.
  match goal with
  | |- context [pass_priority y ?t] => set (tr1 := t)
  end.
  assert (Ha : PlayerState.player_id ps ∈ {[y]} ∪ priority_passed tr1).
  { cbn [tr1 priority_passed].
    destruct Hxy as [[-> ->] | [-> ->]];
      [apply elem_of_union_r | apply elem_of_union_l];
      apply elem_of_singleton; reflexivity. }
  assert (Hb : PlayerState.player_id po ∈ {[y]} ∪ priority_passed tr1).
  { cbn [tr1 priority_passed].
    destruct Hxy as [[-> ->] | [-> ->]];
      [apply elem_of_union_l | apply elem_of_union_r];
      apply elem_of_singleton; reflexivity. }
  rewrite (pass_priority_all tr1 ps po y Hself Hopp Ha Hb).
  rewrite (advance_phase_first_step (game_state tr1) ph ph' Hcur Hin).
  repeat split; assumption.
Qed.

Lemma two_passes_advance_one_early_step_witness :
  let tr2 := Scenario.both_pass (Scenario.at_phase Phase.FIRST_MAIN) in
  GameState.current_phase (game_state tr2) = Some Phase.COMBAT_BEGIN /\
  priority_passed tr2 = ∅.
Proof.
  cbv zeta.
  pose proof (two_passes_advance_one_early_step
    (Scenario.at_phase Phase.FIRST_MAIN)
    (PlayerState.new 1 20) (PlayerState.new 2 20) 1 2
    Phase.FIRST_MAIN Phase.COMBAT_BEGIN eq_refl eq_refl) as H.
  cbv zeta in H.
  destruct H as (Hphase & _ & Hset & _).
  - simpl. lia.
  - reflexivity.
  - left. split; reflexivity.
  - reflexivity.
  - unfold Cycle.first_steps.
    do 3 (apply elem_of_cons; right). apply elem_of_cons. left. reflexivity.
  - split; [exact Hphase | exact Hset].
Defined.

End TwoPasses.

Section Performing.

Import TimingRules TimingChecks.

(** X23. Responding needs only not to have passed: a player can respond to
    an action exactly when the action is the casting of a spell or the
    activation of an ability and the player is not in the pass set.  The
    priority tests of [can_respond_to] and [_can_player_respond] add
    nothing, since every player outside the pass set has priority; and
    the active player, who has priority also after passing, cannot respond
    once in the pass set. *)
Theorem responding_needs_only_not_to_have_passed (tr : TimingRules.t)
    (action : Action.t) (responding_player_id : Z) :
  can_respond_to tr action responding_player_id =
    _is_action_on_stack action &&
    negb (bool_decide (responding_player_id ∈ priority_passed tr)).
Proof.
  unfold can_respond_to, _can_player_respond, _player_has_priority.
  destruct (bool_decide (GameState.active_player (game_state tr) =
                           Some responding_player_id));
    destruct (bool_decide (GameState.priority_player (game_state tr) =
                             Some responding_player_id));
    destruct (bool_decide (responding_player_id ∈ priority_passed tr));
    destruct (_is_action_on_stack action); reflexivity.
Qed.

(** X24. Playing a land passes the timing checks exactly when the game is
    active, the player is seated and alive, the player is the active
    player, the phase is one of the two main phases and the step is none
    of Upkeep, Draw and End.  The pass set plays no part: the active
    player always has priority. *)
Theorem land_can_be_performed_by_the_active_player_in_main (tr : TimingRules.t)
    (owner player_id : Z) (card : CardInfo.t) (land_type : option string) :
  can_perform_action tr (Action.PlayLandAction owner card land_type) player_id =
    GameState.is_game_active (game_state tr) &&
    match GameState.get_player player_id (game_state tr) with
    | Some player => PlayerState.is_alive player
    | None => false
    end &&
    bool_decide (GameState.active_player (game_state tr) = Some player_id) &&
    bool_decide (GameState.current_phase (game_state tr) ∈
                   [Some Phase.FIRST_MAIN; Some Phase.SECOND_MAIN]) &&
    negb (bool_decide (GameState.current_step (game_state tr) ∈
                         [Some "Upkeep"%string; Some "Draw"%string;
                          Some "End"%string])).
Proof.
  unfold can_perform_action, can_perform_action_body, _check_basic_timing,
    _check_priority, _check_phase_timing, _check_step_timing,
    _player_has_priority.
  cbn [Action.action_type Action.timing].
  destruct (GameState.is_game_active (game_state tr)); [| reflexivity].
  destruct (GameState.get_player player_id (game_state tr)) as [player |];
    [| reflexivity].
  destruct (PlayerState.is_alive player); [| reflexivity].
  destruct (decide (GameState.active_player (game_state tr) = Some player_id))
    as [Hact | Hact].
  2: { rewrite !(bool_decide_eq_false_2 _ Hact). reflexivity. }
  rewrite !(bool_decide_eq_true_2 _ Hact).
  cbn -[bool_decide elem_of].
  destruct (bool_decide (GameState.current_phase (game_state tr) ∈
                           [Some Phase.FIRST_MAIN; Some Phase.SECOND_MAIN]));
    [| reflexivity].
  cbn -[bool_decide elem_of].
  destruct (GameState.current_step (game_state tr)) as [step |]; [| reflexivity].
  destruct (decide (step = "Upkeep"%string)) as [-> | H1]; [reflexivity |].
  rewrite (bool_decide_eq_false_2 (Some step = Some "Upkeep"%string))
    by congruence.
  destruct (decide (step = "Draw"%string)) as [-> | H2]; [reflexivity |].
  rewrite (bool_decide_eq_false_2 (Some step = Some "Draw"%string))
    by congruence.
  destruct (decide (step = "End"%string)) as [-> | H3]; [reflexivity |].
  rewrite (bool_decide_eq_false_2 (Some step = Some "End"%string))
    by congruence.
  symmetry. cbn [try_except ret andb]. apply negb_true_iff.
  apply bool_decide_eq_false_2. intros Hin.
  repeat (apply elem_of_cons in Hin as [[= ?] | Hin]; [contradiction |]).
  apply elem_of_nil in Hin. exact Hin.
Qed.

(** X25. Conceding passes the timing checks for every seated, living
    player of an active game, in every phase and step, with or without
    priority; for any other player, or in a game that is not active, it
    does not.  Passing priority needs priority in addition. *)
Theorem concede_can_always_be_performed (tr : TimingRules.t)
    (owner player_id : Z) :
  can_perform_action tr (Action.ConcedeAction owner) player_id =
    GameState.is_game_active (game_state tr) &&
    match GameState.get_player player_id (game_state tr) with
    | Some player => PlayerState.is_alive player
    | None => false
    end /\
  can_perform_action tr (Action.PassPriorityAction owner) player_id =
    can_perform_action tr (Action.ConcedeAction owner) player_id &&
    _player_has_priority player_id tr.
Proof.
  unfold can_perform_action, can_perform_action_body, _check_basic_timing,
    _check_priority, _check_phase_timing, _check_step_timing.
  cbn [Action.action_type Action.timing].
  destruct (GameState.is_game_active (game_state tr)); [| split; reflexivity].
  destruct (GameState.get_player player_id (game_state tr)) as [player |];
    [| split; reflexivity].
  destruct (PlayerState.is_alive player); [| split; reflexivity].
  destruct (_player_has_priority player_id tr);
    destruct (bool_decide (GameState.current_step (game_state tr) = Some "Upkeep"%string));
    destruct (bool_decide (GameState.current_step (game_state tr) = Some "Draw"%string));
    destruct (bool_decide (GameState.current_step (game_state tr) = Some "End"%string));
    split; reflexivity.
Qed.

End Performing.

Section PlayingCards.

Import PlayerState CardRestrictionEngine.

(** Reading [type_line] on a card that carries none raises, first of all
    in the card-specific check of the card itself. *)
Lemma card_specific_check_needs_type_line (card : CardInfo.t)
    (player : PlayerState.t) :
  CardInfo.type_line card = None ->
  _is_legendary card = raise (AttributeError "type_line") /\
  _check_card_specific_restrictions card player =
    raise (AttributeError "type_line").
Proof.
  intros Hnone.
  unfold _check_card_specific_restrictions, _is_legendary,
    CardInfo.get_type_line.
  rewrite Hnone. split; reflexivity.
Qed.

(** X26. A card without a type line is never playable, and no object of
    the declared [CardInfo] class has one.  For such a card [_is_legendary]
    raises [AttributeError]; when the basic restrictions pass, the body of
    [can_play_card] raises with it at the card-specific check, before the
    zone and the timing are looked at; and [can_play_card] answers [False]
    whatever the game, the hand and the battlefield are. *)
Theorem card_without_type_line_is_never_playable (g : GameState.t)
    (card : CardInfo.t) (player : PlayerState.t) :
  CardInfo.type_line card = None ->
  _is_legendary card = raise (AttributeError "type_line") /\
  (_check_basic_restrictions card player = true ->
     can_play_card_body g card player = raise (AttributeError "type_line")) /\
  (_check_basic_restrictions card player = false ->
     can_play_card_body g card player = ret false) /\
  can_play_card g card player = false.
Proof.
  intros Hnone.
  destruct (card_specific_check_needs_type_line card player Hnone)
    as [Hlegendary Hspecific].
  split; [exact Hlegendary |].
  unfold can_play_card, can_play_card_body. rewrite Hspecific.
  destruct (_check_basic_restrictions card player);
    repeat split; intros; try discriminate; reflexivity.
Qed.

(** The land of [test_can_play_land], in the hand of the active player 1
    who has played no land: the test asserts [True]. *)
Lemma card_without_type_line_is_never_playable_witness :
  _check_basic_restrictions Scenario.plains (Scenario.holding Scenario.plains) = true /\
  can_play_card_body Scenario.game_active_1 Scenario.plains
                     (Scenario.holding Scenario.plains) =
    raise (AttributeError "type_line") /\
  can_play_card Scenario.game_active_1 Scenario.plains
                (Scenario.holding Scenario.plains) = false.
Proof.
  destruct (card_without_type_line_is_never_playable
              Scenario.game_active_1 Scenario.plains
              (Scenario.holding Scenario.plains))
    as (_ & Hbody & _ & Hcan).
  - reflexivity.
  - split; [reflexivity |]. split; [apply Hbody; reflexivity | exact Hcan].
Defined.

(** X27. An ability used this turn cannot be activated again: after
    [use_ability], [can_activate_ability] answers [False] for that
    ability whatever the card and the game; and once the turn flags are
    reset, it answers [True] exactly when the card's instance id is on
    the player's battlefield, the card lists the ability and the player is
    the active player. *)
Theorem used_ability_cannot_be_activated_again (g : GameState.t)
    (card : CardInfo.t) (ability : string) (player : PlayerState.t) :
  can_activate_ability g card ability (snd (use_ability ability player)) = false /\
  can_activate_ability g card ability
      (reset_turn_flags (snd (use_ability ability player))) =
    _is_card_on_battlefield card player &&
    bool_decide (ability ∈ CardInfo.abilities card) &&
    bool_decide (GameState.active_player g = Some (player_id player)).
Proof.
  unfold can_activate_ability, _can_activate_ability_type, can_use_ability,
    CardRestrictionEngine._player_has_priority, _is_card_on_battlefield,
    use_ability.
  cbn [snd reset_turn_flags set_has_used_ability_this_turn battlefield
       has_used_ability_this_turn player_id].
  split.
  - destruct (Battlefield.get_card _ _); [| reflexivity]. cbn [negb].
    destruct (bool_decide (ability ∈ CardInfo.abilities card)); [| reflexivity].
    cbn [negb].
    rewrite (bool_decide_eq_false_2
               (ability ∉ {[ability]} ∪ has_used_ability_this_turn player));
      [reflexivity |].
    intros Hnot. apply Hnot, elem_of_union_l, elem_of_singleton. reflexivity.
  - destruct (Battlefield.get_card _ _); [| reflexivity]. cbn [negb andb].
    destruct (bool_decide (ability ∈ CardInfo.abilities card)); [| reflexivity].
    cbn [negb andb].
    rewrite (bool_decide_eq_true_2 (ability ∉ (∅ : gset string)))
      by apply not_elem_of_empty.
    cbn [negb].
    destruct (bool_decide (GameState.active_player g = Some (player_id player)));
      reflexivity.
Qed.

End PlayingCards.

Section Generating.

(** Membership in a list that is written out. *)
Ltac listed := repeat (apply elem_of_cons; first [left; reflexivity | right]).

Import PlayerState LegalityEngine.

Lemma play_land_actions_owner (player_id : Z) (cards : list CardInfo.t)
    (actions : list Action.t) :
  play_land_actions player_id cards = ret actions ->
  List.Forall (fun a => Action.player_id a = player_id) actions.
Proof.
  revert actions. induction cards as [| c l IH]; intros actions.
  - intros [= <-]. constructor.
  - cbn [play_land_actions].
    destruct (CardInfo.has_type CardType.LAND c); [| apply IH].
    destruct (_get_land_type c) as [e | land_type]; [discriminate |].
    cbn -[play_land_actions].
    destruct (play_land_actions player_id l) as [e | rest]; [discriminate |].
    intros [= <-]. constructor; [reflexivity | apply IH; reflexivity].
Qed.

Lemma main_phase_actions_owner (player : PlayerState.t) (is_active : bool)
    (actions : list Action.t) :
  _generate_main_phase_actions player is_active = ret actions ->
  List.Forall (fun a => Action.player_id a = PlayerState.player_id player) actions.
Proof.
  unfold _generate_main_phase_actions.
  destruct (if is_active && can_play_land player
            then play_land_actions (PlayerState.player_id player)
                   (Hand.cards (hand player))
            else ret []) as [e | lands] eqn:Hlands; [discriminate |].
  intros [= <-].
  apply List.Forall_app. split.
  - destruct (is_active && can_play_land player).
    + apply (play_land_actions_owner _ _ _ Hlands).
    + injection Hlands as <-. constructor.
  - apply List.Forall_app. split.
    + apply List.Forall_forall. intros a Ha. apply in_map_iff in Ha.
      destruct Ha as (c & <- & _). reflexivity.
    + apply List.Forall_forall. intros a Ha. apply in_flat_map in Ha.
      destruct Ha as (c & _ & Ha). apply in_map_iff in Ha.
      destruct Ha as (ab & <- & _). reflexivity.
Qed.

Lemma phase_actions_owner (player : PlayerState.t) (is_active : bool) :
  List.Forall (fun a => Action.player_id a = PlayerState.player_id player)
    (_generate_attack_actions player is_active) /\
  List.Forall (fun a => Action.player_id a = PlayerState.player_id player)
    (_generate_block_actions player is_active) /\
  List.Forall (fun a => Action.player_id a = PlayerState.player_id player)
    (_generate_damage_actions player is_active) /\
  List.Forall (fun a => Action.player_id a = PlayerState.player_id player)
    (_generate_always_available_actions player).
Proof.
  unfold _generate_attack_actions, _generate_block_actions,
    _generate_damage_actions, _generate_always_available_actions.
  repeat split.
  - destruct (is_active && can_attack player); [| constructor].
    destruct (Battlefield.get_creatures _); repeat constructor.
  - destruct (negb is_active); [| constructor].
    destruct (Battlefield.get_creatures _); repeat constructor.
  - apply List.Forall_forall. intros a Ha. apply in_map_iff in Ha.
    destruct Ha as (c & <- & _). reflexivity.
  - repeat constructor.
Qed.

(** X28. What is generated is legal and the player's own: every action in
    the list of [_generate_legal_actions] for a player passes
    [is_action_legal] in the same game state and carries that player's
    id. *)
Theorem generated_actions_are_legal_and_owned (g : GameState.t) (player_id : Z) :
  List.Forall
    (fun a => is_action_legal g a = true /\ Action.player_id a = player_id)
    (_generate_legal_actions g player_id).
Proof.
  unfold _generate_legal_actions, generate_legal_actions_body.
  destruct (GameState.get_player player_id g) as [player |] eqn:Hp;
    [| constructor].
  pose proof (get_player_id _ _ _ Hp) as Hid.
  destruct (phase_actions_owner player
              (bool_decide (GameState.active_player g = Some player_id)))
    as (Hatt & Hblk & Hdmg & Halways).
  match goal with
  | |- context [match ?m with inl _ => _ | inr _ => _ end] =>
      destruct m as [e | phase_actions] eqn:Hphase
  end.
  - constructor.
  - cbn [try_except ret].
    assert (Hown : List.Forall
              (fun a => Action.player_id a = PlayerState.player_id player)
              phase_actions).
    { revert Hphase.
      repeat match goal with
      | |- context [if ?b then _ else _] => destruct b
      end; try (intros [= <-]; assumption || constructor).
      all: apply main_phase_actions_owner. }
    apply List.Forall_forall. intros a Ha. apply filter_In in Ha.
    destruct Ha as [Ha Hlegal]. split; [exact Hlegal |].
    apply in_app_or in Ha. rewrite <- Hid.
    destruct Ha as [Ha | Ha];
      [exact (proj1 (List.Forall_forall _ _) Hown a Ha)
      | exact (proj1 (List.Forall_forall _ _) Halways a Ha)].
Qed.

Lemma always_available_legal (g : GameState.t) (player_id : Z)
    (player : PlayerState.t) :
  GameState.is_game_active g = true ->
  GameState.get_player player_id g = Some player ->
  is_alive player = true ->
  List.filter (is_action_legal g) (_generate_always_available_actions player) =
    [ Action.PassPriorityAction player_id; Action.ConcedeAction player_id;
      Action.DrawCardAction player_id ].
Proof.
  intros Hactive Hp Halive.
  pose proof (get_player_id _ _ _ Hp) as Hid.
  unfold _generate_always_available_actions. rewrite Hid.
  cbn [List.filter].
  unfold is_action_legal, is_action_legal_body, _validate_basic_requirements,
    _validate_resources, _validate_timing.
  cbn [Action.player_id Action.timing]. rewrite Hactive, Hp, Halive.
  reflexivity.
Qed.

(** X29. Outside the main phases and the declare-attackers,
    declare-blockers and combat-damage steps, a seated living player of an
    active game has exactly three legal actions: pass priority, concede,
    draw a card.  In the beginning-of-combat step the generator proposes a
    declare-attackers action to the active player with creatures, and the
    legality filter removes it, its timing being the declare-attackers
    step. *)
Theorem quiet_phases_offer_pass_concede_draw (g : GameState.t) (player_id : Z)
    (player : PlayerState.t) :
  GameState.is_game_active g = true ->
  GameState.get_player player_id g = Some player ->
  is_alive player = true ->
  GameState.current_phase g ∉
    [Some Phase.FIRST_MAIN; Some Phase.SECOND_MAIN; Some Phase.DECLARE_ATTACKERS;
     Some Phase.DECLARE_BLOCKERS; Some Phase.COMBAT_DAMAGE] ->
  _generate_legal_actions g player_id =
    [ Action.PassPriorityAction player_id; Action.ConcedeAction player_id;
      Action.DrawCardAction player_id ].
Proof.
  intros Hactive Hp Halive Hquiet.
  assert (Hne : forall ph,
             Some ph ∈ [Some Phase.FIRST_MAIN; Some Phase.SECOND_MAIN;
                        Some Phase.DECLARE_ATTACKERS; Some Phase.DECLARE_BLOCKERS;
                        Some Phase.COMBAT_DAMAGE] ->
             bool_decide (GameState.current_phase g = Some ph) = false).
  { intros ph Hin. apply bool_decide_eq_false_2. intros Heq.
    apply Hquiet. rewrite Heq. exact Hin. }
  unfold _generate_legal_actions, generate_legal_actions_body. rewrite Hp.
  rewrite (Hne Phase.FIRST_MAIN) by listed.
  rewrite (Hne Phase.SECOND_MAIN) by listed.
  rewrite (Hne Phase.DECLARE_ATTACKERS) by listed.
  rewrite (Hne Phase.DECLARE_BLOCKERS) by listed.
  rewrite (Hne Phase.COMBAT_DAMAGE) by listed.
  cbn [orb].
  destruct (bool_decide (GameState.current_phase g = Some Phase.COMBAT_BEGIN))
    eqn:Hbegin; cbn [ret try_except].
  - apply bool_decide_eq_true in Hbegin.
    rewrite List.filter_app, (always_available_legal g player_id player Hactive Hp Halive).
    unfold _generate_attack_actions.
    destruct (bool_decide (GameState.active_player g = Some player_id) &&
              can_attack player); [| reflexivity].
    destruct (Battlefield.get_creatures (battlefield player)) as [| c l];
      [reflexivity |].
    cbn [List.filter].
    unfold is_action_legal at 1, is_action_legal_body, _validate_basic_requirements,
      _validate_timing.
    cbn [Action.player_id Action.timing].
    rewrite (get_player_id _ _ _ Hp), Hactive, Hp, Halive, Hbegin.
    reflexivity.
  - cbn [app].
    rewrite (always_available_legal g player_id player Hactive Hp Halive).
    reflexivity.
Qed.

Lemma quiet_phases_offer_pass_concede_draw_witness :
  _generate_legal_actions (Sample.game_at Phase.UPKEEP) 1 =
    [ Action.PassPriorityAction 1; Action.ConcedeAction 1;
      Action.DrawCardAction 1 ].
Proof.
  apply (quiet_phases_offer_pass_concede_draw
           (Sample.game_at Phase.UPKEEP) 1 (PlayerState.new 1 20)).
  - reflexivity.
  - reflexivity.
  - reflexivity.
  - vm_compute. intros Hin.
    repeat (apply elem_of_cons in Hin as [Hin | Hin]; [discriminate |]).
    apply elem_of_nil in Hin. exact Hin.
Defined.

End Generating.
